(** * PSP reconciliation pipeline: a shallow embedding and its properties

    The development follows the four stages of the backend:
    - [services/ledger/ledger_service.py]          (module [Ledger]),
    - [services/reconciliation/matching_engine.py] (module [Matching]),
    - [services/normalization/normalizer.py]       (module [Normalizer]),
    - [services/ingestion/webhook_handler.py]      (module [Webhook]),
    over a common model of Python values ([Py]) and of the canonical
    store ([Store]); the properties come last.

    Modelling conventions, used throughout.
    - Python [int] is [Z].  A Python [float] is modelled by the exact
      rational [Q] it denotes (percentages, FX rates) or, where the code
      only ever stores an integral value in it (confidence scores), by
      that integer; rounding of IEEE doubles is not modelled.
    - Identifiers (UUIDs) are opaque tokens of type [N]; the conversions
      [UUID(x)] and [str(x)] between an identifier and its text are the
      identity of the model, which does not follow the run-time type of
      an identifier.  Likewise [x.value] on an enumeration field is the
      member's string.  [uuid4()] draws from a supply of fresh tokens
      that is part of the state.
    - Operators and attribute lookups of the code's own values are
      followed: arithmetic on [None], a date subtracted from a string or
      a member an enumeration does not have raise as in Python.
    - A [date] is a day number, so that [(d1 - d2).days] is [d1 - d2].
    - A relational table is the list of its rows in the order the store
      returns them; [fetchone()] is the head of the filtered list.  A
      query is read for what it selects; the SQL text is not parsed.
    - A SQLAlchemy session works on a private copy of the database;
      [session.commit()] publishes the copy, and leaving the [with] block
      (normally or by an exception) drops whatever was not committed.
    - The external services (DynamoDB, S3, Kinesis, the database) always
      answer.  Timestamps ([NOW()], [datetime.utcnow()]) are not part
      of the rows of the model. *)

From Stdlib Require Import ZArith QArith Qabs Lia Ascii String.
From stdpp Require Import base option list strings gmap.

Local Open Scope Z_scope.

(* ===================================================================== *)
(** * Python values and exceptions                                        *)
(* ===================================================================== *)

Module Py.

Definition UUID := N.
Definition date := Z.

Inductive exn : Type :=
| ValueError (msg : string)
| TypeError
| AttributeError
| ValidationError
| HTTPException (status_code : Z) (detail : string).

Inductive result (A : Type) : Type :=
| Ok (a : A)
| Raise (e : exn).
Arguments Ok {A} a.
Arguments Raise {A} e.

(** State-and-exception monad: a raised exception keeps the state
    reached so far (what is published of it is decided by the caller,
    see [Store.with_session]). *)
Definition SE (S A : Type) : Type := S -> result A * S.

Definition ret {S A} (a : A) : SE S A := fun s => (Ok a, s).
Definition raise {S A} (e : exn) : SE S A := fun s => (Raise e, s).
Definition bind {S A B} (m : SE S A) (k : A -> SE S B) : SE S B :=
  fun s => match m s with
           | (Ok a, s') => k a s'
           | (Raise e, s') => (Raise e, s')
           end.
Definition gets {S A} (f : S -> A) : SE S A := fun s => (Ok (f s), s).
Definition modify {S} (f : S -> S) : SE S unit := fun s => (Ok tt, f s).

(** Truthiness of an optional string: [None] and [''] are falsy. *)
Definition truthy (o : option string) : bool :=
  match o with
  | Some s => negb (String.eqb s "")
  | None => false
  end.

(** [int(x)] on a float: truncation towards zero. *)
Definition int_of_float (q : Q) : Z := Z.quot (Qnum q) (Zpos (Qden q)).

(** [a - b] and [a > b] on integers that may be [None]. *)
Definition sub_int {S} (a : Z) (b : option Z) : SE S Z :=
  match b with
  | Some b => ret (a - b)
  | None => raise TypeError
  end.
Definition gt_int {S} (a : option Z) (b : Z) : SE S bool :=
  match a with
  | Some a => ret (b <? a)
  | None => raise TypeError
  end.

(** The values a fetched column can hold, as far as [-] between
    dates is concerned: only two dates can be subtracted. *)
Inductive pyval : Type :=
| PyStr (s : string)
| PyInt (z : Z)
| PyDate (d : date).

(** [(a - b).days]. *)
Definition sub_days {S} (a b : pyval) : SE S Z :=
  match a, b with
  | PyDate x, PyDate y => ret (x - y)
  | _, _ => raise TypeError
  end.

(** [a < b] on floats, and the truth value of an optional float
    ([None] and [0.0] are falsy). *)
Definition Qltb (a b : Q) : bool := negb (Qle_bool b a).
Definition truthy_float (o : option Q) : bool :=
  match o with
  | Some q => negb (Qeq_bool q 0)
  | None => false
  end.

(** ASCII case mapping, the part of [str.lower]/[str.upper] the
    literals of the code can meet. *)
Definition lower_ascii (c : ascii) : ascii :=
  let n := nat_of_ascii c in
  if ((65 <=? n) && (n <=? 90))%nat then ascii_of_nat (n + 32) else c.
Definition upper_ascii (c : ascii) : ascii :=
  let n := nat_of_ascii c in
  if ((97 <=? n) && (n <=? 122))%nat then ascii_of_nat (n - 32) else c.
Fixpoint lower (s : string) : string :=
  match s with
  | EmptyString => EmptyString
  | String c s' => String (lower_ascii c) (lower s')
  end.
Fixpoint upper (s : string) : string :=
  match s with
  | EmptyString => EmptyString
  | String c s' => String (upper_ascii c) (upper s')
  end.

(** [s.split(sep)[0]]: the text before the first separator. *)
Fixpoint split_head (sep : ascii) (s : string) : string :=
  match s with
  | EmptyString => EmptyString
  | String c s' => if Ascii.eqb c sep then EmptyString
                   else String c (split_head sep s')
  end.

End Py.
Export Py.

Declare Scope py_scope.
Delimit Scope py_scope with py.
Notation "x <~ m ;; k" := (Py.bind m (fun x => k))
  (at level 100, m at next level, right associativity) : py_scope.
Notation "m ;;; k" := (Py.bind m (fun _ => k))
  (at level 100, right associativity) : py_scope.

(* ===================================================================== *)
(** * The canonical store                                                 *)
(* ===================================================================== *)

Module Store.

(** [normalized_transaction] (the columns the pipeline reads or
    writes). *)
Record txn_row : Type := {
  t_transaction_id : UUID;
  t_tenant_id : UUID;
  t_brand_id : UUID;
  t_entity_id : UUID;
  t_psp_connection_id : string;
  t_event_type : string;
  t_transaction_date : date;
  t_amount_value : Z;
  t_amount_currency : string;
  t_amount_original_currency : option string;
  t_amount_fx_rate : option Q;
  t_psp_transaction_id : string;
  t_psp_payment_id : option string;
  t_psp_settlement_id : option string;
  t_customer_id : option string;
  t_psp_fee : option Z;
  t_net_amount : option Z;
  t_status : string;
  t_reconciliation_status : string;
  t_source_idempotency_key : string
}.

(** [psp_settlement]. *)
Record settlement_row : Type := {
  s_settlement_id : UUID;
  s_tenant_id : UUID;
  s_psp_connection_id : string;
  s_settlement_date : date;
  s_settlement_batch_id : string;
  s_settlement_line_number : Z;
  s_amount_value : Z;
  s_amount_currency : string;
  s_psp_settlement_id : option string;
  s_psp_transaction_ids : list string
}.

(** [reconciliation_match]. *)
Record match_row : Type := {
  m_match_id : UUID;
  m_tenant_id : UUID;
  m_transaction_id : UUID;
  m_settlement_id : option UUID;
  m_match_level : Z;
  m_confidence_score : Z;
  m_match_method : string;
  m_amount_difference : option Z;
  m_amount_difference_percent : option Q;
  m_status : string
}.

(** [reconciliation_exception]. *)
Record exception_row : Type := {
  x_exception_id : UUID;
  x_tenant_id : UUID;
  x_transaction_id : option UUID;
  x_settlement_id : option UUID;
  x_exception_type : string;
  x_exception_reason : string;
  x_amount_value : Z;
  x_amount_currency : string;
  x_priority : string;
  x_status : string
}.

(** [ledger_entry]; the amount column receives whatever the poster
    binds to [:amount], [None] (SQL NULL) included. *)
Record ledger_row : Type := {
  l_ledger_entry_id : UUID;
  l_tenant_id : UUID;
  l_entity_id : UUID;
  l_transaction_date : date;
  l_account_debit : string;
  l_account_credit : string;
  l_amount : option Z;
  l_currency : string;
  l_reference_transaction_id : UUID;
  l_reference_match_id : UUID;
  l_description : string
}.

(** [psp_connection], [entity] and [fx_rate]. *)
Record connection_row : Type := {
  c_psp_connection_id : string;
  c_tenant_id : UUID;
  c_entity_id : UUID
}.
Record entity_row : Type := {
  e_entity_id : UUID;
  e_brand_id : UUID;
  e_base_currency : string
}.
Record fx_row : Type := {
  f_from_currency : string;
  f_to_currency : string;
  f_rate_date : date;
  f_rate : Q;
  f_rate_source : string
}.

Record database : Type := {
  normalized_transaction : list txn_row;
  psp_settlement : list settlement_row;
  reconciliation_match : list match_row;
  reconciliation_exception : list exception_row;
  ledger_entry : list ledger_row;
  psp_connection : list connection_row;
  entity : list entity_row;
  fx_rate : list fx_row
}.

Definition set_normalized_transaction (f : list txn_row -> list txn_row)
    (d : database) : database :=
  {| normalized_transaction := f (normalized_transaction d);
     psp_settlement := psp_settlement d;
     reconciliation_match := reconciliation_match d;
     reconciliation_exception := reconciliation_exception d;
     ledger_entry := ledger_entry d;
     psp_connection := psp_connection d;
     entity := entity d;
     fx_rate := fx_rate d |}.

Definition set_reconciliation_match (f : list match_row -> list match_row)
    (d : database) : database :=
  {| normalized_transaction := normalized_transaction d;
     psp_settlement := psp_settlement d;
     reconciliation_match := f (reconciliation_match d);
     reconciliation_exception := reconciliation_exception d;
     ledger_entry := ledger_entry d;
     psp_connection := psp_connection d;
     entity := entity d;
     fx_rate := fx_rate d |}.

Definition set_reconciliation_exception
    (f : list exception_row -> list exception_row) (d : database) : database :=
  {| normalized_transaction := normalized_transaction d;
     psp_settlement := psp_settlement d;
     reconciliation_match := reconciliation_match d;
     reconciliation_exception := f (reconciliation_exception d);
     ledger_entry := ledger_entry d;
     psp_connection := psp_connection d;
     entity := entity d;
     fx_rate := fx_rate d |}.

Definition set_ledger_entry (f : list ledger_row -> list ledger_row)
    (d : database) : database :=
  {| normalized_transaction := normalized_transaction d;
     psp_settlement := psp_settlement d;
     reconciliation_match := reconciliation_match d;
     reconciliation_exception := reconciliation_exception d;
     ledger_entry := f (ledger_entry d);
     psp_connection := psp_connection d;
     entity := entity d;
     fx_rate := fx_rate d |}.

Definition empty_db : database :=
  {| normalized_transaction := []; psp_settlement := [];
     reconciliation_match := []; reconciliation_exception := [];
     ledger_entry := []; psp_connection := []; entity := [];
     fx_rate := [] |}.

(** The process-level state: the committed database and the supply
    of fresh identifiers. *)
Record world : Type := {
  db : database;
  next_uuid : N
}.

(** An open session: the committed database, the session's working
    copy, and the identifier supply. *)
Record session : Type := {
  committed : database;
  working : database;
  supply : N
}.

Definition W (A : Type) : Type := SE world A.
Definition M (A : Type) : Type := SE session A.

(** [uuid4()]. *)
Definition uuid4 : M UUID :=
  fun s => (Ok (supply s),
            {| committed := committed s; working := working s;
               supply := N.succ (supply s) |}).
Definition uuid4_w : W UUID :=
  fun w => (Ok (next_uuid w), {| db := db w; next_uuid := N.succ (next_uuid w) |}).

(** [session.execute(SELECT ...)] reads the working copy;
    [session.execute(INSERT/UPDATE ...)] changes it. *)
Definition query {A} (f : database -> A) : M A :=
  fun s => (Ok (f (working s)), s).
Definition execute (f : database -> database) : M unit :=
  fun s => (Ok tt, {| committed := committed s; working := f (working s);
                      supply := supply s |}).

(** [session.commit()]. *)
Definition commit : M unit :=
  fun s => (Ok tt, {| committed := working s; working := working s;
                      supply := supply s |}).

(** [with self.SessionLocal() as session: ...]: whatever the body
    returns or raises, only what it committed reaches the database. *)
Definition with_session {A} (body : M A) : W A :=
  fun w =>
    let '(r, s) := body {| committed := db w; working := db w;
                           supply := next_uuid w |} in
    (r, {| db := committed s; next_uuid := supply s |}).

(** [.fetchone()]. *)
Definition fetchone {A} (rows : list A) : option A := head rows.

(** [UPDATE normalized_transaction SET reconciliation_status = :status
    WHERE transaction_id = :transaction_id]. *)
Definition with_reconciliation_status (status : string) (r : txn_row) : txn_row :=
  {| t_transaction_id := t_transaction_id r;
     t_tenant_id := t_tenant_id r;
     t_brand_id := t_brand_id r;
     t_entity_id := t_entity_id r;
     t_psp_connection_id := t_psp_connection_id r;
     t_event_type := t_event_type r;
     t_transaction_date := t_transaction_date r;
     t_amount_value := t_amount_value r;
     t_amount_currency := t_amount_currency r;
     t_amount_original_currency := t_amount_original_currency r;
     t_amount_fx_rate := t_amount_fx_rate r;
     t_psp_transaction_id := t_psp_transaction_id r;
     t_psp_payment_id := t_psp_payment_id r;
     t_psp_settlement_id := t_psp_settlement_id r;
     t_customer_id := t_customer_id r;
     t_psp_fee := t_psp_fee r;
     t_net_amount := t_net_amount r;
     t_status := t_status r;
     t_reconciliation_status := status;
     t_source_idempotency_key := t_source_idempotency_key r |}.

Definition update_reconciliation_status (transaction_id : UUID)
    (status : string) (d : database) : database :=
  set_normalized_transaction
    (map (fun r => if decide (t_transaction_id r = transaction_id)
                   then with_reconciliation_status status r else r)) d.

End Store.
Export Store.

(* ===================================================================== *)
(** * services/ledger/ledger_service.py                                   *)
(* ===================================================================== *)

Module Ledger.

Local Open Scope py_scope.

(** ** class ChartOfAccounts *)
Module ChartOfAccounts.
Definition CASH_STRIPE_USD : string := "1001".
Definition CASH_ADYEN_EUR : string := "1002".
Definition CASH_PAYPAL_GBP : string := "1003".
Definition ACCOUNTS_RECEIVABLE : string := "1100".
Definition RESERVES_ROLLING : string := "1200".
Definition PLAYER_BALANCES : string := "2000".
Definition GAMING_REVENUE : string := "4000".
Definition FX_GAINS : string := "4100".
Definition PSP_FEES : string := "5000".
Definition FX_LOSSES : string := "5100".
Definition CHARGEBACK_LOSSES : string := "5200".

(** [psp_mapping.get(psp_connection_id.split('_')[0].lower(),
    CASH_STRIPE_USD)]; the currency is not consulted. *)
Definition get_cash_account (psp_connection_id currency : string) : string :=
  let psp_name := lower (split_head "_" psp_connection_id) in
  if String.eqb psp_name "stripe" then CASH_STRIPE_USD
  else if String.eqb psp_name "adyen" then CASH_ADYEN_EUR
  else if String.eqb psp_name "paypal" then CASH_PAYPAL_GBP
  else CASH_STRIPE_USD.
End ChartOfAccounts.
Import ChartOfAccounts.

(** ** shared/models/ledger.py: the pydantic model [LedgerEntry].
    Its [amount] field is a required [int] and its [currency] field
    has [max_length=3]; no field constrains the sign of [amount]. *)
Record LedgerEntry : Type := {
  ledger_entry_id : UUID;
  tenant_id : UUID;
  entity_id : UUID;
  transaction_date : date;
  account_debit : string;
  account_credit : string;
  amount : Z;
  currency : string;
  reference_transaction_id : UUID;
  reference_match_id : UUID;
  description : string
}.

(** The row that [_create_entry] inserts for an entry it returns. *)
Definition row_of_entry (e : LedgerEntry) : ledger_row :=
  {| l_ledger_entry_id := ledger_entry_id e;
     l_tenant_id := tenant_id e;
     l_entity_id := entity_id e;
     l_transaction_date := transaction_date e;
     l_account_debit := account_debit e;
     l_account_credit := account_credit e;
     l_amount := Some (amount e);
     l_currency := currency e;
     l_reference_transaction_id := reference_transaction_id e;
     l_reference_match_id := reference_match_id e;
     l_description := description e |}.

(** ** LedgerService._create_entry: the INSERT, then the construction
    of the returned [LedgerEntry], which pydantic validates. *)
Definition _create_entry (tenant entity_ : UUID) (txn_date : date)
    (account_debit_ account_credit_ : string) (amount_ : option Z)
    (currency_ : string) (ref_txn ref_match : UUID) (description_ : string)
    : M LedgerEntry :=
  entry_id <~ uuid4 ;;
  execute (set_ledger_entry (fun rows => rows ++
    [ {| l_ledger_entry_id := entry_id;
         l_tenant_id := tenant;
         l_entity_id := entity_;
         l_transaction_date := txn_date;
         l_account_debit := account_debit_;
         l_account_credit := account_credit_;
         l_amount := amount_;
         l_currency := currency_;
         l_reference_transaction_id := ref_txn;
         l_reference_match_id := ref_match;
         l_description := description_ |} ])) ;;;
  match amount_ with
  | None => raise ValidationError
  | Some a =>
      if (3 <? String.length currency_)%nat then raise ValidationError
      else ret {| ledger_entry_id := entry_id;
                  tenant_id := tenant;
                  entity_id := entity_;
                  transaction_date := txn_date;
                  account_debit := account_debit_;
                  account_credit := account_credit_;
                  amount := a;
                  currency := currency_;
                  reference_transaction_id := ref_txn;
                  reference_match_id := ref_match;
                  description := description_ |}
  end.

(** ** LedgerService._get_transaction / _get_match: the dictionaries
    built from the first row with the requested id.  Every key of the
    dictionary is always present; a NULL column gives the value
    [None]. *)
Definition select_transaction (transaction_id : UUID) (d : database)
    : option txn_row :=
  fetchone (filter (fun r => t_transaction_id r = transaction_id)
                   (normalized_transaction d)).

Definition select_match (match_id : UUID) (d : database) : option match_row :=
  fetchone (filter (fun r => m_match_id r = match_id)
                   (reconciliation_match d)).

Definition _get_transaction (transaction_id : UUID) : M (option txn_row) :=
  query (select_transaction transaction_id).

Definition _get_match (match_id : UUID) : M (option match_row) :=
  query (select_match match_id).

(** ** LedgerService._post_deposit.  [transaction.get('psp_fee', 0)]
    and [transaction.get('net_amount', amount - psp_fee)] find their
    keys, so the defaults are not used; the second default is still
    evaluated, as an argument, before the lookup. *)
Definition _post_deposit (transaction : txn_row) (match_ : match_row)
    : M (list LedgerEntry) :=
  let amount_ := t_amount_value transaction in
  let currency_ := t_amount_currency transaction in
  let psp_fee := t_psp_fee transaction in
  _default <~ sub_int amount_ psp_fee ;;
  let net_amount := t_net_amount transaction in
  let cash_account :=
    get_cash_account (t_psp_connection_id transaction) currency_ in
  entry1 <~ _create_entry (t_tenant_id transaction) (t_entity_id transaction)
              (t_transaction_date transaction)
              cash_account ACCOUNTS_RECEIVABLE net_amount currency_
              (t_transaction_id transaction) (m_match_id match_)
              ("Deposit: " +:+ t_psp_transaction_id transaction) ;;
  has_fee <~ gt_int psp_fee 0 ;;
  if has_fee : bool then
    entry2 <~ _create_entry (t_tenant_id transaction) (t_entity_id transaction)
                (t_transaction_date transaction)
                PSP_FEES cash_account psp_fee currency_
                (t_transaction_id transaction) (m_match_id match_)
                ("PSP Fee: " +:+ t_psp_transaction_id transaction) ;;
    ret [entry1; entry2]
  else ret [entry1].

(** ** LedgerService._post_withdrawal *)
Definition _post_withdrawal (transaction : txn_row) (match_ : match_row)
    : M (list LedgerEntry) :=
  let amount_ := t_amount_value transaction in
  let currency_ := t_amount_currency transaction in
  let cash_account :=
    get_cash_account (t_psp_connection_id transaction) currency_ in
  entry <~ _create_entry (t_tenant_id transaction) (t_entity_id transaction)
             (t_transaction_date transaction)
             PLAYER_BALANCES cash_account (Some amount_) currency_
             (t_transaction_id transaction) (m_match_id match_)
             ("Withdrawal: " +:+ t_psp_transaction_id transaction) ;;
  ret [entry].

(** ** LedgerService._post_refund *)
Definition _post_refund (transaction : txn_row) (match_ : match_row)
    : M (list LedgerEntry) :=
  let amount_ := t_amount_value transaction in
  let currency_ := t_amount_currency transaction in
  let cash_account :=
    get_cash_account (t_psp_connection_id transaction) currency_ in
  entry <~ _create_entry (t_tenant_id transaction) (t_entity_id transaction)
             (t_transaction_date transaction)
             ACCOUNTS_RECEIVABLE cash_account (Some amount_) currency_
             (t_transaction_id transaction) (m_match_id match_)
             ("Refund: " +:+ t_psp_transaction_id transaction) ;;
  ret [entry].

(** ** LedgerService._post_chargeback *)
Definition _post_chargeback (transaction : txn_row) (match_ : match_row)
    : M (list LedgerEntry) :=
  let amount_ := t_amount_value transaction in
  let currency_ := t_amount_currency transaction in
  let cash_account :=
    get_cash_account (t_psp_connection_id transaction) currency_ in
  entry1 <~ _create_entry (t_tenant_id transaction) (t_entity_id transaction)
              (t_transaction_date transaction)
              CHARGEBACK_LOSSES cash_account (Some amount_) currency_
              (t_transaction_id transaction) (m_match_id match_)
              ("Chargeback: " +:+ t_psp_transaction_id transaction) ;;
  entry2 <~ _create_entry (t_tenant_id transaction) (t_entity_id transaction)
              (t_transaction_date transaction)
              ACCOUNTS_RECEIVABLE ACCOUNTS_RECEIVABLE (Some amount_) currency_
              (t_transaction_id transaction) (m_match_id match_)
              ("Chargeback Reversal: " +:+ t_psp_transaction_id transaction) ;;
  ret [entry1; entry2].

(** ** LedgerService._post_fee *)
Definition _post_fee (transaction : txn_row) (match_ : match_row)
    : M (list LedgerEntry) :=
  let amount_ := t_amount_value transaction in
  let currency_ := t_amount_currency transaction in
  let cash_account :=
    get_cash_account (t_psp_connection_id transaction) currency_ in
  entry <~ _create_entry (t_tenant_id transaction) (t_entity_id transaction)
             (t_transaction_date transaction)
             PSP_FEES cash_account (Some amount_) currency_
             (t_transaction_id transaction) (m_match_id match_)
             ("Fee: " +:+ t_psp_transaction_id transaction) ;;
  ret [entry].

(** The five event types that have a posting rule. *)
Definition supported_event_types : list string :=
  ["DEPOSIT"; "WITHDRAWAL"; "REFUND"; "CHARGEBACK"; "FEE"].

(** ** LedgerService.post_matched_transaction *)
Definition post_matched_transaction (transaction_id match_id : UUID)
    : W (list LedgerEntry) :=
  with_session (
    transaction <~ _get_transaction transaction_id ;;
    match_ <~ _get_match match_id ;;
    match transaction, match_ with
    | Some transaction, Some match_ =>
        let event_type := t_event_type transaction in
        entries <~ (if String.eqb event_type "DEPOSIT"
                      then _post_deposit transaction match_
                    else if String.eqb event_type "WITHDRAWAL"
                      then _post_withdrawal transaction match_
                    else if String.eqb event_type "REFUND"
                      then _post_refund transaction match_
                    else if String.eqb event_type "CHARGEBACK"
                      then _post_chargeback transaction match_
                    else if String.eqb event_type "FEE"
                      then _post_fee transaction match_
                    else raise (ValueError
                      ("Unsupported event type for ledger posting: "
                         +:+ event_type))) ;;
        execute (update_reconciliation_status transaction_id "POSTED") ;;;
        commit ;;;
        ret entries
    | _, _ => raise (ValueError "Transaction or match not found")
    end).

(** ** Debits and credits of a posting group *)
Inductive side : Type := Debit | Credit.

Record posting : Type := {
  p_side : side;
  p_account : string;
  p_amount : Z;
  p_currency : string
}.

(** A ledger entry is a pair of postings. *)
Definition postings_of (e : LedgerEntry) : list posting :=
  [ {| p_side := Debit; p_account := account_debit e;
       p_amount := amount e; p_currency := currency e |};
    {| p_side := Credit; p_account := account_credit e;
       p_amount := amount e; p_currency := currency e |} ].

Definition side_eqb (a b : side) : bool :=
  match a, b with
  | Debit, Debit | Credit, Credit => true
  | _, _ => false
  end.

(** Sum of the postings of one side in one currency. *)
Fixpoint total (sd : side) (ccy : string) (ps : list posting) : Z :=
  match ps with
  | [] => 0
  | p :: ps' =>
      (if side_eqb (p_side p) sd && String.eqb (p_currency p) ccy
       then p_amount p else 0) + total sd ccy ps'
  end.

Definition group_postings (entries : list LedgerEntry) : list posting :=
  concat (map postings_of entries).

(** The amount the posting rule of a transaction puts on its first
    entry: the net amount for a deposit, the amount otherwise. *)
Definition posted_amount (t : txn_row) : option Z :=
  if String.eqb (t_event_type t) "DEPOSIT" then t_net_amount t
  else Some (t_amount_value t).

(** What a posting rule leaves behind when it returns [entries]:
    nothing committed, the rows of [entries] appended to the working
    copy, each in the currency of the transaction and with the amount
    of the rule. *)
Definition rule_post (t : txn_row) (s : session) (entries : list LedgerEntry)
    (s' : session) : Prop :=
  committed s' = committed s
  /\ working s'
     = set_ledger_entry (fun rows => rows ++ map row_of_entry entries)
                        (working s)
  /\ Forall (fun e => currency e = t_amount_currency t) entries
  /\ entries <> []
  /\ Forall (fun e => Some (amount e) = posted_amount t
                      \/ (Some (amount e) = t_psp_fee t /\ 0 < amount e))
            entries.

End Ledger.

(* ===================================================================== *)
(** * services/reconciliation/matching_engine.py                          *)
(* ===================================================================== *)

Module Matching.

Local Open Scope py_scope.

(** ** shared/models/match.py *)
Inductive MatchLevel : Type := STRONG_ID | PSP_REFERENCE | FUZZY | AMOUNT_DATE.
Definition MatchLevel_value (l : MatchLevel) : Z :=
  match l with
  | STRONG_ID => 1 | PSP_REFERENCE => 2 | FUZZY => 3 | AMOUNT_DATE => 4
  end.

Inductive MatchMethod : Type := AUTO | MANUAL | RULE.
Definition MatchMethod_value (m : MatchMethod) : string :=
  match m with AUTO => "AUTO" | MANUAL => "MANUAL" | RULE => "RULE" end.

(** [MatchStatus] has these three members and no other. *)
Inductive MatchStatus : Type := MATCHED | PARTIAL_MATCH | PENDING_REVIEW.
Definition MatchStatus_value (s : MatchStatus) : string :=
  match s with
  | MATCHED => "MATCHED"
  | PARTIAL_MATCH => "PARTIAL_MATCH"
  | PENDING_REVIEW => "PENDING_REVIEW"
  end.

Record ReconciliationMatch : Type := {
  match_id : UUID;
  tenant_id : UUID;
  transaction_id : UUID;
  settlement_id : option UUID;
  match_level : MatchLevel;
  confidence_score : Z;
  match_method : MatchMethod;
  amount_difference : option Z;
  amount_difference_percent : option Q;
  status : MatchStatus
}.

(** ** shared/models/exception.py *)
Inductive ExceptionType : Type :=
| UNMATCHED | EXC_PARTIAL_MATCH | AMOUNT_MISMATCH | DUPLICATE | TIMING_MISMATCH.
Definition ExceptionType_value (t : ExceptionType) : string :=
  match t with
  | UNMATCHED => "UNMATCHED"
  | EXC_PARTIAL_MATCH => "PARTIAL_MATCH"
  | AMOUNT_MISMATCH => "AMOUNT_MISMATCH"
  | DUPLICATE => "DUPLICATE"
  | TIMING_MISMATCH => "TIMING_MISMATCH"
  end.

Inductive ExceptionPriority : Type := P1 | P2 | P3 | P4.
Definition ExceptionPriority_value (p : ExceptionPriority) : string :=
  match p with P1 => "P1" | P2 => "P2" | P3 => "P3" | P4 => "P4" end.

Inductive ExceptionStatus : Type := OPEN | UNDER_REVIEW | RESOLVED | EXPECTED.
Definition ExceptionStatus_value (s : ExceptionStatus) : string :=
  match s with
  | OPEN => "OPEN" | UNDER_REVIEW => "UNDER_REVIEW"
  | RESOLVED => "RESOLVED" | EXPECTED => "EXPECTED"
  end.

Record ReconciliationException : Type := {
  exception_id : UUID;
  exc_tenant_id : UUID;
  exc_transaction_id : option UUID;
  exc_settlement_id : option UUID;
  exception_type : ExceptionType;
  exception_reason : string;
  amount_value : Z;
  amount_currency : string;
  priority : ExceptionPriority;
  exc_status : ExceptionStatus
}.

(** ** class MatchResult *)
Record MatchResult : Type := {
  mr_status : MatchStatus;
  mr_confidence : Z;
  mr_match : option ReconciliationMatch;
  mr_exception : option ReconciliationException
}.

(** ** The settlement queries.  Every level excludes the settlements
    that a row of [reconciliation_match] with status MATCHED refers
    to. *)
Definition not_matched (d : database) (s : settlement_row) : bool :=
  negb (existsb
          (fun m => bool_decide (m_settlement_id m = Some (s_settlement_id s))
                    && String.eqb (m_status m) "MATCHED")
          (reconciliation_match d)).

(** [:x = ANY(s.psp_transaction_ids)]. *)
Definition any_eq (x : string) (xs : list string) : bool :=
  existsb (String.eqb x) xs.

Definition same_connection (t : txn_row) (s : settlement_row) : bool :=
  bool_decide (s_tenant_id s = t_tenant_id t)
  && String.eqb (s_psp_connection_id s) (t_psp_connection_id t).

(** [int(transaction['amount_value'] * 0.01)] and [... * 0.001]. *)
Definition tolerance_level_2 (t : txn_row) : Z :=
  int_of_float (inject_Z (t_amount_value t) * (1 # 100)).
Definition tolerance_level_3 (t : txn_row) : Z :=
  int_of_float (inject_Z (t_amount_value t) * (1 # 1000)).

Definition level_1_where (d : database) (t : txn_row) (s : settlement_row)
    : bool :=
  same_connection t s
  && match s_psp_settlement_id s, t_psp_settlement_id t with
     | Some a, Some b => String.eqb a b
     | _, _ => false
     end
  && (s_settlement_date s =? t_transaction_date t)
  && not_matched d s.

Definition level_2_where (d : database) (t : txn_row) (s : settlement_row)
    : bool :=
  same_connection t s
  && match t_psp_payment_id t with
     | Some p => any_eq p (s_psp_transaction_ids s)
     | None => false
     end
  && (s_settlement_date s =? t_transaction_date t)
  && String.eqb (s_amount_currency s) (t_amount_currency t)
  && (Z.abs (s_amount_value s - t_amount_value t) <=? tolerance_level_2 t)
  && not_matched d s.

Definition level_3_where (d : database) (t : txn_row) (s : settlement_row)
    : bool :=
  let date_window_start := t_transaction_date t - 1 in
  let date_window_end := t_transaction_date t + 1 in
  same_connection t s
  && ((date_window_start <=? s_settlement_date s)
      && (s_settlement_date s <=? date_window_end))
  && String.eqb (s_amount_currency s) (t_amount_currency t)
  && (Z.abs (s_amount_value s - t_amount_value t) <=? tolerance_level_3 t)
  && not_matched d s
  && (if truthy (t_customer_id t)
      then match t_customer_id t with
           | Some c => any_eq c (s_psp_transaction_ids s)
           | None => false
           end
      else true).

Definition level_4_where (d : database) (t : txn_row) (s : settlement_row)
    : bool :=
  same_connection t s
  && (s_settlement_date s =? t_transaction_date t)
  && String.eqb (s_amount_currency s) (t_amount_currency t)
  && (s_amount_value s =? t_amount_value t)
  && not_matched d s.

Definition level_where (l : MatchLevel) : database -> txn_row -> settlement_row -> bool :=
  match l with
  | STRONG_ID => level_1_where
  | PSP_REFERENCE => level_2_where
  | FUZZY => level_3_where
  | AMOUNT_DATE => level_4_where
  end.

(** The rows a level's query yields, in the order of the store (no
    query has an ORDER BY), and the one [fetchone()] takes. *)
Definition candidates (l : MatchLevel) (d : database) (t : txn_row)
    : list settlement_row :=
  List.filter (level_where l d t) (psp_settlement d).

Definition select_settlement (l : MatchLevel) (t : txn_row) (d : database)
    : option settlement_row :=
  fetchone (candidates l d t).

(** The selected columns: [settlement_id, amount_value,
    amount_currency]. *)
Definition columns (s : settlement_row) : UUID * Z * string :=
  (s_settlement_id s, s_amount_value s, s_amount_currency s).

(** ** MatchingEngine._get_transaction *)
Definition select_transaction (transaction_id_ : UUID) (d : database)
    : option txn_row :=
  fetchone (filter (fun r => t_transaction_id r = transaction_id_)
                   (normalized_transaction d)).
Definition _get_transaction (transaction_id_ : UUID) : M (option txn_row) :=
  query (select_transaction transaction_id_).

(** ** MatchingEngine._create_match *)
Definition status_of_confidence (confidence : Z) : MatchStatus :=
  if 95 <=? confidence then MATCHED else PARTIAL_MATCH.

(** [INSERT INTO reconciliation_match ... ON CONFLICT (tenant_id,
    transaction_id, settlement_id) DO NOTHING]. *)
Definition insert_match (r : match_row) (d : database) : database :=
  set_reconciliation_match
    (fun rows =>
       if existsb (fun x => bool_decide (m_tenant_id x = m_tenant_id r)
                            && bool_decide (m_transaction_id x = m_transaction_id r)
                            && bool_decide (m_settlement_id x = m_settlement_id r))
                  rows
       then rows else rows ++ [r]) d.

Definition _create_match (transaction : txn_row) (settlement_id_ : UUID)
    (match_level_ : MatchLevel) (match_method_ : MatchMethod) (confidence : Z)
    (amount_diff : option Z) (amount_diff_pct : option Q)
    : M ReconciliationMatch :=
  match_id_ <~ uuid4 ;;
  execute (insert_match
    {| m_match_id := match_id_;
       m_tenant_id := t_tenant_id transaction;
       m_transaction_id := t_transaction_id transaction;
       m_settlement_id := Some settlement_id_;
       m_match_level := MatchLevel_value match_level_;
       m_confidence_score := confidence;
       m_match_method := MatchMethod_value match_method_;
       m_amount_difference := amount_diff;
       m_amount_difference_percent := amount_diff_pct;
       m_status := MatchStatus_value (status_of_confidence confidence) |}) ;;;
  execute (update_reconciliation_status (t_transaction_id transaction)
             (if 95 <=? confidence then MatchStatus_value MATCHED
              else "PARTIAL_MATCH")) ;;;
  commit ;;;
  (* ReconciliationMatch(...): confidence_score has ge=0, le=100 *)
  if (0 <=? confidence) && (confidence <=? 100) then
    ret {| match_id := match_id_;
           tenant_id := t_tenant_id transaction;
           transaction_id := t_transaction_id transaction;
           settlement_id := Some settlement_id_;
           match_level := match_level_;
           confidence_score := confidence;
           match_method := match_method_;
           amount_difference := amount_diff;
           amount_difference_percent :=
             if truthy_float amount_diff_pct then amount_diff_pct else None;
           status := status_of_confidence confidence |}
  else raise ValidationError.

(** ** MatchingEngine._get_exception_reason.  The percentage shown
    in the AMOUNT_MISMATCH text is not rendered by the model. *)
Definition _get_exception_reason (exception_type_ : ExceptionType)
    (match_ : option ReconciliationMatch) : string :=
  match exception_type_ with
  | UNMATCHED => "No matching settlement found"
  | EXC_PARTIAL_MATCH => "Fuzzy match requires manual review"
  | AMOUNT_MISMATCH =>
      match match_ with
      | Some _ => "Amount difference: ...%"
      | None => "Amount mismatch"
      end
  | DUPLICATE => "Duplicate transaction detected"
  | TIMING_MISMATCH => "Transaction date mismatch"
  end.

(** ** MatchingEngine._create_exception *)
Definition _create_exception (transaction : txn_row)
    (exception_type_ : ExceptionType) (match_ : option ReconciliationMatch)
    : M ReconciliationException :=
  exception_id_ <~ uuid4 ;;
  (* Determine priority based on amount *)
  let amount := t_amount_value transaction in
  let priority_ :=
    if 1000000 <=? amount then P1
    else if 100000 <=? amount then P2
    else if 10000 <=? amount then P3
    else P4 in
  let settlement := match match_ with
                    | Some m => settlement_id m
                    | None => None
                    end in
  execute (set_reconciliation_exception (fun rows => rows ++
    [ {| x_exception_id := exception_id_;
         x_tenant_id := t_tenant_id transaction;
         x_transaction_id := Some (t_transaction_id transaction);
         x_settlement_id := settlement;
         x_exception_type := ExceptionType_value exception_type_;
         x_exception_reason := _get_exception_reason exception_type_ match_;
         x_amount_value := amount;
         x_amount_currency := t_amount_currency transaction;
         x_priority := ExceptionPriority_value priority_;
         x_status := ExceptionStatus_value OPEN |} ])) ;;;
  commit ;;;
  ret {| exception_id := exception_id_;
         exc_tenant_id := t_tenant_id transaction;
         exc_transaction_id := Some (t_transaction_id transaction);
         exc_settlement_id := settlement;
         exception_type := exception_type_;
         exception_reason := _get_exception_reason exception_type_ match_;
         amount_value := amount;
         amount_currency := t_amount_currency transaction;
         priority := priority_;
         exc_status := OPEN |}.

(** [abs(amount_diff / amount_value * 100) if amount_value > 0 else 0] *)
Definition amount_diff_percent (amount_diff amount : Z) : Q :=
  if 0 <? amount
  then Qabs (inject_Z amount_diff / inject_Z amount * 100)
  else 0.

(** ** MatchingEngine._match_level_1 *)
Definition _match_level_1 (transaction : txn_row)
    : M (option ReconciliationMatch) :=
  if negb (truthy (t_psp_settlement_id transaction)) then ret None
  else
    settlement <~ query (select_settlement STRONG_ID transaction) ;;
    match settlement with
    | Some row =>
        let '(id, _, _) := columns row in
        m <~ _create_match transaction id STRONG_ID AUTO 100 None None ;;
        ret (Some m)
    | None => ret None
    end.

(** ** MatchingEngine._match_level_2 *)
Definition _match_level_2 (transaction : txn_row)
    : M (option ReconciliationMatch) :=
  if negb (truthy (t_psp_payment_id transaction)) then ret None
  else
    settlement <~ query (select_settlement PSP_REFERENCE transaction) ;;
    match settlement with
    | Some row =>
        let '(id, settlement_amount, _) := columns row in
        let amount_diff := t_amount_value transaction - settlement_amount in
        let amount_diff_pct :=
          amount_diff_percent amount_diff (t_amount_value transaction) in
        m <~ _create_match transaction id PSP_REFERENCE AUTO 95
               (Some amount_diff) (Some amount_diff_pct) ;;
        ret (Some m)
    | None => ret None
    end.

(** ** MatchingEngine._match_level_3.  The date difference is taken
    from [settlement[2]], and the third selected column is
    [amount_currency]: the query does not select [settlement_date]. *)
Definition _match_level_3 (transaction : txn_row)
    : M (option ReconciliationMatch) :=
  settlement <~ query (select_settlement FUZZY transaction) ;;
  match settlement with
  | Some row =>
      let '(id, settlement_amount, settlement_2) := columns row in
      days <~ sub_days (PyStr settlement_2)
                       (PyDate (t_transaction_date transaction)) ;;
      let date_diff := Z.abs days in
      let confidence := Z.max 70 (90 - date_diff * 10) in
      let amount_diff := t_amount_value transaction - settlement_amount in
      let amount_diff_pct :=
        amount_diff_percent amount_diff (t_amount_value transaction) in
      m <~ _create_match transaction id FUZZY AUTO confidence
             (Some amount_diff) (Some amount_diff_pct) ;;
      ret (Some m)
  | None => ret None
  end.

(** ** MatchingEngine._match_level_4 *)
Definition _match_level_4 (transaction : txn_row)
    : M (option ReconciliationMatch) :=
  settlement <~ query (select_settlement AMOUNT_DATE transaction) ;;
  match settlement with
  | Some row =>
      let '(id, _, _) := columns row in
      m <~ _create_match transaction id AMOUNT_DATE AUTO 60 None None ;;
      ret (Some m)
  | None => ret None
  end.

(** The guard a level puts before its query (levels 1 and 2 need the
    PSP identifier they look up), the row the level settles on, and
    the dispatch on the level. *)
Definition level_guard (l : MatchLevel) (t : txn_row) : bool :=
  match l with
  | STRONG_ID => truthy (t_psp_settlement_id t)
  | PSP_REFERENCE => truthy (t_psp_payment_id t)
  | FUZZY | AMOUNT_DATE => true
  end.

Definition hit (l : MatchLevel) (t : txn_row) (d : database)
    : option settlement_row :=
  if level_guard l t then select_settlement l t d else None.


(** The result of the early return for a transaction that is
    already MATCHED. *)
Definition already_matched : MatchResult :=
  {| mr_status := MATCHED; mr_confidence := 100;
     mr_match := None; mr_exception := None |}.

(** ** MatchingEngine.match_transaction.  The last return names
    [MatchStatus.UNMATCHED], which the enumeration does not have:
    evaluating it raises [AttributeError], after the exception row
    has been committed. *)
Definition match_transaction (transaction_id_ : UUID) : W MatchResult :=
  with_session (
    transaction <~ _get_transaction transaction_id_ ;;
    match transaction with
    | None => raise (ValueError "Transaction not found")
    | Some transaction =>
      if String.eqb (t_reconciliation_status transaction) "MATCHED"
      then ret already_matched
      else
      m1 <~ _match_level_1 transaction ;;
      match m1 with
      | Some m =>
          ret {| mr_status := MATCHED; mr_confidence := 100;
                 mr_match := Some m; mr_exception := None |}
      | None =>
      m2 <~ _match_level_2 transaction ;;
      match m2 with
      | Some m =>
          let amount_diff_pct :=
            Qabs (default 0%Q (amount_difference_percent m)) in
          if Qltb amount_diff_pct 1 then
            ret {| mr_status := MATCHED; mr_confidence := 95;
                   mr_match := Some m; mr_exception := None |}
          else
            e <~ _create_exception transaction AMOUNT_MISMATCH (Some m) ;;
            ret {| mr_status := PARTIAL_MATCH; mr_confidence := 95;
                   mr_match := Some m; mr_exception := Some e |}
      | None =>
      m3 <~ _match_level_3 transaction ;;
      match m3 with
      | Some m =>
          e <~ _create_exception transaction EXC_PARTIAL_MATCH (Some m) ;;
          ret {| mr_status := PARTIAL_MATCH;
                 mr_confidence := confidence_score m;
                 mr_match := Some m; mr_exception := Some e |}
      | None =>
      m4 <~ _match_level_4 transaction ;;
      match m4 with
      | Some m =>
          e <~ _create_exception transaction EXC_PARTIAL_MATCH (Some m) ;;
          ret {| mr_status := PENDING_REVIEW;
                 mr_confidence := confidence_score m;
                 mr_match := Some m; mr_exception := Some e |}
      | None =>
          _exception <~ _create_exception transaction UNMATCHED None ;;
          raise AttributeError
      end end end end
    end).

(** The amounts for which an exception gets priority [p]. *)
Definition priority_cut (amount : Z) (p : ExceptionPriority) : Prop :=
  match p with
  | P1 => 1000000 <= amount
  | P2 => 100000 <= amount < 1000000
  | P3 => 10000 <= amount < 100000
  | P4 => amount < 10000
  end.

(** A match object [m] created at level [l] with confidence [c] for
    the settlement [row], and the session it leaves behind. *)
Definition created (t : txn_row) (row : settlement_row) (l : MatchLevel)
    (c : Z) (pct : option Q) (s : session) (m : ReconciliationMatch)
    (s' : session) : Prop :=
  settlement_id m = Some (s_settlement_id row)
  /\ match_level m = l
  /\ confidence_score m = c
  /\ amount_difference_percent m = (if truthy_float pct then pct else None)
  /\ status m = status_of_confidence c
  /\ committed s' = working s'
  /\ psp_settlement (working s') = psp_settlement (working s)
  /\ select_transaction (t_transaction_id t) (working s')
     = with_reconciliation_status
         (if 95 <=? c then "MATCHED" else "PARTIAL_MATCH")
       <$> select_transaction (t_transaction_id t) (working s).

(** After a call that settled on a level, the transaction reads back
    with the new reconciliation status and the settlements are as
    before. *)
Definition settled (t : txn_row) (st : string) (w w' : world) : Prop :=
  select_transaction (t_transaction_id t) (db w')
  = Some (with_reconciliation_status st t)
  /\ psp_settlement (db w') = psp_settlement (db w).

Definition level_2_percent (t : txn_row) (row : settlement_row) : Q :=
  amount_diff_percent (t_amount_value t - s_amount_value row)
                      (t_amount_value t).

End Matching.

(* ===================================================================== *)
(** * services/normalization/normalizer.py                                *)
(* ===================================================================== *)

Module Normalizer.

Local Open Scope py_scope.

(** ** shared/models/transaction.py *)
Inductive EventType : Type :=
| DEPOSIT | WITHDRAWAL | REFUND | CHARGEBACK | CHARGEBACK_REVERSAL | FEE
| ROLLING_RESERVE | PARTIAL_CAPTURE | SPLIT_SETTLEMENT
| NEGATIVE_SETTLEMENT | FX_CONVERSION.
Definition EventType_value (e : EventType) : string :=
  match e with
  | DEPOSIT => "DEPOSIT"
  | WITHDRAWAL => "WITHDRAWAL"
  | REFUND => "REFUND"
  | CHARGEBACK => "CHARGEBACK"
  | CHARGEBACK_REVERSAL => "CHARGEBACK_REVERSAL"
  | FEE => "FEE"
  | ROLLING_RESERVE => "ROLLING_RESERVE"
  | PARTIAL_CAPTURE => "PARTIAL_CAPTURE"
  | SPLIT_SETTLEMENT => "SPLIT_SETTLEMENT"
  | NEGATIVE_SETTLEMENT => "NEGATIVE_SETTLEMENT"
  | FX_CONVERSION => "FX_CONVERSION"
  end.

Inductive TransactionStatus : Type :=
| COMPLETED | PENDING | FAILED | CANCELLED.
Definition TransactionStatus_value (s : TransactionStatus) : string :=
  match s with
  | COMPLETED => "COMPLETED" | PENDING => "PENDING"
  | FAILED => "FAILED" | CANCELLED => "CANCELLED"
  end.

(** [NormalizedTransaction], the object the service builds and
    returns (a new one is always PENDING for reconciliation). *)
Record NormalizedTransaction : Type := {
  transaction_id : UUID;
  tenant_id : UUID;
  brand_id : UUID;
  entity_id : UUID;
  psp_connection_id : string;
  event_type : EventType;
  event_timestamp : Z;
  transaction_date : date;
  amount_value : Z;
  amount_currency : string;
  amount_original_currency : option string;
  amount_fx_rate : option Q;
  psp_transaction_id : string;
  psp_payment_id : option string;
  psp_settlement_id : option string;
  customer_id : option string;
  psp_fee : option Z;
  net_amount : option Z;
  status : TransactionStatus;
  source_type : string;
  source_idempotency_key : string
}.

(** ** The parsed event.  It is a dictionary in the source; the
    model gives every key the service reads the type of value the
    parsers put there, [None] standing for an absent key.  A
    timestamp is taken as already parsed, to the second. *)
Inductive num : Type :=
| NInt (z : Z)
| NFloat (q : Q).

Record event : Type := {
  ev_event_type : option string;
  ev_created : option Z;
  ev_event_date : option Z;
  ev_transaction_date : option date;
  ev_amount : option num;
  ev_currency : option string;
  ev_amount_currency : option string;
  ev_fee : option num;
  ev_net : option num;
  ev_fx_rate : option Q;
  ev_original_currency : option string;
  ev_psp_transaction_id : option string;
  ev_psp_event_id : option string;
  ev_psp_payment_id : option string;
  ev_psp_settlement_id : option string;
  ev_customer_id : option string;
  ev_status : option string
}.

(** The record read from the ingestion stream. *)
Record raw_event : Type := {
  raw_tenant_id : UUID;
  raw_psp_connection_id : string;
  raw_event_data : event;
  raw_source_type : option string;
  raw_idempotency_key : option string
}.

(** What [_publish_to_matching] puts on the stream. *)
Record matching_record : Type := {
  pub_transaction_id : UUID;
  pub_tenant_id : UUID;
  pub_psp_transaction_id : string;
  pub_event_type : string
}.

(** The state a normalization acts on: the store and the matching
    stream. *)
Record pipeline : Type := {
  store : world;
  matching_stream : list matching_record
}.

Definition P (A : Type) : Type := SE pipeline A.

Definition on_store {A} (m : W A) : P A :=
  fun p => let '(r, w) := m (store p) in
           (r, {| store := w; matching_stream := matching_stream p |}).

(** [a or b] on optional strings. *)
Definition or_str (a b : option string) : option string :=
  if truthy a then a else b.

(** [x * y] with [x] an [int] or a [float], as a float. *)
Definition num_to_float (n : num) : Q :=
  match n with NInt z => inject_Z z | NFloat q => q end.

(** [if isinstance(x, float): x = int(x * 100)]. *)
Definition to_cents (n : num) : Z :=
  match n with
  | NInt z => z
  | NFloat q => int_of_float (q * 100)
  end.

(** ** NormalizationService._map_event_type *)
Definition _map_event_type (psp_event_type : string) : EventType :=
  let key := upper psp_event_type in
  if String.eqb key "DEPOSIT" then DEPOSIT
  else if String.eqb key "WITHDRAWAL" then WITHDRAWAL
  else if String.eqb key "REFUND" then REFUND
  else if String.eqb key "CHARGEBACK" then CHARGEBACK
  else if String.eqb key "SETTLEMENT" then DEPOSIT
  else DEPOSIT.

(** ** NormalizationService._map_status *)
Definition _map_status (psp_status : string) : TransactionStatus :=
  let key := lower psp_status in
  if String.eqb key "completed" then COMPLETED
  else if String.eqb key "succeeded" then COMPLETED
  else if String.eqb key "pending" then PENDING
  else if String.eqb key "failed" then FAILED
  else if String.eqb key "cancelled" then CANCELLED
  else PENDING.

(** ** NormalizationService._get_psp_config: the base currency of
    the entity behind the connection ([None] when the connection or
    the entity is unknown; the other keys are not read). *)
Definition select_connection (tenant : UUID) (conn : string) (d : database)
    : option connection_row :=
  fetchone (List.filter
              (fun c => String.eqb (c_psp_connection_id c) conn
                        && bool_decide (c_tenant_id c = tenant))
              (psp_connection d)).

Definition select_entity (id : UUID) (d : database) : option entity_row :=
  fetchone (List.filter (fun e => bool_decide (e_entity_id e = id)) (entity d)).

Definition _get_psp_config (tenant : UUID) (conn : string) (d : database)
    : option string :=
  match select_connection tenant conn d with
  | Some c => e_base_currency <$> select_entity (c_entity_id c) d
  | None => None
  end.

(** ** NormalizationService._get_entity_brand (the join of
    [psp_connection] with [entity]). *)
Definition _get_entity_brand (tenant : UUID) (conn : string)
    : W (UUID * UUID) :=
  fun w =>
    match select_connection tenant conn (db w) with
    | Some c =>
        match select_entity (c_entity_id c) (db w) with
        | Some e => (Ok (c_entity_id c, e_brand_id e), w)
        | None => (Raise (ValueError "PSP connection not found"), w)
        end
    | None => (Raise (ValueError "PSP connection not found"), w)
    end.

(** ** NormalizationService._get_fx_rate: the newest rate of the
    day ([ORDER BY created_at DESC LIMIT 1]; the table lists the
    rates oldest first). *)
Definition _get_fx_rate (today : date) (from_currency to_currency : string)
    (rate_date : option date) (d : database) : option fx_row :=
  let rate_date := default today rate_date in
  last (List.filter
          (fun f => String.eqb (f_from_currency f) from_currency
                    && String.eqb (f_to_currency f) to_currency
                    && (f_rate_date f =? rate_date))
          (fx_rate d)).

(** ** NormalizationService._enrich_fx *)
Definition _enrich_fx (today : date) (e : event) (base_currency : option string)
    (d : database) : event :=
  let amount_currency_ := or_str (ev_currency e) (ev_amount_currency e) in
  match amount_currency_, base_currency with
  | Some ccy, Some base =>
      if truthy amount_currency_ && truthy base_currency
         && negb (String.eqb ccy base)
      then
        match _get_fx_rate today ccy base (ev_transaction_date e) d with
        | Some fx =>
            let original_amount := default (NInt 0) (ev_amount e) in
            {| ev_event_type := ev_event_type e;
               ev_created := ev_created e;
               ev_event_date := ev_event_date e;
               ev_transaction_date := ev_transaction_date e;
               ev_amount :=
                 Some (NInt (int_of_float
                               (num_to_float original_amount * f_rate fx)));
               ev_currency := Some base;
               ev_amount_currency := ev_amount_currency e;
               ev_fee := ev_fee e;
               ev_net := ev_net e;
               ev_fx_rate := Some (f_rate fx);
               ev_original_currency := Some ccy;
               ev_psp_transaction_id := ev_psp_transaction_id e;
               ev_psp_event_id := ev_psp_event_id e;
               ev_psp_payment_id := ev_psp_payment_id e;
               ev_psp_settlement_id := ev_psp_settlement_id e;
               ev_customer_id := ev_customer_id e;
               ev_status := ev_status e |}
        | None => e
        end
      else e
  | _, _ => e
  end.

(** ** NormalizationService._map_to_canonical *)
Definition _map_to_canonical (tenant : UUID) (conn : string) (e : event)
    (raw : raw_event) : W NormalizedTransaction :=
  ids <~ _get_entity_brand tenant conn ;;
  let '(entity_id_, brand_id_) := ids in
  (* Map event type *)
  let event_type_ := _map_event_type (default "" (ev_event_type e)) in
  (* Parse timestamps *)
  match (match ev_created e with
         | Some ts => Some ts
         | None => ev_event_date e
         end) with
  | None => raise (ValueError "Invalid isoformat string")
  | Some event_timestamp_ =>
  let transaction_date_ :=
    default (event_timestamp_ / 86400) (ev_transaction_date e) in
  (* Extract amounts *)
  let amount_value_ := to_cents (default (NInt 0) (ev_amount e)) in
  let amount_currency_ := default "USD" (ev_currency e) in
  (* Extract fees *)
  let psp_fee_ := to_cents (default (NInt 0) (ev_fee e)) in
  let net_amount_ :=
    to_cents (default (NInt (amount_value_ - psp_fee_)) (ev_net e)) in
  id <~ uuid4_w ;;
  (* NormalizedTransaction(...): amount_currency has max_length=3 *)
  if (3 <? String.length amount_currency_)%nat then raise ValidationError
  else
    ret {| transaction_id := id;
           tenant_id := tenant;
           brand_id := brand_id_;
           entity_id := entity_id_;
           psp_connection_id := conn;
           event_type := event_type_;
           event_timestamp := event_timestamp_;
           transaction_date := transaction_date_;
           amount_value := amount_value_;
           amount_currency := amount_currency_;
           amount_original_currency := ev_original_currency e;
           amount_fx_rate :=
             if truthy_float (ev_fx_rate e) then ev_fx_rate e else None;
           psp_transaction_id :=
             default "" (or_str (ev_psp_transaction_id e)
                                (Some (default "" (ev_psp_event_id e))));
           psp_payment_id := ev_psp_payment_id e;
           psp_settlement_id := ev_psp_settlement_id e;
           customer_id := ev_customer_id e;
           psp_fee := if 0 <? psp_fee_ then Some psp_fee_ else None;
           net_amount := Some net_amount_;
           status := _map_status (default "completed" (ev_status e));
           source_type := default "WEBHOOK" (raw_source_type raw);
           source_idempotency_key := default "" (raw_idempotency_key raw) |}
  end.

(** The same transaction under another identifier. *)
Definition with_transaction_id (id : UUID) (n : NormalizedTransaction)
    : NormalizedTransaction :=
  {| transaction_id := id;
     tenant_id := tenant_id n;
     brand_id := brand_id n;
     entity_id := entity_id n;
     psp_connection_id := psp_connection_id n;
     event_type := event_type n;
     event_timestamp := event_timestamp n;
     transaction_date := transaction_date n;
     amount_value := amount_value n;
     amount_currency := amount_currency n;
     amount_original_currency := amount_original_currency n;
     amount_fx_rate := amount_fx_rate n;
     psp_transaction_id := psp_transaction_id n;
     psp_payment_id := psp_payment_id n;
     psp_settlement_id := psp_settlement_id n;
     customer_id := customer_id n;
     psp_fee := psp_fee n;
     net_amount := net_amount n;
     status := status n;
     source_type := source_type n;
     source_idempotency_key := source_idempotency_key n |}.

(** The row that the INSERT of [_store_normalized] writes. *)
Definition row_of (n : NormalizedTransaction) : txn_row :=
  {| t_transaction_id := transaction_id n;
     t_tenant_id := tenant_id n;
     t_brand_id := brand_id n;
     t_entity_id := entity_id n;
     t_psp_connection_id := psp_connection_id n;
     t_event_type := EventType_value (event_type n);
     t_transaction_date := transaction_date n;
     t_amount_value := amount_value n;
     t_amount_currency := amount_currency n;
     t_amount_original_currency := amount_original_currency n;
     t_amount_fx_rate := amount_fx_rate n;
     t_psp_transaction_id := psp_transaction_id n;
     t_psp_payment_id := psp_payment_id n;
     t_psp_settlement_id := psp_settlement_id n;
     t_customer_id := customer_id n;
     t_psp_fee := psp_fee n;
     t_net_amount := net_amount n;
     t_status := TransactionStatus_value (status n);
     t_reconciliation_status := "PENDING";
     t_source_idempotency_key := source_idempotency_key n |}.

(** The unique key [(tenant_id, psp_connection_id,
    psp_transaction_id, event_type)]. *)
Definition same_key (n : NormalizedTransaction) (r : txn_row) : bool :=
  bool_decide (t_tenant_id r = tenant_id n)
  && String.eqb (t_psp_connection_id r) (psp_connection_id n)
  && String.eqb (t_psp_transaction_id r) (psp_transaction_id n)
  && String.eqb (t_event_type r) (EventType_value (event_type n)).

Definition select_existing (n : NormalizedTransaction) (d : database)
    : option txn_row :=
  fetchone (List.filter (same_key n) (normalized_transaction d)).

(** [INSERT INTO normalized_transaction ... ON CONFLICT (tenant_id,
    psp_connection_id, psp_transaction_id, event_type) DO NOTHING]. *)
Definition insert_transaction (n : NormalizedTransaction) (d : database)
    : database :=
  set_normalized_transaction
    (fun rows => if existsb (same_key n) rows then rows
                 else rows ++ [row_of n]) d.

(** ** NormalizationService._store_normalized.  When a row with the
    key exists, the function returns its argument, the transaction
    that was just built, and not the row it found. *)
Definition _store_normalized (normalized : NormalizedTransaction)
    : W NormalizedTransaction :=
  with_session (
    existing <~ query (select_existing normalized) ;;
    match existing with
    | Some _ => ret normalized
    | None =>
        execute (insert_transaction normalized) ;;;
        commit ;;;
        ret normalized
    end).

(** ** NormalizationService._publish_to_matching *)
Definition _publish_to_matching (n : NormalizedTransaction) : P unit :=
  fun p => (Ok tt,
            {| store := store p;
               matching_stream := matching_stream p ++
                 [ {| pub_transaction_id := transaction_id n;
                      pub_tenant_id := tenant_id n;
                      pub_psp_transaction_id := psp_transaction_id n;
                      pub_event_type := EventType_value (event_type n) |} ]
            |}).

(** ** NormalizationService.normalize_event ([today] is the reading
    of [date.today()]; [_parse_event] returns the event data as it
    is). *)
Definition normalize_event (today : date) (raw : raw_event)
    : P NormalizedTransaction :=
  let tenant := raw_tenant_id raw in
  let conn := raw_psp_connection_id raw in
  let event_data := raw_event_data raw in
  psp_config <~ on_store (gets (fun w => _get_psp_config tenant conn (db w))) ;;
  let parsed_event := event_data in
  enriched_event <~
    on_store (gets (fun w => _enrich_fx today parsed_event psp_config (db w))) ;;
  normalized <~ on_store (_map_to_canonical tenant conn enriched_event raw) ;;
  stored <~ on_store (_store_normalized normalized) ;;
  _publish_to_matching stored ;;;
  ret stored.

End Normalizer.

(* ===================================================================== *)
(** * services/ingestion/webhook_handler.py                               *)
(* ===================================================================== *)

Module Webhook.

Local Open Scope py_scope.

(** The archive reference [s3://{bucket}/raw-events/{tenant}/
    {yyyy/mm/dd}/{uuid}.json], kept in its parts. *)
Record s3_path : Type := {
  path_bucket : string;
  path_tenant : UUID;
  path_day : Z;
  path_event_id : UUID
}.

(** An item of the DynamoDB table; the table's key is the attribute
    [idempotency_key] alone. *)
Record item : Type := {
  item_tenant_id : UUID;
  item_s3_path : s3_path;
  item_expires_at : Z
}.

(** The record put on the ingestion stream. *)
Record kinesis_record : Type := {
  rec_tenant_id : UUID;
  rec_psp_connection_id : string;
  rec_idempotency_key : string;
  rec_s3_path : s3_path;
  rec_event_data : gmap string string;
  rec_source_type : string
}.

(** The services the handler talks to: the idempotency table, the
    archive bucket, the stream; and what it reads from its
    environment: [uuid4()] and [datetime.utcnow()] (in seconds). *)
Record aws : Type := {
  idempotency_keys : gmap string item;
  s3_objects : list (s3_path * gmap string string);
  kinesis_stream : list kinesis_record;
  next_event_id : N;
  utcnow : Z
}.

(** The dictionary the handler returns. *)
Inductive response : Type :=
| Processed (idempotency_key : string) (path : s3_path)
| Duplicate (idempotency_key : string).

Section Handler.

(** [json.loads] on the request body ([None] when it raises); the
    body is an object with text values. *)
Variable json_loads : string -> option (gmap string string).
(** The connection table.  The source leaves this lookup to be
    implemented: its [_get_psp_config] returns the empty
    dictionary, see [placeholder_config] below. *)
Variable psp_connection_config : UUID -> string -> gmap string string.
(** [secrets_manager.get_secret_value(SecretId=arn)['SecretString']]
    and [hmac.new(secret, body, hashlib.sha256).hexdigest()]. *)
Variable secret_string : string -> string.
Variable hmac_sha256_hexdigest : string -> string -> string.

Variable s3_bucket : string.

(** ** WebhookHandler._validate_signature *)
Definition _validate_signature (body : string) (signature : option string)
    (psp_config : gmap string string) : bool :=
  if negb (truthy signature) then false
  else
    let secret_arn := psp_config !! "webhook_signature_secret_arn" in
    if negb (truthy secret_arn) then false
    else
      let secret := secret_string (default "" secret_arn) in
      let expected_signature := hmac_sha256_hexdigest secret body in
      String.eqb (default "" signature) expected_signature.

(** ** WebhookHandler._check_idempotency.  The tenant is a
    parameter of the function and is not part of the lookup.  (A
    lookup that fails, which the source answers with [False], is
    not modelled: the table always answers.) *)
Definition _check_idempotency (tenant_id : UUID) (idempotency_key : string)
    : SE aws bool :=
  gets (fun st => bool_decide (is_Some (idempotency_keys st !! idempotency_key))).

(** ** WebhookHandler._mark_idempotent *)
Definition _mark_idempotent (tenant_id : UUID) (idempotency_key : string)
    (path : s3_path) : SE aws unit :=
  modify (fun st =>
    {| idempotency_keys :=
         <[ idempotency_key :=
              {| item_tenant_id := tenant_id;
                 item_s3_path := path;
                 item_expires_at := utcnow st + 7 * 24 * 60 * 60 |} ]>
           (idempotency_keys st);
       s3_objects := s3_objects st;
       kinesis_stream := kinesis_stream st;
       next_event_id := next_event_id st;
       utcnow := utcnow st |}).

(** ** WebhookHandler._store_raw_event *)
Definition _store_raw_event (tenant_id : UUID) (psp_connection_id : string)
    (event_data : gmap string string) (idempotency_key : string)
    : SE aws s3_path :=
  fun st =>
    let path := {| path_bucket := s3_bucket;
                   path_tenant := tenant_id;
                   path_day := utcnow st / 86400;
                   path_event_id := next_event_id st |} in
    (Ok path,
     {| idempotency_keys := idempotency_keys st;
        s3_objects := s3_objects st ++ [(path, event_data)];
        kinesis_stream := kinesis_stream st;
        next_event_id := N.succ (next_event_id st);
        utcnow := utcnow st |}).

(** ** WebhookHandler._publish_to_kinesis *)
Definition _publish_to_kinesis (tenant_id : UUID) (psp_connection_id : string)
    (event_data : gmap string string) (idempotency_key : string)
    (path : s3_path) : SE aws unit :=
  modify (fun st =>
    {| idempotency_keys := idempotency_keys st;
       s3_objects := s3_objects st;
       kinesis_stream := kinesis_stream st ++
         [ {| rec_tenant_id := tenant_id;
              rec_psp_connection_id := psp_connection_id;
              rec_idempotency_key := idempotency_key;
              rec_s3_path := path;
              rec_event_data := event_data;
              rec_source_type := "WEBHOOK" |} ];
       next_event_id := next_event_id st;
       utcnow := utcnow st |}).

(** ** WebhookHandler._generate_idempotency_key *)
Definition _generate_idempotency_key (psp_connection_id : string)
    (event_data : gmap string string) : string :=
  let get_or (k1 k2 : string) : string :=
    if truthy (event_data !! k1) then default "" (event_data !! k1)
    else default "" (event_data !! k2) in
  let event_id := get_or "id" "event_id" in
  let event_type := get_or "type" "event_type" in
  let timestamp := get_or "created" "timestamp" in
  psp_connection_id +:+ ":" +:+ event_id +:+ ":" +:+ event_type
    +:+ ":" +:+ timestamp.

(** ** WebhookHandler.handle_webhook.  Everything raised inside the
    [try], the 401 of a bad signature included, leaves the handler
    as [HTTPException(500)]. *)
Definition handle_webhook (body : string) (tenant_id : UUID)
    (psp_connection_id : string)
    (x_signature x_idempotency_key : option string) : SE aws response :=
  match json_loads body with
  | None => raise (HTTPException 500 "Error processing webhook")
  | Some body_json =>
      let psp_config := psp_connection_config tenant_id psp_connection_id in
      if negb (_validate_signature body x_signature psp_config)
      then raise (HTTPException 500 "Error processing webhook")
      else
        let idempotency_key :=
          if truthy x_idempotency_key then default "" x_idempotency_key
          else _generate_idempotency_key psp_connection_id body_json in
        seen <~ _check_idempotency tenant_id idempotency_key ;;
        if seen : bool then ret (Duplicate idempotency_key)
        else
          path <~ _store_raw_event tenant_id psp_connection_id body_json
                    idempotency_key ;;
          _mark_idempotent tenant_id idempotency_key path ;;;
          _publish_to_kinesis tenant_id psp_connection_id body_json
            idempotency_key path ;;;
          ret (Processed idempotency_key path)
  end.



End Handler.

(** ** WebhookHandler._get_psp_config as the source has it. *)
Definition placeholder_config : UUID -> string -> gmap string string :=
  fun _ _ => ∅.

End Webhook.

(* ===================================================================== *)
(** * Concrete stores used by the examples                                *)
(* ===================================================================== *)

Module Scenario.

(** A transaction of tenant 7 on connection [psp_stripe_001], dated
    day 19737 (2024-01-15), in USD. *)
Definition mk_txn (id : UUID) (event_type : string) (amount_ : Z)
    (fee net : option Z) (payment settlement customer : option string)
    (recon : string) : txn_row :=
  {| t_transaction_id := id;
     t_tenant_id := 7%N;
     t_brand_id := 8%N;
     t_entity_id := 9%N;
     t_psp_connection_id := "psp_stripe_001";
     t_event_type := event_type;
     t_transaction_date := 19737;
     t_amount_value := amount_;
     t_amount_currency := "USD";
     t_amount_original_currency := None;
     t_amount_fx_rate := None;
     t_psp_transaction_id := "txn_123";
     t_psp_payment_id := payment;
     t_psp_settlement_id := settlement;
     t_customer_id := customer;
     t_psp_fee := fee;
     t_net_amount := net;
     t_status := "COMPLETED";
     t_reconciliation_status := recon;
     t_source_idempotency_key := "psp_stripe_001:evt_1:DEPOSIT:1" |}.

(** A settlement line of the same tenant and connection, in USD. *)
Definition mk_settlement (id : UUID) (day : date) (batch : string) (line : Z)
    (amount_ : Z) (psp_settlement : option string) (refs : list string)
    : settlement_row :=
  {| s_settlement_id := id;
     s_tenant_id := 7%N;
     s_psp_connection_id := "psp_stripe_001";
     s_settlement_date := day;
     s_settlement_batch_id := batch;
     s_settlement_line_number := line;
     s_amount_value := amount_;
     s_amount_currency := "USD";
     s_psp_settlement_id := psp_settlement;
     s_psp_transaction_ids := refs |}.

Definition mk_match (id txn : UUID) (settlement : option UUID) (level conf : Z)
    (status : string) : match_row :=
  {| m_match_id := id;
     m_tenant_id := 7%N;
     m_transaction_id := txn;
     m_settlement_id := settlement;
     m_match_level := level;
     m_confidence_score := conf;
     m_match_method := "AUTO";
     m_amount_difference := None;
     m_amount_difference_percent := None;
     m_status := status |}.

Definition mk_world (txns : list txn_row) (settlements : list settlement_row)
    (matches : list match_row) : world :=
  {| db := {| normalized_transaction := txns;
              psp_settlement := settlements;
              reconciliation_match := matches;
              reconciliation_exception := [];
              ledger_entry := [];
              psp_connection := [];
              entity := [];
              fx_rate := [] |};
     next_uuid := 100%N |}.

(** Scenario 1 of the specification: a settlement with the same
    [psp_settlement_id] on the same day. *)
Definition level_1_happy : world :=
  mk_world [mk_txn 1%N "DEPOSIT" 100000 (Some 2900) (Some 97100) None
                   (Some "set_A") None "PENDING"]
           [mk_settlement 11%N 19737 "batch_1" 1 97100 (Some "set_A") []]
           [].




(** Scenario 4: exact amount and currency, same customer, settled
    one day later (2024-01-16). *)
Definition fuzzy_dated_shift : world :=
  mk_world [mk_txn 1%N "DEPOSIT" 100000 None (Some 100000) None None
                   (Some "cust_1") "PENDING"]
           [mk_settlement 11%N 19738 "batch_1" 1 100000 None ["cust_1"]]
           [].

(** The same on the day of the transaction. *)
Definition fuzzy_same_day : world :=
  mk_world [mk_txn 1%N "DEPOSIT" 100000 None (Some 100000) None None
                   (Some "cust_1") "PENDING"]
           [mk_settlement 11%N 19737 "batch_1" 1 100000 None ["cust_1"]]
           [].

(** Two settlements reference the payment: the store returns first
    the one that is 500 off (batch B, line 2), then the exact one
    (batch A, line 1). *)
Definition two_candidates : world :=
  mk_world [mk_txn 1%N "DEPOSIT" 100000 None (Some 100000) (Some "pay_1")
                   None None "PENDING"]
           [mk_settlement 11%N 19737 "batch_B" 2 99500 None ["pay_1"];
            mk_settlement 12%N 19737 "batch_A" 1 100000 None ["pay_1"]]
           [].

(** Scenario 5: 250 USD and no settlement at all. *)
Definition no_candidate : world :=
  mk_world [mk_txn 1%N "DEPOSIT" 250 None (Some 250) None None None
                   "PENDING"]
           [] [].

(** A store that knows the connection [psp_stripe_001] of tenant 7
    (entity 9 of brand 8, base currency USD) and holds no
    transaction yet, with an empty matching stream. *)
Definition fresh_pipeline : Normalizer.pipeline :=
  {| Normalizer.store :=
       {| db := {| normalized_transaction := [];
                   psp_settlement := [];
                   reconciliation_match := [];
                   reconciliation_exception := [];
                   ledger_entry := [];
                   psp_connection :=
                     [ {| c_psp_connection_id := "psp_stripe_001";
                          c_tenant_id := 7%N;
                          c_entity_id := 9%N |} ];
                   entity :=
                     [ {| e_entity_id := 9%N; e_brand_id := 8%N;
                          e_base_currency := "USD" |} ];
                   fx_rate := [] |};
          next_uuid := 100%N |};
     Normalizer.matching_stream := [] |}.

(** A deposit of 100_000 USD with a fee of 2_900, created at second
    1_705_312_800 (2024-01-15T10:00:00Z), and the same event without
    its event type. *)
Definition deposit_event (event_type : option string) : Normalizer.raw_event :=
  {| Normalizer.raw_tenant_id := 7%N;
     Normalizer.raw_psp_connection_id := "psp_stripe_001";
     Normalizer.raw_event_data :=
       {| Normalizer.ev_event_type := event_type;
          Normalizer.ev_created := Some 1705312800;
          Normalizer.ev_event_date := None;
          Normalizer.ev_transaction_date := None;
          Normalizer.ev_amount := Some (Normalizer.NInt 100000);
          Normalizer.ev_currency := Some "USD";
          Normalizer.ev_amount_currency := None;
          Normalizer.ev_fee := Some (Normalizer.NInt 2900);
          Normalizer.ev_net := None;
          Normalizer.ev_fx_rate := None;
          Normalizer.ev_original_currency := None;
          Normalizer.ev_psp_transaction_id := Some "txn_123";
          Normalizer.ev_psp_event_id := Some "evt_1";
          Normalizer.ev_psp_payment_id := Some "pay_1";
          Normalizer.ev_psp_settlement_id := Some "set_A";
          Normalizer.ev_customer_id := None;
          Normalizer.ev_status := Some "succeeded" |};
     Normalizer.raw_source_type := Some "WEBHOOK";
     Normalizer.raw_idempotency_key :=
       Some "psp_stripe_001:evt_1:payment.succeeded:1705312800" |}.




(** A matched withdrawal of amount zero. *)
Definition zero_withdrawal : world :=
  mk_world [mk_txn 1%N "WITHDRAWAL" 0 None (Some 0) None (Some "set_A") None
                   "MATCHED"]
           [] [mk_match 2%N 1%N (Some 3%N) 1 100 "MATCHED"].

(** The deposit of the specification: 100_000 with a fee of 2_900. *)
Definition deposit_with_fee : world :=
  mk_world [mk_txn 1%N "DEPOSIT" 100000 (Some 2900) (Some 97100) None
                   (Some "set_A") None "MATCHED"]
           [] [mk_match 2%N 1%N (Some 3%N) 1 100 "MATCHED"].

(** A matched transaction of a type the ledger has no rule for. *)
Definition chargeback_reversal : world :=
  mk_world [mk_txn 1%N "CHARGEBACK_REVERSAL" 20000 None (Some 20000) None
                   (Some "set_A") None "MATCHED"]
           [] [mk_match 2%N 1%N (Some 3%N) 1 100 "MATCHED"].

End Scenario.

(* ===================================================================== *)
(** * Measures on ledger groups                                           *)
(* ===================================================================== *)

Module Accounts.

Import Ledger Ledger.ChartOfAccounts.
Local Open Scope py_scope.

(** The net debit a list of postings puts on one account: what is
    debited to it less what is credited to it. *)
Fixpoint net_debit (acct : string) (ps : list posting) : Z :=
  match ps with
  | [] => 0
  | p :: ps' =>
      (if String.eqb (p_account p) acct
       then match p_side p with
            | Debit => p_amount p
            | Credit => - p_amount p
            end
       else 0) + net_debit acct ps'
  end.

(** What an entry says, its identifier apart. *)
Definition shape (e : LedgerEntry)
    : string * string * Z * string * (UUID * UUID) * string :=
  (account_debit e, account_credit e, amount e, currency e,
   (reference_transaction_id e, reference_match_id e), description e).

(** What an entry posts: its accounts, amount, currency and text. *)
Definition posted (e : LedgerEntry) : string * string * Z * string * string :=
  (account_debit e, account_credit e, amount e, currency e, description e).

(** What a posting rule answers, the identifiers and the session
    apart. *)
Definition outcome (x : result (list LedgerEntry) * session)
    : result (list (string * string * Z * string * (UUID * UUID) * string)) :=
  match fst x with
  | Ok entries => Ok (map shape entries)
  | Raise e => Raise e
  end.

(** The dispatch of [post_matched_transaction] on the event type. *)
Definition posting_rule (transaction : txn_row) (match_ : match_row)
    : M (list LedgerEntry) :=
  let event_type := t_event_type transaction in
  if String.eqb event_type "DEPOSIT"
    then _post_deposit transaction match_
  else if String.eqb event_type "WITHDRAWAL"
    then _post_withdrawal transaction match_
  else if String.eqb event_type "REFUND"
    then _post_refund transaction match_
  else if String.eqb event_type "CHARGEBACK"
    then _post_chargeback transaction match_
  else if String.eqb event_type "FEE"
    then _post_fee transaction match_
  else raise (ValueError
    ("Unsupported event type for ledger posting: " +:+ event_type)).

(** The session a [with] block opens on a world. *)
Definition open_session (w : world) : session :=
  {| committed := db w; working := db w; supply := next_uuid w |}.

End Accounts.

(* ===================================================================== *)
(** * What a match call leaves behind                                     *)
(* ===================================================================== *)

Module Effects.

Import Matching.
Local Open Scope py_scope.

(** The object [_create_match] returns under the identifier [id], and
    the row it inserts. *)
Definition match_object (id : UUID) (t : txn_row) (sid : UUID)
    (l : MatchLevel) (c : Z) (ad : option Z) (ap : option Q)
    : ReconciliationMatch :=
  {| match_id := id;
     tenant_id := t_tenant_id t;
     transaction_id := t_transaction_id t;
     settlement_id := Some sid;
     match_level := l;
     confidence_score := c;
     match_method := AUTO;
     amount_difference := ad;
     amount_difference_percent := if truthy_float ap then ap else None;
     status := status_of_confidence c |}.

Definition match_row_of (id : UUID) (t : txn_row) (sid : UUID)
    (l : MatchLevel) (c : Z) (ad : option Z) (ap : option Q) : match_row :=
  {| m_match_id := id;
     m_tenant_id := t_tenant_id t;
     m_transaction_id := t_transaction_id t;
     m_settlement_id := Some sid;
     m_match_level := MatchLevel_value l;
     m_confidence_score := c;
     m_match_method := MatchMethod_value AUTO;
     m_amount_difference := ad;
     m_amount_difference_percent := ap;
     m_status := MatchStatus_value (status_of_confidence c) |}.

(** The database after the two statements of [_create_match]. *)
Definition after_match (id : UUID) (t : txn_row) (sid : UUID)
    (l : MatchLevel) (c : Z) (ad : option Z) (ap : option Q) (d : database)
    : database :=
  update_reconciliation_status (t_transaction_id t)
    (if 95 <=? c then MatchStatus_value MATCHED else "PARTIAL_MATCH")
    (insert_match (match_row_of id t sid l c ad ap) d).

(** The object [_create_exception] returns, and the row it inserts. *)
Definition exception_object (id : UUID) (t : txn_row) (ty : ExceptionType)
    (m : option ReconciliationMatch) : ReconciliationException :=
  {| exception_id := id;
     exc_tenant_id := t_tenant_id t;
     exc_transaction_id := Some (t_transaction_id t);
     exc_settlement_id := match m with
                          | Some m => settlement_id m
                          | None => None
                          end;
     exception_type := ty;
     exception_reason := _get_exception_reason ty m;
     amount_value := t_amount_value t;
     amount_currency := t_amount_currency t;
     priority := if 1000000 <=? t_amount_value t then P1
                 else if 100000 <=? t_amount_value t then P2
                 else if 10000 <=? t_amount_value t then P3
                 else P4;
     exc_status := OPEN |}.

Definition exception_row_of (e : ReconciliationException) : exception_row :=
  {| x_exception_id := exception_id e;
     x_tenant_id := exc_tenant_id e;
     x_transaction_id := exc_transaction_id e;
     x_settlement_id := exc_settlement_id e;
     x_exception_type := ExceptionType_value (exception_type e);
     x_exception_reason := exception_reason e;
     x_amount_value := amount_value e;
     x_amount_currency := amount_currency e;
     x_priority := ExceptionPriority_value (priority e);
     x_status := ExceptionStatus_value (exc_status e) |}.

Definition after_exception (e : ReconciliationException) (d : database)
    : database :=
  set_reconciliation_exception (fun rows => rows ++ [exception_row_of e]) d.

(** [match_transaction] in closed form: the answer and the world it
    leaves, read off the transaction and the first candidate of each
    level. *)
Definition ladder (tid : UUID) (w : world) : result MatchResult * world :=
  match select_transaction tid (db w) with
  | None => (Raise (ValueError "Transaction not found"), w)
  | Some t =>
    if String.eqb (t_reconciliation_status t) "MATCHED"
    then (Ok already_matched, w)
    else
    match hit STRONG_ID t (db w) with
    | Some row =>
        (Ok {| mr_status := MATCHED; mr_confidence := 100;
               mr_match := Some (match_object (next_uuid w) t
                                   (s_settlement_id row) STRONG_ID 100
                                   None None);
               mr_exception := None |},
         {| db := after_match (next_uuid w) t (s_settlement_id row)
                    STRONG_ID 100 None None (db w);
            next_uuid := N.succ (next_uuid w) |})
    | None =>
    match hit PSP_REFERENCE t (db w) with
    | Some row =>
        let ad := t_amount_value t - s_amount_value row in
        let ap := amount_diff_percent ad (t_amount_value t) in
        let m := match_object (next_uuid w) t (s_settlement_id row)
                   PSP_REFERENCE 95 (Some ad) (Some ap) in
        let d1 := after_match (next_uuid w) t (s_settlement_id row)
                    PSP_REFERENCE 95 (Some ad) (Some ap) (db w) in
        if Qltb (Qabs (default 0%Q (amount_difference_percent m))) 1
        then (Ok {| mr_status := MATCHED; mr_confidence := 95;
                    mr_match := Some m; mr_exception := None |},
              {| db := d1; next_uuid := N.succ (next_uuid w) |})
        else
          let e := exception_object (N.succ (next_uuid w)) t AMOUNT_MISMATCH
                     (Some m) in
          (Ok {| mr_status := PARTIAL_MATCH; mr_confidence := 95;
                 mr_match := Some m; mr_exception := Some e |},
           {| db := after_exception e d1;
              next_uuid := N.succ (N.succ (next_uuid w)) |})
    | None =>
    match hit FUZZY t (db w) with
    | Some row => (Raise TypeError, w)
    | None =>
    match hit AMOUNT_DATE t (db w) with
    | Some row =>
        let m := match_object (next_uuid w) t (s_settlement_id row)
                   AMOUNT_DATE 60 None None in
        let e := exception_object (N.succ (next_uuid w)) t EXC_PARTIAL_MATCH
                   (Some m) in
        (Ok {| mr_status := PENDING_REVIEW; mr_confidence := 60;
               mr_match := Some m; mr_exception := Some e |},
         {| db := after_exception e
                    (after_match (next_uuid w) t (s_settlement_id row)
                       AMOUNT_DATE 60 None None (db w));
            next_uuid := N.succ (N.succ (next_uuid w)) |})
    | None =>
        (Raise AttributeError,
         {| db := after_exception
                    (exception_object (next_uuid w) t UNMATCHED None) (db w);
            next_uuid := N.succ (next_uuid w) |})
    end end end end
  end.

(** The rows of [reconciliation_match] that settle a settlement: the
    ones every level's query excludes. *)
Definition matched_rows (sid : UUID) (d : database) : list match_row :=
  List.filter
    (fun m => bool_decide (m_settlement_id m = Some sid)
              && String.eqb (m_status m) "MATCHED")
    (reconciliation_match d).

(** No settlement is settled twice. *)
Definition settled_once (d : database) : Prop :=
  forall sid, (length (matched_rows sid d) <= 1)%nat.


(** The world after [n] calls of [match_transaction] in a row. *)
Definition retry (n : nat) (tid : UUID) (w : world) : world :=
  Nat.iter n (fun w => snd (match_transaction tid w)) w.

End Effects.

(* ===================================================================== *)
(** * Keys and identifiers across the pipeline                            *)
(* ===================================================================== *)

Module Pipeline.

Import Normalizer.
Local Open Scope py_scope.

(** The unique key of [normalized_transaction]. *)
Definition key_of (r : txn_row) : UUID * string * string * string :=
  (t_tenant_id r, t_psp_connection_id r, t_psp_transaction_id r,
   t_event_type r).

Definition unique_keys (d : database) : Prop :=
  NoDup (map key_of (normalized_transaction d)).


(** The record [_publish_to_matching] emits for a transaction. *)
Definition record_of (n : NormalizedTransaction) : matching_record :=
  {| pub_transaction_id := transaction_id n;
     pub_tenant_id := tenant_id n;
     pub_psp_transaction_id := psp_transaction_id n;
     pub_event_type := EventType_value (event_type n) |}.

(** The event [normalize_event] hands to [_map_to_canonical]. *)
Definition enriched (today : date) (raw : raw_event) (d : database) : event :=
  _enrich_fx today (raw_event_data raw)
    (_get_psp_config (raw_tenant_id raw) (raw_psp_connection_id raw) d) d.

End Pipeline.

(* ===================================================================== *)
(** * Requests served in a row                                            *)
(* ===================================================================== *)

Module Ingestion.

Import Webhook.
Local Open Scope py_scope.

(** What a webhook request brings: the body, the two path parameters
    and the two headers. *)
Record request : Type := {
  req_body : string;
  req_tenant_id : UUID;
  req_psp_connection_id : string;
  req_x_signature : option string;
  req_x_idempotency_key : option string
}.

Section Serve.

Variable json_loads : string -> option (gmap string string).
Variable psp_connection_config : UUID -> string -> gmap string string.
Variable secret_string : string -> string.
Variable hmac_sha256_hexdigest : string -> string -> string.
Variable s3_bucket : string.

Definition handle (rq : request) : SE aws response :=
  handle_webhook json_loads psp_connection_config secret_string
    hmac_sha256_hexdigest s3_bucket (req_body rq) (req_tenant_id rq)
    (req_psp_connection_id rq) (req_x_signature rq)
    (req_x_idempotency_key rq).

(** The requests are answered one after the other. *)
Definition serve (rqs : list request) (st : aws) : aws :=
  fold_left (fun st rq => snd (handle rq st)) rqs st.

Definition answers (rqs : list request) (st : aws) : list (result response) :=
  snd (fold_left (fun acc rq =>
                    let '(r, st') := handle rq (fst acc) in
                    (st', snd acc ++ [r]))
                 rqs (st, [])).

End Serve.



End Ingestion.

(* ===================================================================== *)
(** * lambda_functions: the three consumers                               *)
(* ===================================================================== *)

(** A record of the batch is taken as already decoded: [None] stands
    for a record whose decoding raises (no [kinesis] data, a body that
    is not JSON, a missing key, an identifier that is not a UUID),
    which the loop catches like any other exception. *)
Module Consumers.

Local Open Scope py_scope.

(** ** lambda_functions/ledger_poster.py *)
Record poster_counts : Type := {
  lp_processed : Z;
  lp_posted : Z;
  lp_failed : Z
}.

Record poster_response : Type := {
  lp_statusCode : Z;
  lp_counts : poster_counts
}.

Definition poster_step (acc : poster_counts * world)
    (record : option (UUID * UUID)) : poster_counts * world :=
  let '(c, w) := acc in
  match record with
  | Some (transaction_id, match_id) =>
      match Ledger.post_matched_transaction transaction_id match_id w with
      | (Ok entries, w') =>
          ({| lp_processed := lp_processed c + 1;
              lp_posted := lp_posted c + Z.of_nat (length entries);
              lp_failed := lp_failed c |}, w')
      | (Raise _, w') =>
          ({| lp_processed := lp_processed c;
              lp_posted := lp_posted c;
              lp_failed := lp_failed c + 1 |}, w')
      end
  | None =>
      ({| lp_processed := lp_processed c;
          lp_posted := lp_posted c;
          lp_failed := lp_failed c + 1 |}, w)
  end.

Definition ledger_poster_handler (records : list (option (UUID * UUID)))
    (w : world) : poster_response * world :=
  let '(c, w') :=
    fold_left poster_step records
      ({| lp_processed := 0; lp_posted := 0; lp_failed := 0 |}, w) in
  ({| lp_statusCode := 200; lp_counts := c |}, w').



(** [result.match and result.status.value == 'MATCHED'] *)
Definition is_matched (r : Matching.MatchResult) : bool :=
  match Matching.mr_match r with
  | Some _ =>
      String.eqb (Matching.MatchStatus_value (Matching.mr_status r)) "MATCHED"
  | None => false
  end.



(** ** lambda_functions/kinesis_normalization_consumer.py *)
Record normalization_counts : Type := {
  nc_processed : Z;
  nc_failed : Z
}.

Record normalization_response : Type := {
  nc_statusCode : Z;
  nc_counts : normalization_counts
}.

Definition normalization_step (today : date)
    (acc : normalization_counts * Normalizer.pipeline)
    (record : option Normalizer.raw_event)
    : normalization_counts * Normalizer.pipeline :=
  let '(c, p) := acc in
  match record with
  | Some payload =>
      match Normalizer.normalize_event today payload p with
      | (Ok _, p') =>
          ({| nc_processed := nc_processed c + 1;
              nc_failed := nc_failed c |}, p')
      | (Raise _, p') =>
          ({| nc_processed := nc_processed c;
              nc_failed := nc_failed c + 1 |}, p')
      end
  | None =>
      ({| nc_processed := nc_processed c;
          nc_failed := nc_failed c + 1 |}, p)
  end.

Definition normalization_consumer_handler (today : date)
    (records : list (option Normalizer.raw_event)) (p : Normalizer.pipeline)
    : normalization_response * Normalizer.pipeline :=
  let '(c, p') :=
    fold_left (normalization_step today) records
      ({| nc_processed := 0; nc_failed := 0 |}, p) in
  ({| nc_statusCode := 200; nc_counts := c |}, p').

End Consumers.

(* ===================================================================== *)
(** * services/reconciliation/reprocessing.py                             *)
(* ===================================================================== *)

Module Reprocessing.

Local Open Scope py_scope.

(** [datetime.date], compared as Python compares dates. *)
Record pydate : Type := {
  year : Z;
  month : Z;
  day : Z
}.

Definition date_le (a b : pydate) : bool :=
  (year a <? year b)
  || ((year a =? year b)
      && ((month a <? month b)
          || ((month a =? month b) && (day a <=? day b)))).

(** [min(a, b)] *)
Definition date_min (a b : pydate) : pydate :=
  if date_le a b then a else b.

Record reprocess_counts : Type := {
  processed_count : Z;
  matched_count : Z;
  exceptions_count : Z
}.

Section Calendar.

(** The calendar date of a stored [transaction_date]. *)
Variable civil : date -> pydate.

(** The WHERE clause of [reprocess_date_range]. *)
Definition in_range (tenant : UUID) (start_date end_date : pydate)
    (psp_connection_id : option string) (r : txn_row) : bool :=
  bool_decide (t_tenant_id r = tenant)
  && (date_le start_date (civil (t_transaction_date r))
      && date_le (civil (t_transaction_date r)) end_date)
  && (String.eqb (t_reconciliation_status r) "PENDING"
      || String.eqb (t_reconciliation_status r) "UNMATCHED"
      || String.eqb (t_reconciliation_status r) "PARTIAL_MATCH")
  && (if truthy psp_connection_id
      then String.eqb (t_psp_connection_id r) (default "" psp_connection_id)
      else true).

Definition select_range (tenant : UUID) (start_date end_date : pydate)
    (psp_connection_id : option string) (d : database) : list UUID :=
  map t_transaction_id
      (List.filter (in_range tenant start_date end_date psp_connection_id)
                   (normalized_transaction d)).

(** The body of the loop: an exception of [match_transaction] is
    logged and counts for nothing. *)
Definition reprocess_step (acc : reprocess_counts * world)
    (transaction_id : UUID) : reprocess_counts * world :=
  let '(c, w) := acc in
  match Matching.match_transaction transaction_id w with
  | (Ok result, w') =>
      ({| processed_count := processed_count c + 1;
          matched_count :=
            if Consumers.is_matched result then matched_count c + 1
            else matched_count c;
          exceptions_count :=
            match Matching.mr_exception result with
            | Some _ => exceptions_count c + 1
            | None => exceptions_count c
            end |}, w')
  | (Raise _, w') => (c, w')
  end.

(** ** ReprocessingService.reprocess_date_range *)
Definition reprocess_date_range (tenant : UUID) (start_date end_date : pydate)
    (psp_connection_id : option string) (w : world)
    : reprocess_counts * world :=
  fold_left reprocess_step
    (select_range tenant start_date end_date psp_connection_id (db w))
    ({| processed_count := 0; matched_count := 0; exceptions_count := 0 |},
     w).

(** ** ReprocessingService.backfill_historical.  The [while] loop is
    run on fuel; [backfill_historical] gives it one unit for each
    month from the start to the end. *)
Definition next_month (batch_end : pydate) : pydate :=
  if month batch_end =? 12
  then {| year := year batch_end + 1; month := 1; day := 1 |}
  else {| year := year batch_end; month := month batch_end + 1; day := 1 |}.

Fixpoint backfill_loop (fuel : nat) (tenant : UUID)
    (current_date end_date : pydate) (totals : Z * Z) (w : world)
    : option (Z * Z * world) :=
  if date_le current_date end_date then
    match fuel with
    | O => None
    | S fuel' =>
        let batch_end :=
          date_min {| year := year current_date;
                      month := month current_date;
                      day := 28 |} end_date in
        let '(result, w') :=
          reprocess_date_range tenant current_date batch_end None w in
        backfill_loop fuel' tenant (next_month batch_end) end_date
          (fst totals + processed_count result,
           snd totals + matched_count result) w'
    end
  else Some (totals, w).

Definition months_between (a b : pydate) : Z :=
  12 * (year b - year a) + (month b - month a).

Definition backfill_historical (tenant : UUID) (start_date end_date : pydate)
    (w : world) : option (Z * Z * world) :=
  backfill_loop (Z.to_nat (months_between start_date end_date + 1)) tenant
    start_date end_date (0, 0) w.

End Calendar.

End Reprocessing.

(* ===================================================================== *)
(** * Further concrete stores                                             *)
(* ===================================================================== *)

Module Cases.

Import Scenario.

(** A matched deposit of 5_000 that the normalizer stored without a
    fee. *)
Definition deposit_without_fee : world :=
  mk_world [mk_txn 1%N "DEPOSIT" 5000 None (Some 5000) None (Some "set_A")
                   None "MATCHED"]
           [] [mk_match 2%N 1%N (Some 3%N) 1 100 "MATCHED"].

(** A matched chargeback of 20_000. *)
Definition matched_chargeback : world :=
  mk_world [mk_txn 1%N "CHARGEBACK" 20000 None (Some 20000) None
                   (Some "set_A") None "MATCHED"]
           [] [mk_match 2%N 1%N (Some 3%N) 1 100 "MATCHED"].








(** The proleptic Gregorian calendar date of a day number counted
    from 1970-01-01. *)
Definition civil_from_days (z0 : Z) : Reprocessing.pydate :=
  let z := z0 + 719468 in
  let era := z / 146097 in
  let doe := z - era * 146097 in
  let yoe := (doe - doe / 1460 + doe / 36524 - doe / 146096) / 365 in
  let y := yoe + era * 400 in
  let doy := doe - (365 * yoe + yoe / 4 - yoe / 100) in
  let mp := (5 * doy + 2) / 153 in
  let d := doy - (153 * mp + 2) / 5 + 1 in
  let m := if mp <? 10 then mp + 3 else mp - 9 in
  {| Reprocessing.year := if m <=? 2 then y + 1 else y;
     Reprocessing.month := m;
     Reprocessing.day := d |}.

(** Two pending transactions with a level-1 candidate each: one of
    2024-01-15 (day 19737) and one of 2024-01-30 (day 19752). *)
Definition txn_of_day (id : UUID) (day : date) (settlement : string)
    : txn_row :=
  {| t_transaction_id := id;
     t_tenant_id := 7%N;
     t_brand_id := 8%N;
     t_entity_id := 9%N;
     t_psp_connection_id := "psp_stripe_001";
     t_event_type := "DEPOSIT";
     t_transaction_date := day;
     t_amount_value := 100000;
     t_amount_currency := "USD";
     t_amount_original_currency := None;
     t_amount_fx_rate := None;
     t_psp_transaction_id := "txn_" +:+ settlement;
     t_psp_payment_id := None;
     t_psp_settlement_id := Some settlement;
     t_customer_id := None;
     t_psp_fee := Some 2900;
     t_net_amount := Some 97100;
     t_status := "COMPLETED";
     t_reconciliation_status := "PENDING";
     t_source_idempotency_key := "psp_stripe_001:" +:+ settlement |}.

Definition january : world :=
  mk_world [txn_of_day 1%N 19737 "set_A"; txn_of_day 2%N 19752 "set_B"]
           [mk_settlement 11%N 19737 "batch_1" 1 97100 (Some "set_A") [];
            mk_settlement 12%N 19752 "batch_2" 1 97100 (Some "set_B") []]
           [].

(** The matched deposit of transaction 1 with its match row 2, and
    the match row 6 of another transaction (5), under review. *)
Definition foreign_match : world :=
  mk_world [mk_txn 1%N "DEPOSIT" 100000 (Some 2900) (Some 97100) None
                   (Some "set_A") None "MATCHED"]
           [] [mk_match 2%N 1%N (Some 3%N) 1 100 "MATCHED";
               mk_match 6%N 5%N (Some 4%N) 4 60 "PARTIAL_MATCH"].

(** A matched deposit of 50_000 EUR cents on the Adyen connection
    [psp_adyen_eu_001]. *)
Definition adyen_deposit : world :=
  mk_world [ {| t_transaction_id := 1%N;
                t_tenant_id := 7%N;
                t_brand_id := 8%N;
                t_entity_id := 9%N;
                t_psp_connection_id := "psp_adyen_eu_001";
                t_event_type := "DEPOSIT";
                t_transaction_date := 19737;
                t_amount_value := 50000;
                t_amount_currency := "EUR";
                t_amount_original_currency := None;
                t_amount_fx_rate := None;
                t_psp_transaction_id := "txn_eu";
                t_psp_payment_id := None;
                t_psp_settlement_id := Some "set_E";
                t_customer_id := None;
                t_psp_fee := Some 900;
                t_net_amount := Some 49100;
                t_status := "COMPLETED";
                t_reconciliation_status := "MATCHED";
                t_source_idempotency_key := "psp_adyen_eu_001:evt_9" |} ]
           [] [mk_match 2%N 1%N (Some 3%N) 1 100 "MATCHED"].

End Cases.

(* ===================================================================== *)
(** * Properties                                                          *)
(* ===================================================================== *)

(** ** The ledger poster *)
Section LedgerProperties.

Import Ledger Ledger.ChartOfAccounts.
Local Open Scope py_scope.

(** Unfolds one monadic step in hypothesis [H] and splits on its
    outcome. *)
Ltac step_in H :=
  unfold bind in H at 1;
  match type of H with
  | match ?m ?s with _ => _ end = _ =>
      let r := fresh "r" in
      let s1 := fresh "s" in
      let E := fresh "E" in
      destruct (m s) as [r s1] eqn:E; destruct r; cbn beta iota in H
  end.

(** Each entry is balanced by construction, hence so is any group. *)
Lemma group_balanced (entries : list LedgerEntry) (ccy : string) :
  total Debit ccy (group_postings entries)
  = total Credit ccy (group_postings entries).
Proof.
  unfold group_postings.
  induction entries as [|e entries IH]; cbn; [reflexivity|].
  rewrite IH. destruct (String.eqb (currency e) ccy); cbn; lia.
Qed.

Lemma create_entry_ok tenant ent d ad ac am ccy rt rm desc s e s' :
  _create_entry tenant ent d ad ac am ccy rt rm desc s = (Ok e, s') ->
  am = Some (amount e) /\ currency e = ccy
  /\ account_debit e = ad /\ account_credit e = ac
  /\ committed s' = committed s
  /\ working s'
     = set_ledger_entry (fun rows => rows ++ [row_of_entry e]) (working s).
Proof.
  unfold _create_entry, bind, uuid4, execute, raise, ret.
  destruct am as [a|]; [destruct (3 <? String.length ccy)%nat|];
    cbn; intros H; inversion H; subst; cbn.
  repeat split; reflexivity.
Qed.

Lemma create_entry_committed tenant ent d ad ac am ccy rt rm desc s r s' :
  _create_entry tenant ent d ad ac am ccy rt rm desc s = (r, s') ->
  committed s' = committed s.
Proof.
  unfold _create_entry, bind, uuid4, execute, raise, ret.
  destruct am as [a|]; [destruct (3 <? String.length ccy)%nat|];
    cbn; intros H; inversion H; reflexivity.
Qed.

Lemma set_ledger_entry_app (d : database) (a b : list ledger_row) :
  set_ledger_entry (fun rows => rows ++ b)
    (set_ledger_entry (fun rows => rows ++ a) d)
  = set_ledger_entry (fun rows => rows ++ (a ++ b)) d.
Proof. unfold set_ledger_entry; cbn. by rewrite <- app_assoc. Qed.

Lemma post_withdrawal_ok t m s entries s' :
  t_event_type t <> "DEPOSIT" ->
  _post_withdrawal t m s = (Ok entries, s') -> rule_post t s entries s'.
Proof.
  intros Hne H. unfold _post_withdrawal in H. step_in H; [|discriminate].
  apply create_entry_ok in E as (Ha & Hc & _ & _ & Hcm & Hw).
  unfold ret in H. inversion H; subst. unfold rule_post, posted_amount.
  apply String.eqb_neq in Hne. rewrite Hne.
  repeat split; auto.
Qed.

Lemma post_refund_ok t m s entries s' :
  t_event_type t <> "DEPOSIT" ->
  _post_refund t m s = (Ok entries, s') -> rule_post t s entries s'.
Proof.
  intros Hne H. unfold _post_refund in H. step_in H; [|discriminate].
  apply create_entry_ok in E as (Ha & Hc & _ & _ & Hcm & Hw).
  unfold ret in H. inversion H; subst. unfold rule_post, posted_amount.
  apply String.eqb_neq in Hne. rewrite Hne.
  repeat split; auto.
Qed.

Lemma post_fee_ok t m s entries s' :
  t_event_type t <> "DEPOSIT" ->
  _post_fee t m s = (Ok entries, s') -> rule_post t s entries s'.
Proof.
  intros Hne H. unfold _post_fee in H. step_in H; [|discriminate].
  apply create_entry_ok in E as (Ha & Hc & _ & _ & Hcm & Hw).
  unfold ret in H. inversion H; subst. unfold rule_post, posted_amount.
  apply String.eqb_neq in Hne. rewrite Hne.
  repeat split; auto.
Qed.

Lemma post_chargeback_ok t m s entries s' :
  t_event_type t <> "DEPOSIT" ->
  _post_chargeback t m s = (Ok entries, s') -> rule_post t s entries s'.
Proof.
  intros Hne H. unfold _post_chargeback in H.
  step_in H; [|discriminate]. step_in H; [|discriminate].
  apply create_entry_ok in E as (Ha & Hc & _ & _ & Hcm & Hw).
  apply create_entry_ok in E0 as (Ha0 & Hc0 & _ & _ & Hcm0 & Hw0).
  unfold ret in H. inversion H; subst. unfold rule_post, posted_amount.
  apply String.eqb_neq in Hne. rewrite Hne.
  rewrite Hw0, Hw, set_ledger_entry_app.
  repeat split; auto; congruence.
Qed.

Lemma post_deposit_ok t m s entries s' :
  t_event_type t = "DEPOSIT" ->
  _post_deposit t m s = (Ok entries, s') -> rule_post t s entries s'.
Proof.
  intros He H. unfold _post_deposit in H.
  step_in H; [|discriminate].
  unfold sub_int in E. destruct (t_psp_fee t) as [fee|] eqn:Hfee;
    [|discriminate].
  unfold ret in E. inversion E; subst; clear E.
  step_in H; [|discriminate].
  apply create_entry_ok in E as (Ha & Hc & _ & _ & Hcm & Hw).
  step_in H; [|discriminate].
  unfold gt_int, ret in E. inversion E; subst; clear E.
  unfold rule_post, posted_amount. rewrite He; cbn.
  destruct (0 <? fee) eqn:Hpos.
  - step_in H; [|discriminate].
    apply create_entry_ok in E as (Ha0 & Hc0 & _ & _ & Hcm0 & Hw0).
    unfold ret in H. inversion H; subst.
    rewrite Hw0, Hw, set_ledger_entry_app.
    apply Z.ltb_lt in Hpos. inversion Ha0 as [Hfee'].
    split; [congruence|]. split; [reflexivity|].
    split; [repeat constructor; assumption|]. split; [discriminate|].
    constructor; [left; congruence|].
    constructor; [right; split; [congruence | lia]|constructor].
  - unfold ret in H. inversion H; subst.
    repeat split; auto.
Qed.

(** No posting rule commits, whatever its outcome. *)
Ltac rule_committed H :=
  repeat step_in H;
  unfold ret, raise in H; inversion H; subst; clear H;
  repeat match goal with
  | E : _create_entry _ _ _ _ _ _ _ _ _ _ _ = _ |- _ =>
      apply create_entry_committed in E
  | E : sub_int _ ?o _ = _ |- _ =>
      unfold sub_int, ret, raise in E; destruct o; inversion E; subst; clear E
  | E : gt_int ?o _ _ = _ |- _ =>
      unfold gt_int, ret, raise in E; destruct o; inversion E; subst; clear E
  end;
  congruence.

Lemma post_withdrawal_committed t m s r s' :
  _post_withdrawal t m s = (r, s') -> committed s' = committed s.
Proof. intros H. unfold _post_withdrawal in H. rule_committed H. Qed.

Lemma post_refund_committed t m s r s' :
  _post_refund t m s = (r, s') -> committed s' = committed s.
Proof. intros H. unfold _post_refund in H. rule_committed H. Qed.

Lemma post_fee_committed t m s r s' :
  _post_fee t m s = (r, s') -> committed s' = committed s.
Proof. intros H. unfold _post_fee in H. rule_committed H. Qed.

Lemma post_chargeback_committed t m s r s' :
  _post_chargeback t m s = (r, s') -> committed s' = committed s.
Proof. intros H. unfold _post_chargeback in H. rule_committed H. Qed.

Lemma post_deposit_committed t m s r s' :
  _post_deposit t m s = (r, s') -> committed s' = committed s.
Proof.
  intros H. unfold _post_deposit in H.
  step_in H.
  - step_in H.
    + step_in H.
      * destruct a1; rule_committed H.
      * rule_committed H.
    + rule_committed H.
  - rule_committed H.
Qed.

(** The cash account is chosen by the text before the first
    underscore of the connection id. *)
Example cash_account_of_connection :
  get_cash_account "adyen_eu_001" "EUR" = CASH_ADYEN_EUR
  /\ get_cash_account "Stripe_us_001" "USD" = CASH_STRIPE_USD
  /\ get_cash_account "psp_adyen_eu_001" "EUR" = CASH_STRIPE_USD.
Proof. repeat split; reflexivity. Qed.

(** The two outcomes of a [Post] call. *)
Lemma post_inv (transaction_id match_id : UUID) (w : world) r w' :
  post_matched_transaction transaction_id match_id w = (r, w') ->
  match r with
  | Ok entries =>
      exists t m,
        select_transaction transaction_id (db w) = Some t
        /\ select_match match_id (db w) = Some m
        /\ In (t_event_type t) supported_event_types
        /\ Forall (fun e => currency e = t_amount_currency t) entries
        /\ entries <> []
        /\ Forall (fun e => Some (amount e) = posted_amount t
                            \/ (Some (amount e) = t_psp_fee t /\ 0 < amount e))
                  entries
        /\ db w' = update_reconciliation_status transaction_id "POSTED"
                     (set_ledger_entry
                        (fun rows => rows ++ map row_of_entry entries) (db w))
  | Raise _ => db w' = db w
  end.
Proof.
  unfold post_matched_transaction, with_session.
  match goal with |- (let '(_, _) := ?b ?s0 in _) = _ -> _ =>
    destruct (b s0) as [r0 s1] eqn:H end.
  intros Hw; inversion Hw; subst; clear Hw; cbn [db].
  unfold _get_transaction, _get_match in H.
  unfold bind at 1, query in H; cbn [working] in H.
  unfold bind at 1 in H; cbn [working] in H.
  destruct (select_transaction transaction_id (db w)) as [t|] eqn:Ht;
    [|unfold raise in H; inversion H; reflexivity].
  destruct (select_match match_id (db w)) as [m|] eqn:Hm;
    [|unfold raise in H; inversion H; reflexivity].
  step_in H.
  - (* the posting rule returned *)
    unfold bind, execute, commit, ret in H; cbn in H.
    inversion H; subst; clear H; cbn.
    assert (Hrule : In (t_event_type t) supported_event_types
                    /\ rule_post t {| committed := db w; working := db w;
                                      supply := next_uuid w |} a s).
    { unfold supported_event_types.
      destruct (String.eqb (t_event_type t) "DEPOSIT") eqn:E1.
      { apply String.eqb_eq in E1. split; [rewrite E1; cbn; auto|].
        by apply (post_deposit_ok t m). }
      apply String.eqb_neq in E1.
      destruct (String.eqb (t_event_type t) "WITHDRAWAL") eqn:E2.
      { apply String.eqb_eq in E2. split; [rewrite E2; cbn; auto|].
        by apply (post_withdrawal_ok t m). }
      destruct (String.eqb (t_event_type t) "REFUND") eqn:E3.
      { apply String.eqb_eq in E3. split; [rewrite E3; cbn; auto|].
        by apply (post_refund_ok t m). }
      destruct (String.eqb (t_event_type t) "CHARGEBACK") eqn:E4.
      { apply String.eqb_eq in E4. split; [rewrite E4; cbn; auto 6|].
        by apply (post_chargeback_ok t m). }
      destruct (String.eqb (t_event_type t) "FEE") eqn:E5.
      { apply String.eqb_eq in E5. split; [rewrite E5; cbn; auto 6|].
        by apply (post_fee_ok t m). }
      unfold raise in E; discriminate. }
    destruct Hrule as (Hin & _ & Hwk & Hccy & Hne & Hamt); cbn in Hwk.
    exists t, m. rewrite Hwk. repeat split; auto.
  - (* the posting rule raised: nothing was committed *)
    inversion H; subst; clear H.
    assert (Hcm : committed s1 = db w).
    { destruct (String.eqb (t_event_type t) "DEPOSIT");
        [by apply post_deposit_committed in E|].
      destruct (String.eqb (t_event_type t) "WITHDRAWAL");
        [by apply post_withdrawal_committed in E|].
      destruct (String.eqb (t_event_type t) "REFUND");
        [by apply post_refund_committed in E|].
      destruct (String.eqb (t_event_type t) "CHARGEBACK");
        [by apply post_chargeback_committed in E|].
      destruct (String.eqb (t_event_type t) "FEE");
        [by apply post_fee_committed in E|].
      unfold raise in E; inversion E; reflexivity. }
    exact Hcm.
Qed.

(** C1 (as amended).  Every posting group produced by one [Post] call
    comes from a supported event type and balances per currency: each
    [LedgerEntry] written debits one account and credits one account
    with the same amount, in the currency of the transaction, and the
    rows added to [ledger_entry] are exactly these entries.  The
    amounts are positive when the amount the rule posts (the net
    amount of a deposit, the amount otherwise) is positive; the code
    itself checks no sign. *)
Theorem post_group_balanced (transaction_id match_id : UUID) (w w' : world)
    (entries : list LedgerEntry) :
  post_matched_transaction transaction_id match_id w = (Ok entries, w') ->
  exists t,
    select_transaction transaction_id (db w) = Some t
    /\ In (t_event_type t) supported_event_types
    /\ (forall ccy, total Debit ccy (group_postings entries)
                    = total Credit ccy (group_postings entries))
    /\ Forall (fun e => currency e = t_amount_currency t) entries
    /\ ledger_entry (db w')
       = ledger_entry (db w) ++ map row_of_entry entries
    /\ (forall a, posted_amount t = Some a -> 0 < a ->
          Forall (fun e => 0 < amount e) entries).
Proof.
  intros H. apply post_inv in H.
  destruct H as (t & m & Ht & _ & Hin & Hccy & _ & Hamt & Hdb).
  exists t. repeat split; auto.
  - intros ccy. apply group_balanced.
  - rewrite Hdb. reflexivity.
  - intros a Ha Hpos. eapply Forall_impl; [exact Hamt|].
    cbn. intros e [He|[_ He]]; [|exact He].
    rewrite Ha in He. inversion He. lia.
Qed.

(** The deposit of the specification posts (Cash, AR, 97_100) and
    (PSPFees, Cash, 2_900). *)
Lemma post_group_balanced_witness :
  exists entries w',
    post_matched_transaction 1%N 2%N Scenario.deposit_with_fee
    = (Ok entries, w')
    /\ map (fun e => (account_debit e, account_credit e, amount e)) entries
       = [(CASH_STRIPE_USD, ACCOUNTS_RECEIVABLE, 97100);
          (PSP_FEES, CASH_STRIPE_USD, 2900)]
    /\ total Debit "USD" (group_postings entries)
       = total Credit "USD" (group_postings entries).
Proof.
  eexists _, _. split; [vm_compute; reflexivity|]. split; [reflexivity|].
  destruct (post_group_balanced 1%N 2%N Scenario.deposit_with_fee _ _
              ltac:(vm_compute; reflexivity)) as (t & _ & _ & Hbal & _).
  apply Hbal.
Defined.

(** C1 as stated fails on the sign: a withdrawal of amount zero is
    posted, and its entry carries the amount 0. *)
Lemma post_zero_amount_entry :
  exists entries w',
    post_matched_transaction 1%N 2%N Scenario.zero_withdrawal
    = (Ok entries, w')
    /\ map amount entries = [0].
Proof. eexists _, _. split; vm_compute; reflexivity. Qed.

(** C8.  A transaction whose event type has no posting rule makes
    [Post] raise [ValueError] and leaves the world as it was: no
    ledger row, no status change.  In general a [Post] call either
    returns, having added its entries and set the status to POSTED in
    one commit, or raises and leaves the database unchanged. *)
Theorem post_atomic (transaction_id match_id : UUID) (w : world)
    (t : txn_row) :
  select_transaction transaction_id (db w) = Some t ->
  ~ In (t_event_type t) supported_event_types ->
  (exists msg,
      post_matched_transaction transaction_id match_id w
      = (Raise (ValueError msg), w))
  /\ (forall tid mid w0 r w1,
        post_matched_transaction tid mid w0 = (r, w1) ->
        match r with
        | Ok entries =>
            db w1 = update_reconciliation_status tid "POSTED"
                      (set_ledger_entry
                         (fun rows => rows ++ map row_of_entry entries)
                         (db w0))
        | Raise _ => db w1 = db w0
        end).
Proof.
  intros Ht Hun. split.
  - unfold post_matched_transaction, with_session, _get_transaction,
      _get_match, bind, query; cbn [working].
    rewrite Ht.
    destruct (select_match match_id (db w)) as [m|];
      [|destruct w; eexists; reflexivity].
    unfold supported_event_types in Hun. cbn in Hun.
    destruct (String.eqb (t_event_type t) "DEPOSIT") eqn:E1;
      [apply String.eqb_eq in E1; symmetry in E1; tauto|].
    destruct (String.eqb (t_event_type t) "WITHDRAWAL") eqn:E2;
      [apply String.eqb_eq in E2; symmetry in E2; tauto|].
    destruct (String.eqb (t_event_type t) "REFUND") eqn:E3;
      [apply String.eqb_eq in E3; symmetry in E3; tauto|].
    destruct (String.eqb (t_event_type t) "CHARGEBACK") eqn:E4;
      [apply String.eqb_eq in E4; symmetry in E4; tauto|].
    destruct (String.eqb (t_event_type t) "FEE") eqn:E5;
      [apply String.eqb_eq in E5; symmetry in E5; tauto|].
    destruct w; eexists; reflexivity.
  - intros tid mid w0 r w1 H. apply post_inv in H.
    destruct r as [entries|e]; [|exact H].
    destruct H as (t' & m & _ & _ & _ & _ & _ & _ & Hdb). exact Hdb.
Qed.

Lemma post_atomic_witness :
  exists msg,
    post_matched_transaction 1%N 2%N Scenario.chargeback_reversal
    = (Raise (ValueError msg), Scenario.chargeback_reversal).
Proof.
  refine (proj1 (post_atomic 1%N 2%N Scenario.chargeback_reversal
                   (Scenario.mk_txn 1%N "CHARGEBACK_REVERSAL" 20000 None
                      (Some 20000) None (Some "set_A") None "MATCHED")
                   _ _)).
  - reflexivity.
  - vm_compute. intuition discriminate.
Defined.

End LedgerProperties.

(** ** The matching engine *)
Section MatchingProperties.

Import Matching.
Local Open Scope py_scope.

Lemma bind_ok {S A B} (m : SE S A) (k : A -> SE S B) s a s' :
  m s = (Ok a, s') -> bind m k s = k a s'.
Proof. unfold bind. intros ->. reflexivity. Qed.

Lemma bind_raise {S A B} (m : SE S A) (k : A -> SE S B) s e s' :
  m s = (Raise e, s') -> bind m k s = (Raise e, s').
Proof. unfold bind. intros ->. reflexivity. Qed.

(** *** Reading a transaction back after a status update *)
Lemma select_transaction_id tid d t :
  select_transaction tid d = Some t -> t_transaction_id t = tid.
Proof.
  unfold select_transaction, fetchone.
  induction (normalized_transaction d) as [|r rows IH]; [discriminate|].
  rewrite filter_cons. destruct (decide (t_transaction_id r = tid)); cbn.
  - intros H; inversion H; subst; reflexivity.
  - exact IH.
Qed.

Lemma select_transaction_update tid st d :
  select_transaction tid (update_reconciliation_status tid st d)
  = with_reconciliation_status st <$> select_transaction tid d.
Proof.
  unfold select_transaction, update_reconciliation_status, fetchone.
  cbn [normalized_transaction set_normalized_transaction].
  induction (normalized_transaction d) as [|r rows IH]; [reflexivity|].
  rewrite fmap_cons, !filter_cons.
  destruct (decide (t_transaction_id r = tid)) as [Heq|Hne].
  - cbn [t_transaction_id with_reconciliation_status].
    rewrite decide_True by exact Heq. reflexivity.
  - rewrite decide_False by exact Hne. exact IH.
Qed.

(** *** What [_create_match] does *)
Lemma create_match_spec t sid lvl meth conf ad ap s :
  0 <= conf <= 100 ->
  exists m s',
    _create_match t sid lvl meth conf ad ap s = (Ok m, s')
    /\ settlement_id m = Some sid
    /\ match_level m = lvl
    /\ confidence_score m = conf
    /\ amount_difference_percent m = (if truthy_float ap then ap else None)
    /\ status m = status_of_confidence conf
    /\ committed s' = working s'
    /\ psp_settlement (working s') = psp_settlement (working s)
    /\ select_transaction (t_transaction_id t) (working s')
       = with_reconciliation_status
           (if 95 <=? conf then "MATCHED" else "PARTIAL_MATCH")
         <$> select_transaction (t_transaction_id t) (working s).
Proof.
  intros [H0 H100]. unfold _create_match, bind, uuid4, execute, commit.
  cbn [committed working supply].
  apply Z.leb_le in H0, H100. rewrite H0, H100. cbn [andb].
  unfold ret. eexists _, _. split; [reflexivity|]. cbn.
  repeat split; try reflexivity.
  rewrite select_transaction_update.
  unfold select_transaction, insert_match; cbn. reflexivity.
Qed.

(** *** What [_create_exception] does: it always returns, and its
    priority depends on the amount of the transaction only. *)
Lemma create_exception_spec t ty m s :
  exists e s',
    _create_exception t ty m s = (Ok e, s')
    /\ exception_type e = ty
    /\ amount_value e = t_amount_value t
    /\ priority_cut (t_amount_value t) (priority e)
    /\ committed s' = working s'
    /\ normalized_transaction (working s') = normalized_transaction (working s)
    /\ psp_settlement (working s') = psp_settlement (working s)
    /\ reconciliation_exception (working s')
       = reconciliation_exception (working s)
         ++ [ {| x_exception_id := exception_id e;
                 x_tenant_id := exc_tenant_id e;
                 x_transaction_id := exc_transaction_id e;
                 x_settlement_id := exc_settlement_id e;
                 x_exception_type := ExceptionType_value ty;
                 x_exception_reason := exception_reason e;
                 x_amount_value := t_amount_value t;
                 x_amount_currency := amount_currency e;
                 x_priority := ExceptionPriority_value (priority e);
                 x_status := "OPEN" |} ].
Proof.
  unfold _create_exception, bind, uuid4, execute, commit, ret.
  cbn [committed working supply].
  eexists _, _. split; [reflexivity|]. cbn.
  repeat split; try reflexivity.
  unfold priority_cut.
  destruct (1000000 <=? t_amount_value t) eqn:E1; [lia|].
  destruct (100000 <=? t_amount_value t) eqn:E2; [lia|].
  destruct (10000 <=? t_amount_value t) eqn:E3; lia.
Qed.

(** *** One level at a time *)

Lemma create_match_created t row l meth c ad ap s :
  0 <= c <= 100 ->
  exists m s',
    _create_match t (s_settlement_id row) l meth c ad ap s = (Ok m, s')
    /\ created t row l c ap s m s'.
Proof.
  intros Hc.
  destruct (create_match_spec t (s_settlement_id row) l meth c ad ap s Hc)
    as (m & s' & Hrun & H). exists m, s'. split; [exact Hrun|exact H].
Qed.

Lemma level_1_run t s :
  match hit STRONG_ID t (working s) with
  | None => _match_level_1 t s = (Ok None, s)
  | Some row =>
      exists m s', _match_level_1 t s = (Ok (Some m), s')
                   /\ created t row STRONG_ID 100 None s m s'
  end.
Proof.
  unfold hit, _match_level_1, level_guard.
  destruct (truthy (t_psp_settlement_id t)); cbn [negb]; [|reflexivity].
  destruct (select_settlement STRONG_ID t (working s)) as [row|] eqn:Hsel;
    [|unfold bind, query; rewrite Hsel; reflexivity].
  unfold bind at 1, query; rewrite Hsel; cbn [columns].
  destruct (create_match_created t row STRONG_ID AUTO 100 None None s
              ltac:(lia)) as (m & s' & Hrun & H).
  exists m, s'. split; [|exact H]. erewrite bind_ok by exact Hrun.
  reflexivity.
Qed.

Lemma level_2_run t s :
  match hit PSP_REFERENCE t (working s) with
  | None => _match_level_2 t s = (Ok None, s)
  | Some row =>
      exists m s',
        _match_level_2 t s = (Ok (Some m), s')
        /\ created t row PSP_REFERENCE 95
             (Some (amount_diff_percent
                      (t_amount_value t - s_amount_value row)
                      (t_amount_value t))) s m s'
  end.
Proof.
  unfold hit, _match_level_2, level_guard.
  destruct (truthy (t_psp_payment_id t)); cbn [negb]; [|reflexivity].
  destruct (select_settlement PSP_REFERENCE t (working s)) as [row|] eqn:Hsel;
    [|unfold bind, query; rewrite Hsel; reflexivity].
  unfold bind at 1, query; rewrite Hsel; cbn [columns].
  match goal with |- context [_create_match t ?i ?l ?me ?c ?ad ?ap] =>
    destruct (create_match_created t row l me c ad ap s ltac:(lia))
      as (m & s' & Hrun & H) end.
  exists m, s'. split; [|exact H]. erewrite bind_ok by exact Hrun.
  reflexivity.
Qed.

(** Level 3 never returns a match: with a candidate at hand it
    subtracts a date from the currency column. *)
Lemma level_3_run t s :
  match hit FUZZY t (working s) with
  | None => _match_level_3 t s = (Ok None, s)
  | Some row => _match_level_3 t s = (Raise TypeError, s)
  end.
Proof.
  unfold hit, _match_level_3, level_guard.
  destruct (select_settlement FUZZY t (working s)) as [row|] eqn:Hsel;
    unfold bind, query; rewrite Hsel; reflexivity.
Qed.

Lemma level_4_run t s :
  match hit AMOUNT_DATE t (working s) with
  | None => _match_level_4 t s = (Ok None, s)
  | Some row =>
      exists m s', _match_level_4 t s = (Ok (Some m), s')
                   /\ created t row AMOUNT_DATE 60 None s m s'
  end.
Proof.
  unfold hit, _match_level_4, level_guard.
  destruct (select_settlement AMOUNT_DATE t (working s)) as [row|] eqn:Hsel;
    [|unfold bind, query; rewrite Hsel; reflexivity].
  unfold bind at 1, query; rewrite Hsel; cbn [columns].
  destruct (create_match_created t row AMOUNT_DATE AUTO 60 None None s
              ltac:(lia)) as (m & s' & Hrun & H).
  exists m, s'. split; [|exact H]. erewrite bind_ok by exact Hrun.
  reflexivity.
Qed.

(** *** The whole ladder *)

Lemma world_eta (w : world) : {| db := db w; next_uuid := next_uuid w |} = w.
Proof. destruct w; reflexivity. Qed.

Lemma match_transaction_cases (tid : UUID) (w : world) :
  match select_transaction tid (db w) with
  | None => exists msg, match_transaction tid w = (Raise (ValueError msg), w)
  | Some t =>
    if String.eqb (t_reconciliation_status t) "MATCHED"
    then match_transaction tid w = (Ok already_matched, w)
    else
    match hit STRONG_ID t (db w) with
    | Some row =>
        exists m w',
          match_transaction tid w
          = (Ok {| mr_status := MATCHED; mr_confidence := 100;
                   mr_match := Some m; mr_exception := None |}, w')
          /\ settlement_id m = Some (s_settlement_id row)
          /\ match_level m = STRONG_ID
          /\ settled t "MATCHED" w w'
    | None =>
    match hit PSP_REFERENCE t (db w) with
    | Some row =>
        exists m w',
          settlement_id m = Some (s_settlement_id row)
          /\ match_level m = PSP_REFERENCE
          /\ settled t "MATCHED" w w'
          /\ if Qltb (Qabs (level_2_percent t row)) 1
             then match_transaction tid w
                  = (Ok {| mr_status := MATCHED; mr_confidence := 95;
                           mr_match := Some m; mr_exception := None |}, w')
             else exists e,
                  match_transaction tid w
                  = (Ok {| mr_status := PARTIAL_MATCH; mr_confidence := 95;
                           mr_match := Some m; mr_exception := Some e |}, w')
                  /\ exception_type e = AMOUNT_MISMATCH
                  /\ priority_cut (t_amount_value t) (priority e)
    | None =>
    match hit FUZZY t (db w) with
    | Some row => match_transaction tid w = (Raise TypeError, w)
    | None =>
    match hit AMOUNT_DATE t (db w) with
    | Some row =>
        exists m e w',
          match_transaction tid w
          = (Ok {| mr_status := PENDING_REVIEW; mr_confidence := 60;
                   mr_match := Some m; mr_exception := Some e |}, w')
          /\ settlement_id m = Some (s_settlement_id row)
          /\ match_level m = AMOUNT_DATE
          /\ exception_type e = EXC_PARTIAL_MATCH
          /\ priority_cut (t_amount_value t) (priority e)
          /\ settled t "PARTIAL_MATCH" w w'
    | None =>
        exists w',
          match_transaction tid w = (Raise AttributeError, w')
          /\ exists x,
              reconciliation_exception (db w')
              = reconciliation_exception (db w) ++ [x]
              /\ x_exception_type x = "UNMATCHED"
              /\ exists p, x_priority x = ExceptionPriority_value p
                           /\ priority_cut (t_amount_value t) p
    end end end end
  end.
Proof.
  unfold match_transaction, with_session.
  set (s0 := {| committed := db w; working := db w; supply := next_uuid w |}).
  destruct (select_transaction tid (db w)) as [t|] eqn:Ht.
  2:{ eexists.
      erewrite bind_ok
        by (unfold _get_transaction, query; cbn [working s0]; rewrite Ht;
            reflexivity).
      subst s0; cbn. rewrite world_eta. reflexivity. }
  assert (Hid : t_transaction_id t = tid) by (eapply select_transaction_id; eauto).
  erewrite bind_ok
    by (unfold _get_transaction, query; cbn [working s0]; rewrite Ht; reflexivity).
  cbv beta iota.
  destruct (String.eqb (t_reconciliation_status t) "MATCHED") eqn:Hst.
  { subst s0; cbn. rewrite world_eta. reflexivity. }
  (* level 1 *)
  pose proof (level_1_run t s0) as L1. cbn [working s0] in L1.
  destruct (hit STRONG_ID t (db w)) as [row1|].
  { destruct L1 as (m & s1 & Hrun & Hc).
    destruct Hc as (Hsid & Hlvl & _ & _ & _ & Hcm & Hps & Hsel).
    erewrite bind_ok by exact Hrun. cbn.
    eexists m, _. split; [reflexivity|]. split; [exact Hsid|].
    split; [exact Hlvl|]. unfold settled; cbn [db].
    rewrite Hcm, Hps, Hsel. cbn [working s0]. rewrite Hid, Ht. auto. }
  erewrite bind_ok by exact L1. cbv beta iota.
  (* level 2 *)
  pose proof (level_2_run t s0) as L2. cbn [working s0] in L2.
  destruct (hit PSP_REFERENCE t (db w)) as [row2|].
  { destruct L2 as (m & s1 & Hrun & Hc).
    destruct Hc as (Hsid & Hlvl & _ & Hpct & _ & Hcm & Hps & Hsel).
    erewrite bind_ok by exact Hrun. cbv beta iota.
    destruct (create_exception_spec t AMOUNT_MISMATCH (Some m) s1)
      as (e & s2 & Hex & Hty & _ & Hpri & Hcm2 & Hnt2 & Hps2 & _).
    assert (Hq : Qltb (Qabs (default 0%Q (amount_difference_percent m))) 1
                 = Qltb (Qabs (level_2_percent t row2)) 1).
    { rewrite Hpct. fold (level_2_percent t row2).
      unfold truthy_float. destruct (Qeq_bool (level_2_percent t row2) 0) eqn:Hz;
        cbn [negb default]; [|reflexivity].
      apply Qeq_bool_eq in Hz. unfold Qltb. f_equal.
      apply eq_true_iff_eq. rewrite !Qle_bool_iff. rewrite Hz. reflexivity. }
    rewrite Hq.
    destruct (Qltb (Qabs (level_2_percent t row2)) 1).
    - exists m, {| db := committed s1; next_uuid := supply s1 |}.
      split; [exact Hsid|]. split; [exact Hlvl|].
      split; [|reflexivity].
      unfold settled; cbn [db].
      rewrite Hcm, Hps, Hsel. cbn [working s0]. rewrite Hid, Ht. auto.
    - exists m, {| db := committed s2; next_uuid := supply s2 |}.
      split; [exact Hsid|]. split; [exact Hlvl|].
      split.
      + unfold settled, select_transaction in *; cbn [db].
        rewrite Hcm2, Hnt2, Hps2, Hps, Hsel. cbn [working s0].
        rewrite Hid, Ht. auto.
      + exists e. erewrite bind_ok by exact Hex. cbn.
        repeat split; auto. }
  erewrite bind_ok by exact L2. cbv beta iota.
  (* level 3 *)
  pose proof (level_3_run t s0) as L3. cbn [working s0] in L3.
  destruct (hit FUZZY t (db w)) as [row3|].
  { erewrite bind_raise by exact L3. subst s0; cbn. rewrite world_eta.
    reflexivity. }
  erewrite bind_ok by exact L3. cbv beta iota.
  (* level 4 *)
  pose proof (level_4_run t s0) as L4. cbn [working s0] in L4.
  destruct (hit AMOUNT_DATE t (db w)) as [row4|].
  { destruct L4 as (m & s1 & Hrun & Hc).
    destruct Hc as (Hsid & Hlvl & Hconf & _ & _ & Hcm & Hps & Hsel).
    erewrite bind_ok by exact Hrun. cbv beta iota.
    destruct (create_exception_spec t EXC_PARTIAL_MATCH (Some m) s1)
      as (e & s2 & Hex & Hty & _ & Hpri & Hcm2 & Hnt2 & Hps2 & _).
    erewrite bind_ok by exact Hex. cbn. rewrite Hconf.
    exists m, e, {| db := committed s2; next_uuid := supply s2 |}.
    split; [reflexivity|]. repeat split; auto.
    - unfold select_transaction in *; cbn [db].
      rewrite Hcm2, Hnt2, Hsel. cbn [working s0]. rewrite Hid, Ht. auto.
    - cbn [db]. rewrite Hcm2, Hps2, Hps. reflexivity. }
  erewrite bind_ok by exact L4. cbv beta iota.
  destruct (create_exception_spec t UNMATCHED None s0)
    as (e & s2 & Hex & Hty & _ & Hpri & Hcm2 & _ & _ & Hrows).
  erewrite bind_ok by exact Hex. cbn.
  eexists. split; [reflexivity|]. cbn [db]. rewrite Hcm2.
  eexists. split; [exact Hrows|]. split; [reflexivity|].
  exists (priority e). split; [reflexivity|exact Hpri].
Qed.

(** *** Arithmetic of the tolerance and of the percentage *)



(** [fetchone()] over an unordered query: the first row of the store
    that satisfies the WHERE clause. *)
Lemma head_filter_first {A} (p : A -> bool) (l : list A) (x : A) :
  head (List.filter p l) = Some x ->
  exists before after,
    l = before ++ x :: after
    /\ p x = true
    /\ Forall (fun y => p y = false) before.
Proof.
  induction l as [|a l IH]; cbn; [discriminate|].
  destruct (p a) eqn:Hp; cbn.
  - intros H; inversion H; subst. exists [], l. auto.
  - intros H. destruct (IH H) as (before & after & -> & Hx & Hb).
    exists (a :: before), after. auto.
Qed.

Lemma hit_where l t d row :
  hit l t d = Some row -> level_where l d t row = true.
Proof.
  unfold hit, select_settlement, fetchone, candidates.
  destruct (level_guard l t); [|discriminate].
  intros H. apply head_filter_first in H as (_ & _ & _ & H & _). exact H.
Qed.

(** *** The scenarios of the specification *)

(** Scenario 1: a level-1 match, MATCHED with confidence 100, and the
    transaction becomes MATCHED. *)
Example level_1_happy_matched :
  exists m w',
    match_transaction 1%N Scenario.level_1_happy
    = (Ok {| mr_status := MATCHED; mr_confidence := 100;
             mr_match := Some m; mr_exception := None |}, w')
    /\ match_level m = STRONG_ID
    /\ settlement_id m = Some 11%N
    /\ t_reconciliation_status <$> select_transaction 1%N (db w')
       = Some "MATCHED".
Proof.
  eexists _, _. split; [vm_compute; reflexivity|].
  repeat split; vm_compute; reflexivity.
Qed.

(** Scenario 5: without any candidate the UNMATCHED exception is
    written with priority P4, and the call then raises, since the
    result names a status the enumeration does not have. *)
Example no_candidate_exception_then_raise :
  exists w',
    match_transaction 1%N Scenario.no_candidate = (Raise AttributeError, w')
    /\ map (fun x => (x_exception_type x, x_priority x))
           (reconciliation_exception (db w'))
       = [("UNMATCHED", "P4")]
    /\ reconciliation_match (db w') = [].
Proof.
  eexists. split; [vm_compute; reflexivity|].
  split; vm_compute; reflexivity.
Qed.



(** Level 3 returns no match, whatever the store holds. *)
Lemma level_3_never_matches (t : txn_row) (s s' : session)
    (m : ReconciliationMatch) :
  _match_level_3 t s <> (Ok (Some m), s').
Proof.
  pose proof (level_3_run t s) as L.
  destruct (hit FUZZY t (working s)); rewrite L; discriminate.
Qed.

(** Whenever levels 1 and 2 miss and the fuzzy query has a row, the
    call raises [TypeError] and leaves the world as it was. *)
Lemma fuzzy_candidate_raises (tid : UUID) (w : world) (t : txn_row)
    (row : settlement_row) :
  select_transaction tid (db w) = Some t ->
  t_reconciliation_status t <> "MATCHED" ->
  hit STRONG_ID t (db w) = None ->
  hit PSP_REFERENCE t (db w) = None ->
  hit FUZZY t (db w) = Some row ->
  match_transaction tid w = (Raise TypeError, w).
Proof.
  intros Ht Hst H1 H2 H3. pose proof (match_transaction_cases tid w) as C.
  apply String.eqb_neq in Hst. rewrite Ht, Hst, H1, H2, H3 in C. exact C.
Qed.

(** C2.  The fuzzy level was meant to score [max(70, 90 - 10 * days)],
    80 for the settlement dated one day after the transaction and 90
    for the one of the same day.  On both stores the call raises
    [TypeError] instead and writes nothing: the day difference is
    taken from the currency column of the fetched row. *)
Theorem level_3_candidate_raises :
  match_transaction 1%N Scenario.fuzzy_dated_shift
  = (Raise TypeError, Scenario.fuzzy_dated_shift)
  /\ match_transaction 1%N Scenario.fuzzy_same_day
     = (Raise TypeError, Scenario.fuzzy_same_day).
Proof. split; vm_compute; reflexivity. Qed.










(** C9.  The priority of an exception is a function of the amount of
    the transaction alone (not of the exception type, the match or
    the session): P1 from 1_000_000, P2 from 100_000, P3 from 10_000,
    P4 below; the same priority is written to the exception row.  At
    the cuts: 1_000_000 is P1, 999_999 is P2, 10_000 is P3 and 9_999
    is P4. *)
Theorem exception_priority_by_amount :
  exists f : Z -> ExceptionPriority,
    (forall t ty m s,
        exists e s',
          _create_exception t ty m s = (Ok e, s')
          /\ priority e = f (t_amount_value t)
          /\ exists x,
              reconciliation_exception (working s')
              = reconciliation_exception (working s) ++ [x]
              /\ x_priority x
                 = ExceptionPriority_value (f (t_amount_value t)))
    /\ (forall a, 1000000 <= a -> f a = P1)
    /\ (forall a, 100000 <= a < 1000000 -> f a = P2)
    /\ (forall a, 10000 <= a < 100000 -> f a = P3)
    /\ (forall a, a < 10000 -> f a = P4)
    /\ f 1000000 = P1 /\ f 999999 = P2 /\ f 10000 = P3 /\ f 9999 = P4.
Proof.
  exists (fun a => if 1000000 <=? a then P1
                   else if 100000 <=? a then P2
                   else if 10000 <=? a then P3 else P4).
  split.
  { intros t ty m s.
    unfold _create_exception, bind, uuid4, execute, commit, ret.
    cbn [committed working supply].
    eexists _, _. split; [reflexivity|]. cbn.
    split; [reflexivity|]. eexists. split; reflexivity. }
  repeat split; try reflexivity; intros a Ha.
  - assert ((1000000 <=? a) = true) as -> by lia. reflexivity.
  - assert ((1000000 <=? a) = false) as -> by lia.
    assert ((100000 <=? a) = true) as -> by lia. reflexivity.
  - assert ((1000000 <=? a) = false) as -> by lia.
    assert ((100000 <=? a) = false) as -> by lia.
    assert ((10000 <=? a) = true) as -> by lia. reflexivity.
  - assert ((1000000 <=? a) = false) as -> by lia.
    assert ((100000 <=? a) = false) as -> by lia.
    assert ((10000 <=? a) = false) as -> by lia. reflexivity.
Qed.

End MatchingProperties.

(** ** The normalizer *)
Section NormalizerProperties.

Import Normalizer.
Local Open Scope py_scope.

(** *** [_store_normalized]: insert once, then leave the store alone *)
Lemma store_existing (n : NormalizedTransaction) (w : world) (row : txn_row) :
  select_existing n (db w) = Some row ->
  _store_normalized n w = (Ok n, w).
Proof.
  intros H. unfold _store_normalized, with_session, bind, query.
  cbn [working]. rewrite H. cbn. destruct w; reflexivity.
Qed.

Lemma filter_nil_existsb {A} (p : A -> bool) (l : list A) :
  head (List.filter p l) = None -> existsb p l = false.
Proof.
  induction l as [|a l IH]; cbn; [reflexivity|].
  destruct (p a); cbn; [discriminate|exact IH].
Qed.

Lemma store_new (n : NormalizedTransaction) (w : world) :
  select_existing n (db w) = None ->
  _store_normalized n w
  = (Ok n, {| db := set_normalized_transaction
                      (fun rows => rows ++ [row_of n]) (db w);
              next_uuid := next_uuid w |}).
Proof.
  intros H. unfold _store_normalized, with_session, bind, query.
  cbn [working]. rewrite H. cbn.
  unfold insert_transaction, set_normalized_transaction.
  apply filter_nil_existsb in H. rewrite H. reflexivity.
Qed.

Lemma same_key_refl (n : NormalizedTransaction) : same_key n (row_of n) = true.
Proof.
  unfold same_key, row_of; cbn.
  rewrite bool_decide_eq_true_2 by reflexivity.
  rewrite !String.eqb_refl. reflexivity.
Qed.

Lemma same_key_with_id (id : UUID) (n : NormalizedTransaction) (r : txn_row) :
  same_key (with_transaction_id id n) r = same_key n r.
Proof. reflexivity. Qed.

Lemma head_filter_app_some {A} (p : A -> bool) (l l' : list A) :
  is_Some (head (List.filter p l)) \/ is_Some (head (List.filter p l')) ->
  is_Some (head (List.filter p (l ++ l'))).
Proof.
  rewrite List.filter_app. intros [[x H]|[x H]].
  - destruct (List.filter p l); [discriminate|]. cbn. eauto.
  - destruct (List.filter p l); cbn; eauto.
Qed.

(** After [_store_normalized n] a row with the key of [n] exists. *)
Lemma store_leaves_key (n : NormalizedTransaction) (w w' : world) r :
  _store_normalized n w = (r, w') ->
  is_Some (select_existing n (db w'))
  /\ psp_connection (db w') = psp_connection (db w)
  /\ entity (db w') = entity (db w)
  /\ fx_rate (db w') = fx_rate (db w)
  /\ next_uuid w' = next_uuid w.
Proof.
  destruct (select_existing n (db w)) as [row|] eqn:H.
  - rewrite (store_existing n w row H). intros E; inversion E; subst.
    rewrite H. eauto.
  - rewrite (store_new n w H). intros E; inversion E; subst; cbn.
    split; [|auto]. unfold select_existing, fetchone; cbn.
    apply head_filter_app_some. right. cbn. rewrite same_key_refl. cbn. eauto.
Qed.

(** *** [_map_to_canonical] reads the connection and entity tables
    and the identifier supply, nothing else *)
Lemma map_to_canonical_replay tenant conn e raw (w w' w2 : world) n :
  _map_to_canonical tenant conn e raw w = (Ok n, w') ->
  psp_connection (db w2) = psp_connection (db w) ->
  entity (db w2) = entity (db w) ->
  transaction_id n = next_uuid w
  /\ w' = {| db := db w; next_uuid := N.succ (next_uuid w) |}
  /\ _map_to_canonical tenant conn e raw w2
     = (Ok (with_transaction_id (next_uuid w2) n),
        {| db := db w2; next_uuid := N.succ (next_uuid w2) |}).
Proof.
  intros H Hc He. unfold _map_to_canonical, bind, _get_entity_brand in *.
  unfold select_connection, select_entity in *. rewrite Hc, He.
  destruct (fetchone (List.filter _ (psp_connection (db w)))) as [c|];
    [|discriminate].
  destruct (fetchone (List.filter _ (entity (db w)))) as [en|];
    [|discriminate].
  destruct (match ev_created e with Some ts => Some ts | None => ev_event_date e end)
    as [ts|]; [|discriminate].
  unfold uuid4_w in *.
  destruct (3 <? String.length (default "USD" (ev_currency e)))%nat;
    [discriminate|].
  unfold ret in *. inversion H; subst; clear H. cbn. auto.
Qed.

Lemma psp_config_ext tenant conn (d d' : database) :
  psp_connection d' = psp_connection d -> entity d' = entity d ->
  _get_psp_config tenant conn d' = _get_psp_config tenant conn d.
Proof.
  intros Hc He. unfold _get_psp_config, select_connection, select_entity.
  rewrite Hc, He. reflexivity.
Qed.

Lemma enrich_fx_ext today e cfg (d d' : database) :
  fx_rate d' = fx_rate d ->
  _enrich_fx today e cfg d' = _enrich_fx today e cfg d.
Proof.
  intros Hf. unfold _enrich_fx, _get_fx_rate. rewrite Hf. reflexivity.
Qed.

(** *** Normalizing the same raw event again.  No row is added and
    none is changed; the transaction returned is the one just built,
    under a fresh identifier, and that identifier is what goes to the
    matching stream. *)
Lemma normalize_replay (today : date) (raw : raw_event) (p p1 : pipeline)
    (n1 : NormalizedTransaction) :
  normalize_event today raw p = (Ok n1, p1) ->
  exists n2 p2,
    normalize_event today raw p1 = (Ok n2, p2)
    /\ db (store p2) = db (store p1)
    /\ n2 = with_transaction_id (next_uuid (store p1)) n1
    /\ transaction_id n1 = next_uuid (store p)
    /\ next_uuid (store p1) = N.succ (next_uuid (store p))
    /\ matching_stream p2
       = matching_stream p1
         ++ [ {| pub_transaction_id := next_uuid (store p1);
                 pub_tenant_id := tenant_id n1;
                 pub_psp_transaction_id := psp_transaction_id n1;
                 pub_event_type := EventType_value (event_type n1) |} ].
Proof.
  intros H. unfold normalize_event in *.
  unfold bind at 1, on_store at 1, gets at 1 in H; cbn [store] in H.
  unfold bind at 1, on_store at 1, gets at 1 in H; cbn [store] in H.
  unfold bind at 1, on_store at 1 in H; cbn [store] in H.
  destruct (_map_to_canonical _ _ _ _ (store p)) as [[n|ex] w'] eqn:Hmap;
    [|discriminate].
  unfold bind at 1, on_store at 1 in H; cbn [store] in H.
  destruct (_store_normalized n w') as [[stored|ex] w''] eqn:Hst;
    [|discriminate].
  unfold bind, _publish_to_matching, ret in H; cbn in H.
  inversion H; subst n1 p1; clear H.
  assert (Hn : stored = n).
  { destruct (select_existing n (db w')) as [row|] eqn:Hx.
    - rewrite (store_existing n w' row Hx) in Hst. congruence.
    - rewrite (store_new n w' Hx) in Hst. congruence. }
  subst stored.
  destruct (store_leaves_key n w' w'' _ Hst) as (Hkey & Hc & He & Hf & Hu).
  destruct (map_to_canonical_replay _ _ _ _ _ _ (store p) _ Hmap
              eq_refl eq_refl) as (Hid & Hw' & _).
  destruct (map_to_canonical_replay _ _ _ _ _ _ w'' _ Hmap) as (_ & _ & Hre).
  { rewrite Hc, Hw'. reflexivity. }
  { rewrite He, Hw'. reflexivity. }
  assert (Hd : psp_connection (db w'') = psp_connection (db (store p))
               /\ entity (db w'') = entity (db (store p))
               /\ fx_rate (db w'') = fx_rate (db (store p))).
  { rewrite Hc, He, Hf, Hw'. auto. }
  destruct Hd as (Hc' & He' & Hf').
  cbn [store matching_stream].
  unfold bind at 1, on_store at 1, gets at 1; cbn [store].
  unfold bind at 1, on_store at 1, gets at 1; cbn [store].
  rewrite (psp_config_ext _ _ _ _ Hc' He'), (enrich_fx_ext _ _ _ _ _ Hf').
  unfold bind at 1, on_store at 1; cbn [store]. rewrite Hre.
  unfold bind at 1, on_store at 1; cbn [store].
  destruct Hkey as [row Hrow].
  rewrite (store_existing (with_transaction_id (next_uuid w'') n)
             {| db := db w''; next_uuid := N.succ (next_uuid w'') |} row)
    by exact Hrow.
  unfold bind, _publish_to_matching, ret; cbn.
  eexists _, _. split; [reflexivity|]. cbn.
  repeat split; auto. rewrite Hu, Hw'. reflexivity.
Qed.




(** An event without [event_type] is normalized, as a deposit. *)
Example absent_event_type_normalized :
  exists n p,
    normalize_event 19737 (Scenario.deposit_event None)
      Scenario.fresh_pipeline = (Ok n, p)
    /\ event_type n = DEPOSIT.
Proof. eexists _, _. split; vm_compute; reflexivity. Qed.

End NormalizerProperties.

(** ** The webhook handler *)
Section WebhookProperties.

Import Webhook.
Local Open Scope py_scope.

Variable json_loads : string -> option (gmap string string).
Variable psp_connection_config : UUID -> string -> gmap string string.
Variable secret_string : string -> string.
Variable hmac_sha256_hexdigest : string -> string -> string.
Variable s3_bucket : string.

Let handle := handle_webhook json_loads psp_connection_config secret_string
                hmac_sha256_hexdigest s3_bucket.


(** With the connection lookup of the source, which returns the
    empty dictionary, no request passes the signature check. *)
Lemma placeholder_rejects_all body tenant conn sig hdr st :
  exists detail,
    handle_webhook json_loads placeholder_config secret_string
      hmac_sha256_hexdigest s3_bucket body tenant conn sig hdr st
    = (Raise (HTTPException 500 detail), st).
Proof.
  unfold handle_webhook, _validate_signature, placeholder_config.
  destruct (json_loads body); [|eexists; reflexivity].
  rewrite lookup_empty. cbn.
  destruct (truthy sig); cbn; eexists; reflexivity.
Qed.


End WebhookProperties.

Section WebhookExamples.

Import Webhook.



End WebhookExamples.


(* ===================================================================== *)
(** * Further properties of the ledger poster                             *)
(* ===================================================================== *)

Section LedgerFurther.

Import Ledger Ledger.ChartOfAccounts Accounts.
Local Open Scope py_scope.

(** [post_matched_transaction] is its dispatch, run in a session, then
    the status update and the commit. *)
Lemma post_run (tid mid : UUID) (w : world) (t : txn_row) (m : match_row) :
  Ledger.select_transaction tid (db w) = Some t ->
  select_match mid (db w) = Some m ->
  post_matched_transaction tid mid w
  = match posting_rule t m (open_session w) with
    | (Ok entries, s') =>
        (Ok entries,
         {| db := update_reconciliation_status tid "POSTED" (working s');
            next_uuid := supply s' |})
    | (Raise e, s') => (Raise e, {| db := committed s'; next_uuid := supply s' |})
    end.
Proof.
  intros Ht Hm.
  unfold post_matched_transaction, with_session, Ledger._get_transaction,
    _get_match.
  fold (open_session w).
  unfold bind at 1, query; cbn [working open_session].
  unfold bind at 1; cbn [working open_session]. rewrite Ht, Hm.
  fold (open_session w). unfold bind at 1.
  change (if String.eqb (t_event_type t) "DEPOSIT" then _ else _)
    with (posting_rule t m).
  destruct (posting_rule t m (open_session w)) as [[entries|e] s'];
    reflexivity.
Qed.

Lemma ledger_select_transaction_update tid st d :
  Ledger.select_transaction tid (update_reconciliation_status tid st d)
  = with_reconciliation_status st <$> Ledger.select_transaction tid d.
Proof.
  unfold Ledger.select_transaction, update_reconciliation_status, fetchone.
  cbn [normalized_transaction set_normalized_transaction].
  induction (normalized_transaction d) as [|r rows IH]; [reflexivity|].
  rewrite fmap_cons, !filter_cons.
  destruct (decide (t_transaction_id r = tid)) as [Heq|Hne].
  - cbn [t_transaction_id with_reconciliation_status].
    rewrite decide_True by exact Heq. reflexivity.
  - rewrite decide_False by exact Hne. exact IH.
Qed.

(** The answer of a posting rule does not depend on the session it
    runs in, the identifiers of the entries apart. *)
Lemma posting_rule_outcome (t : txn_row) (m : match_row) (s1 s2 : session) :
  outcome (posting_rule t m s1) = outcome (posting_rule t m s2).
Proof.
  unfold posting_rule, _post_deposit, _post_withdrawal, _post_refund,
    _post_chargeback, _post_fee, _create_entry, sub_int, gt_int,
    bind, uuid4, execute, raise, ret, outcome.
  destruct (String.eqb (t_event_type t) "DEPOSIT");
    [|destruct (String.eqb (t_event_type t) "WITHDRAWAL");
      [|destruct (String.eqb (t_event_type t) "REFUND");
        [|destruct (String.eqb (t_event_type t) "CHARGEBACK");
          [|destruct (String.eqb (t_event_type t) "FEE")]]]];
    destruct (t_psp_fee t) as [fee|]; try reflexivity;
    destruct (t_net_amount t) as [net|]; try reflexivity;
    destruct (3 <? String.length (t_amount_currency t))%nat; try reflexivity;
    cbn; destruct (0 <? fee); reflexivity.
Qed.

Lemma cash_account_cases (conn ccy : string) :
  get_cash_account conn ccy = CASH_STRIPE_USD
  \/ get_cash_account conn ccy = CASH_ADYEN_EUR
  \/ get_cash_account conn ccy = CASH_PAYPAL_GBP.
Proof.
  unfold get_cash_account.
  destruct (String.eqb _ "stripe"); [auto|].
  destruct (String.eqb _ "adyen"); [auto|].
  destruct (String.eqb _ "paypal"); auto.
Qed.

(** A [Post] call that returned ran its posting rule to the end. *)
Lemma post_rule_returned (tid mid : UUID) (w w' : world)
    (entries : list LedgerEntry) (t : txn_row) :
  post_matched_transaction tid mid w = (Ok entries, w') ->
  Ledger.select_transaction tid (db w) = Some t ->
  exists m s',
    select_match mid (db w) = Some m
    /\ posting_rule t m (open_session w) = (Ok entries, s').
Proof.
  intros H Ht.
  destruct (select_match mid (db w)) as [m|] eqn:Hm.
  - rewrite (post_run tid mid w t m Ht Hm) in H.
    destruct (posting_rule t m (open_session w)) as [[es|e] s'] eqn:Hr;
      [|discriminate].
    inversion H; subst. by exists m, s'.
  - unfold post_matched_transaction, with_session, Ledger._get_transaction,
      _get_match, bind, query in H; cbn [working] in H.
    rewrite Ht, Hm in H. discriminate.
Qed.

Lemma deposit_rule_without_fee (t : txn_row) (m : match_row) (s : session) :
  t_event_type t = "DEPOSIT" ->
  t_psp_fee t = None ->
  posting_rule t m s = (Raise TypeError, s).
Proof.
  intros He Hfee. unfold posting_rule. rewrite He.
  cbn [String.eqb Ascii.eqb Bool.eqb].
  unfold _post_deposit, bind, sub_int. rewrite Hfee. reflexivity.
Qed.

Lemma post_unknown_match (tid mid : UUID) (w : world) :
  select_match mid (db w) = None ->
  post_matched_transaction tid mid w
  = (Raise (ValueError "Transaction or match not found"), w).
Proof.
  intros Hm.
  unfold post_matched_transaction, with_session, Ledger._get_transaction,
    _get_match, bind, query; cbn [working].
  rewrite Hm.
  destruct (Ledger.select_transaction tid (db w)); unfold raise; cbn;
    by rewrite world_eta.
Qed.

(** X1.  A deposit stored without a fee can never be posted: whatever
    match is named, [Post] raises and leaves the world as it was.  With
    a known match the error is the [TypeError] of [amount - None]. *)
Theorem deposit_without_fee_unpostable (tid : UUID) (w : world) (t : txn_row) :
  Ledger.select_transaction tid (db w) = Some t ->
  t_event_type t = "DEPOSIT" ->
  t_psp_fee t = None ->
  forall mid,
    post_matched_transaction tid mid w
    = (Raise (match select_match mid (db w) with
              | Some _ => TypeError
              | None => ValueError "Transaction or match not found"
              end), w).
Proof.
  intros Ht He Hfee mid.
  destruct (select_match mid (db w)) as [m|] eqn:Hm.
  - rewrite (post_run tid mid w t m Ht Hm),
      (deposit_rule_without_fee t m _ He Hfee).
    unfold open_session; cbn. by rewrite world_eta.
  - by apply post_unknown_match.
Qed.

Lemma deposit_without_fee_unpostable_witness :
  post_matched_transaction 1%N 2%N Cases.deposit_without_fee
  = (Raise TypeError, Cases.deposit_without_fee).
Proof.
  exact (deposit_without_fee_unpostable 1%N Cases.deposit_without_fee
           (Scenario.mk_txn 1%N "DEPOSIT" 5000 None (Some 5000) None
              (Some "set_A") None "MATCHED")
           eq_refl eq_refl eq_refl 2%N).
Defined.

(** X2.  What a posted deposit does to the accounts.  Accounts
    receivable is credited with the net amount; the cash account of
    the connection is debited with the net amount and, when the fee
    is positive, credited with the fee, which is debited to PSP fees.
    No other account moves, and the gross amount is not posted. *)
Theorem deposit_account_effect (tid mid : UUID) (w w' : world)
    (entries : list LedgerEntry) (t : txn_row) :
  post_matched_transaction tid mid w = (Ok entries, w') ->
  Ledger.select_transaction tid (db w) = Some t ->
  t_event_type t = "DEPOSIT" ->
  exists fee net,
    t_psp_fee t = Some fee /\ t_net_amount t = Some net
    /\ let cash :=
         get_cash_account (t_psp_connection_id t) (t_amount_currency t) in
       let ps := group_postings entries in
       net_debit ACCOUNTS_RECEIVABLE ps = - net
       /\ net_debit cash ps = net - Z.max fee 0
       /\ net_debit PSP_FEES ps = Z.max fee 0
       /\ forall acct,
            acct <> cash -> acct <> ACCOUNTS_RECEIVABLE -> acct <> PSP_FEES ->
            net_debit acct ps = 0.
Proof.
  intros H Ht He.
  destruct (post_rule_returned _ _ _ _ _ _ H Ht) as (m & s' & _ & Hr).
  unfold posting_rule in Hr. rewrite He in Hr.
  cbn [String.eqb Ascii.eqb Bool.eqb] in Hr.
  unfold _post_deposit, _create_entry, sub_int, gt_int, bind, uuid4, execute,
    raise, ret in Hr.
  destruct (t_psp_fee t) as [fee|]; [|discriminate].
  destruct (t_net_amount t) as [net|]; [|discriminate].
  exists fee, net. split; [reflexivity|]. split; [reflexivity|].
  destruct (3 <? String.length (t_amount_currency t))%nat; [discriminate|].
  cbn in Hr.
  pose proof (cash_account_cases (t_psp_connection_id t)
                (t_amount_currency t)) as Hcash.
  set (cash := get_cash_account _ _) in *. cbv zeta.
  assert (Hself : String.eqb cash cash = true) by apply String.eqb_refl.
  assert (Har : String.eqb cash ACCOUNTS_RECEIVABLE = false
                /\ String.eqb ACCOUNTS_RECEIVABLE cash = false
                /\ String.eqb cash PSP_FEES = false
                /\ String.eqb PSP_FEES cash = false).
  { destruct Hcash as [->|[->| ->]]; repeat split; reflexivity. }
  destruct Har as (H1 & H2 & H3 & H4).
  assert (Hoth : forall acct a b : string,
             acct <> a -> String.eqb a acct = false).
  { intros acct a _ Hn. apply String.eqb_neq. congruence. }
  destruct (0 <? fee) eqn:Hpos; cbn in Hr; inversion Hr; subst; clear Hr;
    unfold group_postings;
    cbn [map concat app postings_of net_debit p_account p_side p_amount
         account_debit account_credit amount];
    rewrite ?Hself, ?H1, ?H2, ?H3, ?H4;
    change (String.eqb ACCOUNTS_RECEIVABLE ACCOUNTS_RECEIVABLE) with true;
    change (String.eqb PSP_FEES PSP_FEES) with true;
    change (String.eqb PSP_FEES ACCOUNTS_RECEIVABLE) with false;
    change (String.eqb ACCOUNTS_RECEIVABLE PSP_FEES) with false;
    [apply Z.ltb_lt in Hpos | apply Z.ltb_ge in Hpos];
    (split; [lia|]); (split; [lia|]); (split; [lia|]);
    intros acct Hc Ha Hf;
    rewrite ?(Hoth acct cash cash Hc), ?(Hoth acct _ cash Ha),
      ?(Hoth acct _ cash Hf); lia.
Qed.

Lemma deposit_account_effect_witness :
  exists entries,
    net_debit CASH_STRIPE_USD (group_postings entries) = 94200
    /\ net_debit ACCOUNTS_RECEIVABLE (group_postings entries) = - 97100
    /\ net_debit PSP_FEES (group_postings entries) = 2900.
Proof.
  destruct (post_matched_transaction 1%N 2%N Scenario.deposit_with_fee)
    as [[entries|e] w'] eqn:Hpost; [|vm_compute in Hpost; discriminate].
  exists entries.
  destruct (deposit_account_effect 1%N 2%N Scenario.deposit_with_fee w' entries
              (Scenario.mk_txn 1%N "DEPOSIT" 100000 (Some 2900) (Some 97100)
                 None (Some "set_A") None "MATCHED")
              Hpost eq_refl eq_refl)
    as (fee & net & Hfee & Hnet & Har & Hcash & Hfees & _).
  inversion Hfee; inversion Hnet; subst.
  split; [exact Hcash|]. split; [exact Har|exact Hfees].
Defined.

(** X3.  What the other four rules do to the accounts: the amount of
    the transaction is debited to one account fixed by the event type
    (player balances for a withdrawal, accounts receivable for a
    refund, chargeback losses for a chargeback, PSP fees for a fee)
    and credited to the cash account of the connection.  The second
    entry of a chargeback debits and credits accounts receivable and
    so moves no balance. *)
Theorem non_deposit_account_effect (tid mid : UUID) (w w' : world)
    (entries : list LedgerEntry) (t : txn_row) :
  post_matched_transaction tid mid w = (Ok entries, w') ->
  Ledger.select_transaction tid (db w) = Some t ->
  t_event_type t <> "DEPOSIT" ->
  exists debited,
    In (t_event_type t, debited)
       [("WITHDRAWAL", PLAYER_BALANCES); ("REFUND", ACCOUNTS_RECEIVABLE);
        ("CHARGEBACK", CHARGEBACK_LOSSES); ("FEE", PSP_FEES)]
    /\ forall acct,
         net_debit acct (group_postings entries)
         = (if String.eqb debited acct then t_amount_value t else 0)
           - (if String.eqb
                   (get_cash_account (t_psp_connection_id t)
                      (t_amount_currency t)) acct
              then t_amount_value t else 0).
Proof.
  intros H Ht Hne.
  destruct (post_rule_returned _ _ _ _ _ _ H Ht) as (m & s' & _ & Hr).
  unfold posting_rule in Hr. apply String.eqb_neq in Hne. rewrite Hne in Hr.
  unfold _post_withdrawal, _post_refund, _post_chargeback, _post_fee,
    _create_entry, bind, uuid4, execute, raise, ret in Hr.
  set (cash := get_cash_account _ _) in *.
  destruct (String.eqb (t_event_type t) "WITHDRAWAL") eqn:E2;
    [apply String.eqb_eq in E2; exists PLAYER_BALANCES
    |destruct (String.eqb (t_event_type t) "REFUND") eqn:E3;
      [apply String.eqb_eq in E3; exists ACCOUNTS_RECEIVABLE
      |destruct (String.eqb (t_event_type t) "CHARGEBACK") eqn:E4;
        [apply String.eqb_eq in E4; exists CHARGEBACK_LOSSES
        |destruct (String.eqb (t_event_type t) "FEE") eqn:E5;
          [apply String.eqb_eq in E5; exists PSP_FEES|discriminate]]]];
    (split;
     [match goal with E : t_event_type t = _ |- _ => rewrite E end;
      cbn; auto 6|]);
    destruct (3 <? String.length (t_amount_currency t))%nat;
    try discriminate;
    cbn in Hr; inversion Hr; subst; clear Hr; intros acct;
    unfold group_postings;
    cbn [map concat app postings_of net_debit p_account p_side p_amount
         account_debit account_credit amount];
    repeat match goal with
    | |- context [String.eqb ?a acct] =>
        destruct (String.eqb a acct)
    end; lia.
Qed.

Lemma non_deposit_account_effect_witness :
  exists entries,
    length entries = 2%nat
    /\ net_debit CHARGEBACK_LOSSES (group_postings entries) = 20000
    /\ net_debit CASH_STRIPE_USD (group_postings entries) = - 20000
    /\ net_debit ACCOUNTS_RECEIVABLE (group_postings entries) = 0.
Proof.
  destruct (post_matched_transaction 1%N 2%N Cases.matched_chargeback)
    as [[entries|e] w'] eqn:Hpost; [|vm_compute in Hpost; discriminate].
  exists entries.
  destruct (non_deposit_account_effect 1%N 2%N Cases.matched_chargeback w'
              entries
              (Scenario.mk_txn 1%N "CHARGEBACK" 20000 None (Some 20000)
                 None (Some "set_A") None "MATCHED")
              Hpost eq_refl ltac:(discriminate))
    as (debited & Hin & Heff).
  cbn in Hin.
  destruct Hin as [Hin|[Hin|[Hin|[Hin|[]]]]]; inversion Hin; subst.
  split; [vm_compute in Hpost; inversion Hpost; reflexivity|].
  split; [exact (Heff CHARGEBACK_LOSSES)|].
  split; [exact (Heff CASH_STRIPE_USD)|exact (Heff ACCOUNTS_RECEIVABLE)].
Defined.

(** The cash account depends on the connection id alone, through the
    text before its first underscore. *)
Lemma cash_account_by_prefix (rest conn ccy ccy' : string) :
  get_cash_account ("psp_" +:+ rest) ccy = CASH_STRIPE_USD
  /\ get_cash_account conn ccy = get_cash_account conn ccy'
  /\ In (get_cash_account conn ccy)
        [CASH_STRIPE_USD; CASH_ADYEN_EUR; CASH_PAYPAL_GBP].
Proof.
  split; [reflexivity|]. split; [reflexivity|].
  destruct (cash_account_cases conn ccy) as [->|[->| ->]]; cbn; auto.
Qed.

(** X4.  The cash account is chosen by the text before the first
    underscore of the connection id, and the currency is not
    consulted.  The connection ids of this system have the form
    [psp_...]: for them the text is [psp], which names no PSP, so
    every entry [Post] writes uses the Stripe USD account 1001 as its
    cash account, and the Adyen EUR and PayPal GBP accounts are never
    debited or credited, whatever the PSP and the currency. *)
Theorem psp_prefix_books_on_stripe (tid mid : UUID) (w w' : world)
    (entries : list LedgerEntry) (t : txn_row) (rest : string) :
  post_matched_transaction tid mid w = (Ok entries, w') ->
  Ledger.select_transaction tid (db w) = Some t ->
  t_psp_connection_id t = "psp_" +:+ rest ->
  Forall (fun e => ~ In CASH_ADYEN_EUR [account_debit e; account_credit e]
                   /\ ~ In CASH_PAYPAL_GBP [account_debit e; account_credit e])
         entries
  /\ Exists (fun e => In CASH_STRIPE_USD [account_debit e; account_credit e])
            entries.
Proof.
  intros H Ht Hconn.
  destruct (post_rule_returned _ _ _ _ _ _ H Ht) as (m & s' & _ & Hr).
  clear H Ht. revert Hr.
  unfold posting_rule, _post_deposit, _post_withdrawal, _post_refund,
    _post_chargeback, _post_fee, _create_entry, sub_int, gt_int,
    bind, uuid4, execute, raise, ret.
  rewrite Hconn.
  change (get_cash_account ("psp_" +:+ rest) (t_amount_currency t))
    with CASH_STRIPE_USD.
  destruct (String.eqb (t_event_type t) "DEPOSIT");
    [|destruct (String.eqb (t_event_type t) "WITHDRAWAL");
      [|destruct (String.eqb (t_event_type t) "REFUND");
        [|destruct (String.eqb (t_event_type t) "CHARGEBACK");
          [|destruct (String.eqb (t_event_type t) "FEE")]]]];
    destruct (t_psp_fee t) as [fee|]; try discriminate;
    destruct (t_net_amount t) as [net|]; try discriminate;
    destruct (3 <? String.length (t_amount_currency t))%nat;
    try discriminate; cbn;
    try destruct (0 <? fee); cbn;
    intros H; inversion H; subst; clear H;
    (split;
     [repeat constructor; cbn; intros [Hx|[Hx|[]]]; discriminate
     |apply Exists_cons_hd; cbn; auto]).
Qed.

Lemma psp_prefix_books_on_stripe_witness :
  exists entries w',
    post_matched_transaction 1%N 2%N Cases.adyen_deposit = (Ok entries, w')
    /\ map (fun e => (account_debit e, account_credit e, currency e)) entries
       = [(CASH_STRIPE_USD, ACCOUNTS_RECEIVABLE, "EUR");
          (PSP_FEES, CASH_STRIPE_USD, "EUR")]
    /\ Forall (fun e => ~ In CASH_ADYEN_EUR [account_debit e; account_credit e]
                        /\ ~ In CASH_PAYPAL_GBP
                                [account_debit e; account_credit e]) entries.
Proof.
  destruct (post_matched_transaction 1%N 2%N Cases.adyen_deposit)
    as [[entries|ex] w'] eqn:Hpost; [|vm_compute in Hpost; discriminate].
  exists entries, w'. split; [reflexivity|].
  split; [vm_compute in Hpost; inversion Hpost; reflexivity|].
  match type of Hpost with
  | _ = (Ok ?es, _) =>
      refine (proj1 (psp_prefix_books_on_stripe 1%N 2%N Cases.adyen_deposit
                       w' es _ "adyen_eu_001" Hpost eq_refl eq_refl))
  end.
Defined.

Lemma ledger_select_match_frame mid tid st f d :
  select_match mid (update_reconciliation_status tid st (set_ledger_entry f d))
  = select_match mid d.
Proof. reflexivity. Qed.

(** X5.  [Post] does not look at the reconciliation status, so it is
    not idempotent: after a call that returned, the same call returns
    again, with entries that say the same (accounts, amounts,
    currency, references, descriptions) under new identifiers, and the
    ledger then holds both groups. *)
Theorem post_twice_posts_twice (tid mid : UUID) (w w' : world)
    (entries : list LedgerEntry) :
  post_matched_transaction tid mid w = (Ok entries, w') ->
  exists entries2 w'',
    post_matched_transaction tid mid w' = (Ok entries2, w'')
    /\ map shape entries2 = map shape entries
    /\ entries2 <> []
    /\ ledger_entry (db w'')
       = ledger_entry (db w) ++ map row_of_entry entries
                             ++ map row_of_entry entries2.
Proof.
  intros H. pose proof (post_inv _ _ _ _ _ H) as Hinv. cbn beta iota in Hinv.
  destruct Hinv as (t & m & Ht & Hm & _ & _ & Hne & _ & Hdb).
  destruct (post_rule_returned _ _ _ _ _ _ H Ht) as (m0 & s' & Hm0 & Hr).
  rewrite Hm in Hm0; inversion Hm0; subst m0; clear Hm0.
  assert (Ht' : Ledger.select_transaction tid (db w')
                = Some (with_reconciliation_status "POSTED" t)).
  { rewrite Hdb, ledger_select_transaction_update.
    unfold Ledger.select_transaction in *.
    cbn [normalized_transaction set_ledger_entry]. by rewrite Ht. }
  assert (Hm' : select_match mid (db w') = Some m).
  { by rewrite Hdb, ledger_select_match_frame. }
  pose proof (posting_rule_outcome t m (open_session w) (open_session w'))
    as Hout.
  change (posting_rule t m (open_session w'))
    with (posting_rule (with_reconciliation_status "POSTED" t) m
            (open_session w')) in Hout.
  rewrite Hr in Hout. unfold outcome in Hout. cbn [fst] in Hout.
  destruct (posting_rule (with_reconciliation_status "POSTED" t) m
              (open_session w')) as [[es2|e2] s2] eqn:Hr2;
    cbn [fst] in Hout; [|discriminate].
  inversion Hout as [Hshape].
  assert (H2 : post_matched_transaction tid mid w'
               = (Ok es2,
                  {| db := update_reconciliation_status tid "POSTED"
                             (working s2);
                     next_uuid := supply s2 |})).
  { rewrite (post_run tid mid w' _ m Ht' Hm'), Hr2. reflexivity. }
  eexists es2, _. split; [exact H2|]. split; [by rewrite Hshape|].
  split.
  - intros ->. destruct entries; [by apply Hne|discriminate].
  - apply post_inv in H2.
    destruct H2 as (t2 & m2 & _ & _ & _ & _ & _ & _ & Hdb2).
    rewrite Hdb2, Hdb. cbn. by rewrite <- app_assoc.
Qed.

Lemma post_twice_posts_twice_witness :
  exists entries w' entries2 w'',
    post_matched_transaction 1%N 2%N Scenario.deposit_with_fee
    = (Ok entries, w')
    /\ post_matched_transaction 1%N 2%N w' = (Ok entries2, w'')
    /\ length (ledger_entry (db w'')) = 4%nat.
Proof.
  destruct (post_matched_transaction 1%N 2%N Scenario.deposit_with_fee)
    as [[entries|e] w'] eqn:Hpost; [|vm_compute in Hpost; discriminate].
  destruct (post_twice_posts_twice 1%N 2%N Scenario.deposit_with_fee w' entries
              Hpost) as (entries2 & w'' & H2 & Hshape & _ & Hrows).
  exists entries, w', entries2, w''.
  split; [reflexivity|]. split; [exact H2|].
  rewrite Hrows, !length_app, !length_map.
  rewrite <- (length_map shape entries2), Hshape, length_map.
  vm_compute in Hpost. inversion Hpost. reflexivity.
Defined.

(** What a posting rule posts depends on the transaction alone. *)
Lemma posting_rule_posted (t : txn_row) (m m' : match_row) (s s' : session) :
  match fst (posting_rule t m s), fst (posting_rule t m' s') with
  | Ok es, Ok es' => map posted es = map posted es'
  | Raise e, Raise e' => e = e'
  | _, _ => False
  end.
Proof.
  unfold posting_rule, _post_deposit, _post_withdrawal, _post_refund,
    _post_chargeback, _post_fee, _create_entry, sub_int, gt_int,
    bind, uuid4, execute, raise, ret.
  destruct (String.eqb (t_event_type t) "DEPOSIT");
    [|destruct (String.eqb (t_event_type t) "WITHDRAWAL");
      [|destruct (String.eqb (t_event_type t) "REFUND");
        [|destruct (String.eqb (t_event_type t) "CHARGEBACK");
          [|destruct (String.eqb (t_event_type t) "FEE")]]]];
    destruct (t_psp_fee t) as [fee|]; try reflexivity;
    destruct (t_net_amount t) as [net|]; try reflexivity;
    destruct (3 <? String.length (t_amount_currency t))%nat; try reflexivity;
    cbn; destruct (0 <? fee); reflexivity.
Qed.

(** X24.  [Post] checks neither the reconciliation status of the
    transaction nor that the match belongs to it: the match row is
    read for its identifier only.  A transaction of a supported type
    found in the store is posted, with the same accounts and amounts,
    under every match identifier that exists, whatever the
    transaction and the status that match row records. *)
Theorem post_ignores_match_and_status (tid mid mid' : UUID) (w w' : world)
    (entries : list LedgerEntry) :
  post_matched_transaction tid mid w = (Ok entries, w') ->
  is_Some (select_match mid' (db w)) ->
  forall status,
    exists entries' w'',
      post_matched_transaction tid mid'
        {| db := update_reconciliation_status tid status (db w);
           next_uuid := next_uuid w |}
      = (Ok entries', w'')
      /\ map posted entries' = map posted entries
      /\ Forall (fun e => reference_match_id e = mid') entries'.
Proof.
  intros H [m' Hm'] status.
  pose proof (post_inv _ _ _ _ _ H) as Hinv. cbn beta iota in Hinv.
  destruct Hinv as (t & m & Ht & Hm & _).
  destruct (post_rule_returned _ _ _ _ _ _ H Ht) as (m0 & s' & _ & Hr).
  set (w1 := {| db := update_reconciliation_status tid status (db w);
               next_uuid := next_uuid w |}).
  assert (Ht1 : Ledger.select_transaction tid (db w1)
                = Some (with_reconciliation_status status t)).
  { cbn [db w1]. rewrite ledger_select_transaction_update. by rewrite Ht. }
  assert (Hm1 : select_match mid' (db w1) = Some m') by exact Hm'.
  assert (Hid : m_match_id m' = mid').
  { clear -Hm'. unfold select_match, fetchone in Hm'.
    induction (reconciliation_match (db w)) as [|r rows IH]; [discriminate|].
    rewrite filter_cons in Hm'.
    destruct (decide (m_match_id r = mid')); cbn in Hm'.
    - inversion Hm'; subst; reflexivity.
    - by apply IH. }
  rewrite (post_run tid mid' w1 _ m' Ht1 Hm1).
  pose proof (posting_rule_posted t m0 m' (open_session w) (open_session w1))
    as Hsame.
  change (posting_rule (with_reconciliation_status status t) m')
    with (posting_rule t m').
  rewrite Hr in Hsame. cbn [fst] in Hsame.
  destruct (posting_rule t m' (open_session w1)) as [[es'|ex] s1] eqn:Hr1;
    cbn [fst] in Hsame; [|contradiction].
  eexists _, _. split; [reflexivity|]. split; [by symmetry|].
  clear -Hr1 Hid. revert Hr1.
  unfold posting_rule, _post_deposit, _post_withdrawal, _post_refund,
    _post_chargeback, _post_fee, _create_entry, sub_int, gt_int,
    bind, uuid4, execute, raise, ret.
  destruct (String.eqb (t_event_type t) "DEPOSIT");
    [|destruct (String.eqb (t_event_type t) "WITHDRAWAL");
      [|destruct (String.eqb (t_event_type t) "REFUND");
        [|destruct (String.eqb (t_event_type t) "CHARGEBACK");
          [|destruct (String.eqb (t_event_type t) "FEE")]]]];
    destruct (t_psp_fee t) as [fee|]; try discriminate;
    destruct (t_net_amount t) as [net|]; try discriminate;
    destruct (3 <? String.length (t_amount_currency t))%nat;
    try discriminate; cbn;
    try destruct (0 <? fee); cbn;
    intros H; inversion H; subst; repeat constructor.
Qed.

Lemma post_ignores_match_and_status_witness :
  exists entries' w'',
    post_matched_transaction 1%N 6%N
      {| db := update_reconciliation_status 1%N "PENDING"
                 (db Cases.foreign_match);
         next_uuid := next_uuid Cases.foreign_match |}
    = (Ok entries', w'')
    /\ map posted entries'
       = [(CASH_STRIPE_USD, ACCOUNTS_RECEIVABLE, 97100, "USD",
           "Deposit: txn_123");
          (PSP_FEES, CASH_STRIPE_USD, 2900, "USD", "PSP Fee: txn_123")].
Proof.
  destruct (post_matched_transaction 1%N 2%N Cases.foreign_match)
    as [[entries|ex] w'] eqn:Hpost; [|vm_compute in Hpost; discriminate].
  destruct (post_ignores_match_and_status 1%N 2%N 6%N Cases.foreign_match w'
              entries Hpost ltac:(eexists; reflexivity) "PENDING")
    as (entries' & w'' & Hrun & Hposted & _).
  exists entries', w''. split; [exact Hrun|].
  rewrite Hposted. vm_compute in Hpost. inversion Hpost. reflexivity.
Defined.

End LedgerFurther.


(* ===================================================================== *)
(** * Further properties of the matching engine                           *)
(* ===================================================================== *)

Section MatchingFurther.

Import Matching Effects.
Local Open Scope py_scope.

Lemma bind_unfold {S A B} (m : SE S A) (k : A -> SE S B) (s : S) :
  bind m k s
  = match m s with
    | (Ok a, s') => k a s'
    | (Raise e, s') => (Raise e, s')
    end.
Proof. unfold bind. destruct (m s) as [[a|e] s']; reflexivity. Qed.

Lemma create_match_run t sid l c ad ap s :
  0 <= c <= 100 ->
  _create_match t sid l AUTO c ad ap s
  = (Ok (match_object (supply s) t sid l c ad ap),
     {| committed := after_match (supply s) t sid l c ad ap (working s);
        working := after_match (supply s) t sid l c ad ap (working s);
        supply := N.succ (supply s) |}).
Proof.
  intros [H0 H100]. unfold _create_match, bind, uuid4, execute, commit.
  cbn [committed working supply].
  apply Z.leb_le in H0, H100. rewrite H0, H100. reflexivity.
Qed.

Lemma create_exception_run t ty m s :
  _create_exception t ty m s
  = (Ok (exception_object (supply s) t ty m),
     {| committed := after_exception (exception_object (supply s) t ty m)
                       (working s);
        working := after_exception (exception_object (supply s) t ty m)
                     (working s);
        supply := N.succ (supply s) |}).
Proof. reflexivity. Qed.

Lemma level_1_exact t s :
  _match_level_1 t s
  = match hit STRONG_ID t (working s) with
    | Some row =>
        (Ok (Some (match_object (supply s) t (s_settlement_id row)
                     STRONG_ID 100 None None)),
         {| committed := after_match (supply s) t (s_settlement_id row)
                           STRONG_ID 100 None None (working s);
            working := after_match (supply s) t (s_settlement_id row)
                         STRONG_ID 100 None None (working s);
            supply := N.succ (supply s) |})
    | None => (Ok None, s)
    end.
Proof.
  unfold hit, _match_level_1, level_guard.
  destruct (truthy (t_psp_settlement_id t)); cbn [negb]; [|reflexivity].
  rewrite bind_unfold. unfold query at 1.
  destruct (select_settlement STRONG_ID t (working s)) as [row|];
    [|reflexivity].
  cbn [columns]. rewrite bind_unfold, create_match_run by lia. reflexivity.
Qed.

Lemma level_2_exact t s :
  _match_level_2 t s
  = match hit PSP_REFERENCE t (working s) with
    | Some row =>
        let ad := t_amount_value t - s_amount_value row in
        let ap := amount_diff_percent ad (t_amount_value t) in
        (Ok (Some (match_object (supply s) t (s_settlement_id row)
                     PSP_REFERENCE 95 (Some ad) (Some ap))),
         {| committed := after_match (supply s) t (s_settlement_id row)
                           PSP_REFERENCE 95 (Some ad) (Some ap) (working s);
            working := after_match (supply s) t (s_settlement_id row)
                         PSP_REFERENCE 95 (Some ad) (Some ap) (working s);
            supply := N.succ (supply s) |})
    | None => (Ok None, s)
    end.
Proof.
  unfold hit, _match_level_2, level_guard.
  destruct (truthy (t_psp_payment_id t)); cbn [negb]; [|reflexivity].
  rewrite bind_unfold. unfold query at 1.
  destruct (select_settlement PSP_REFERENCE t (working s)) as [row|];
    [|reflexivity].
  cbn [columns]. rewrite bind_unfold, create_match_run by lia. reflexivity.
Qed.

Lemma level_4_exact t s :
  _match_level_4 t s
  = match hit AMOUNT_DATE t (working s) with
    | Some row =>
        (Ok (Some (match_object (supply s) t (s_settlement_id row)
                     AMOUNT_DATE 60 None None)),
         {| committed := after_match (supply s) t (s_settlement_id row)
                           AMOUNT_DATE 60 None None (working s);
            working := after_match (supply s) t (s_settlement_id row)
                         AMOUNT_DATE 60 None None (working s);
            supply := N.succ (supply s) |})
    | None => (Ok None, s)
    end.
Proof.
  unfold hit, _match_level_4, level_guard.
  rewrite bind_unfold. unfold query at 1.
  destruct (select_settlement AMOUNT_DATE t (working s)) as [row|];
    [|reflexivity].
  cbn [columns]. rewrite bind_unfold, create_match_run by lia. reflexivity.
Qed.

(** The closed form is what [match_transaction] computes. *)
Lemma match_transaction_ladder (tid : UUID) (w : world) :
  match_transaction tid w = ladder tid w.
Proof.
  unfold match_transaction, ladder, with_session, _get_transaction.
  rewrite bind_unfold. unfold query at 1. cbn [working].
  destruct (select_transaction tid (db w)) as [t|];
    [|unfold raise; cbn; by rewrite world_eta].
  destruct (String.eqb (t_reconciliation_status t) "MATCHED");
    [unfold ret; cbn; by rewrite world_eta|].
  rewrite bind_unfold, level_1_exact. cbn [working supply].
  destruct (hit STRONG_ID t (db w)) as [row1|]; [reflexivity|].
  rewrite bind_unfold, level_2_exact. cbn [working supply].
  destruct (hit PSP_REFERENCE t (db w)) as [row2|].
  { cbv zeta.
    destruct (Qltb _ 1); [reflexivity|].
    rewrite bind_unfold, create_exception_run. reflexivity. }
  pose proof (level_3_run t {| committed := db w; working := db w;
                               supply := next_uuid w |}) as L3.
  cbn [working] in L3. rewrite bind_unfold.
  destruct (hit FUZZY t (db w)) as [row3|];
    rewrite L3; [cbn; by rewrite world_eta|].
  rewrite bind_unfold, level_4_exact. cbn [working supply].
  destruct (hit AMOUNT_DATE t (db w)) as [row4|].
  { rewrite bind_unfold, create_exception_run. reflexivity. }
  rewrite bind_unfold, create_exception_run. reflexivity.
Qed.

(** *** The tables a match call touches *)

Lemma after_match_rows id t sid l c ad ap d :
  exists new,
    reconciliation_match (after_match id t sid l c ad ap d)
    = reconciliation_match d ++ new
    /\ (new = [] \/ new = [match_row_of id t sid l c ad ap]).
Proof.
  unfold after_match, update_reconciliation_status, insert_match; cbn.
  destruct (existsb _ (reconciliation_match d)).
  - exists []. rewrite app_nil_r. auto.
  - eexists. split; [reflexivity|]. auto.
Qed.

Lemma level_where_not_matched l d t row :
  level_where l d t row = true -> not_matched d row = true.
Proof.
  destruct l; cbn [level_where];
    unfold level_1_where, level_2_where, level_3_where, level_4_where;
    rewrite !andb_true_iff; tauto.
Qed.

Lemma not_matched_rows d row :
  not_matched d row = true -> matched_rows (s_settlement_id row) d = [].
Proof.
  unfold not_matched, matched_rows. rewrite negb_true_iff.
  induction (reconciliation_match d) as [|m rows IH]; [reflexivity|].
  cbn. destruct (_ && _); cbn; [discriminate|exact IH].
Qed.

(** X6.  What a match call can touch.  Settlements, ledger entries,
    connections, entities and rates are never written.  Of the
    transactions only the reconciliation status of the one named can
    change, and only to MATCHED or PARTIAL_MATCH.  At most one match
    row and at most one exception row are appended, both for the
    transaction named, the exception OPEN; no existing row of either
    table is changed or removed. *)
Theorem match_transaction_frame (tid : UUID) (w : world) :
  let d := db w in
  let d' := db (snd (match_transaction tid w)) in
  psp_settlement d' = psp_settlement d
  /\ ledger_entry d' = ledger_entry d
  /\ psp_connection d' = psp_connection d
  /\ entity d' = entity d
  /\ fx_rate d' = fx_rate d
  /\ (normalized_transaction d' = normalized_transaction d
      \/ exists st,
           In st ["MATCHED"; "PARTIAL_MATCH"]
           /\ normalized_transaction d'
              = normalized_transaction
                  (update_reconciliation_status tid st d))
  /\ (exists new,
        reconciliation_match d' = reconciliation_match d ++ new
        /\ (length new <= 1)%nat
        /\ Forall (fun m => m_transaction_id m = tid) new)
  /\ (exists new,
        reconciliation_exception d' = reconciliation_exception d ++ new
        /\ (length new <= 1)%nat
        /\ Forall (fun x => x_transaction_id x = Some tid
                            /\ x_status x = "OPEN") new).
Proof.
  cbv zeta. rewrite match_transaction_ladder. unfold ladder.
  assert (Hsame : forall d : database,
            (exists new : list match_row,
               reconciliation_match d = reconciliation_match d ++ new
               /\ (length new <= 1)%nat
               /\ Forall (fun m => m_transaction_id m = tid) new)
            /\ (exists new : list exception_row,
                  reconciliation_exception d = reconciliation_exception d ++ new
                  /\ (length new <= 1)%nat
                  /\ Forall (fun x => x_transaction_id x = Some tid
                                      /\ x_status x = "OPEN") new)).
  { intros d. split; exists []; rewrite app_nil_r; cbn; auto. }
  destruct (select_transaction tid (db w)) as [t|] eqn:Ht;
    [|cbn [snd]; pose proof (Hsame (db w)); tauto].
  assert (Hid : t_transaction_id t = tid)
    by (eapply select_transaction_id; eauto).
  assert (Hmatch : forall id sid l c ad ap,
            exists new,
              reconciliation_match (after_match id t sid l c ad ap (db w))
              = reconciliation_match (db w) ++ new
              /\ (length new <= 1)%nat
              /\ Forall (fun m => m_transaction_id m = tid) new).
  { intros id sid l c ad ap.
    destruct (after_match_rows id t sid l c ad ap (db w))
      as (new & Hrows & [-> | ->]); eexists; (split; [exact Hrows|]);
      cbn; split; auto. }
  assert (Hst : forall c, In (if 95 <=? c then MatchStatus_value MATCHED
                              else "PARTIAL_MATCH")
                             ["MATCHED"; "PARTIAL_MATCH"]).
  { intros c. destruct (95 <=? c); cbn; auto. }
  destruct (String.eqb (t_reconciliation_status t) "MATCHED");
    [cbn [snd]; pose proof (Hsame (db w)); tauto|].
  destruct (hit STRONG_ID t (db w)) as [row1|].
  { cbn [snd db]. repeat (split; [reflexivity|]).
    split; [right; eexists; split; [apply (Hst 100)|rewrite <- Hid; reflexivity]|].
    split; [apply Hmatch|]. exists []. rewrite app_nil_r. cbn; auto. }
  destruct (hit PSP_REFERENCE t (db w)) as [row2|].
  { cbv zeta. destruct (Qltb _ 1); cbn [snd db].
    - repeat (split; [reflexivity|]).
      split; [right; eexists; split; [apply (Hst 95)|rewrite <- Hid; reflexivity]|].
      split; [apply Hmatch|]. exists []. rewrite app_nil_r. cbn; auto.
    - repeat (split; [reflexivity|]).
      split; [right; eexists; split; [apply (Hst 95)|rewrite <- Hid; reflexivity]|].
      split; [apply Hmatch|]. eexists. split; [reflexivity|].
      cbn. split; [lia|]. repeat constructor. cbn. by rewrite Hid. }
  destruct (hit FUZZY t (db w)) as [row3|];
    [cbn [snd]; pose proof (Hsame (db w)); tauto|].
  destruct (hit AMOUNT_DATE t (db w)) as [row4|]; cbn [snd db].
  - repeat (split; [reflexivity|]).
    split; [right; eexists; split; [apply (Hst 60)|rewrite <- Hid; reflexivity]|].
    split; [apply Hmatch|]. eexists. split; [reflexivity|].
    cbn. split; [lia|]. repeat constructor. cbn. by rewrite Hid.
  - repeat (split; [reflexivity|]). split; [left; reflexivity|].
    split; [exists []; rewrite app_nil_r; cbn; auto|].
    eexists. split; [reflexivity|].
    cbn. split; [lia|]. repeat constructor. cbn. by rewrite Hid.
Qed.

(** *** No settlement is settled twice *)

Lemma after_match_settled_once id t row l c ad ap d :
  hit l t d = Some row ->
  settled_once d ->
  settled_once (after_match id t (s_settlement_id row) l c ad ap d).
Proof.
  intros Hhit Hinv sid.
  apply hit_where, level_where_not_matched, not_matched_rows in Hhit.
  destruct (after_match_rows id t (s_settlement_id row) l c ad ap d)
    as (new & Hrows & [-> | ->]); unfold matched_rows in *; rewrite Hrows.
  - rewrite app_nil_r. apply Hinv.
  - rewrite List.filter_app, length_app.
    cbn [List.filter match_row_of m_settlement_id m_status].
    destruct (bool_decide (Some (s_settlement_id row) = Some sid)) eqn:Hsid;
      cbn [andb].
    + apply bool_decide_eq_true in Hsid. inversion Hsid; subst sid.
      rewrite Hhit. destruct (String.eqb _ "MATCHED"); cbn; lia.
    + cbn. specialize (Hinv sid). unfold matched_rows in Hinv. lia.
Qed.

(** X7.  No settlement is settled twice: if every settlement has at
    most one MATCHED row in [reconciliation_match], the same holds
    after any call of [match_transaction], whatever it returns or
    raises. *)
Theorem match_keeps_settled_once (tid : UUID) (w : world) :
  settled_once (db w) ->
  settled_once (db (snd (match_transaction tid w))).
Proof.
  intros Hinv. rewrite match_transaction_ladder. unfold ladder.
  destruct (select_transaction tid (db w)) as [t|]; [|exact Hinv].
  destruct (String.eqb (t_reconciliation_status t) "MATCHED"); [exact Hinv|].
  destruct (hit STRONG_ID t (db w)) as [row1|] eqn:H1.
  { cbn [snd db]. by apply (after_match_settled_once _ _ _ STRONG_ID). }
  destruct (hit PSP_REFERENCE t (db w)) as [row2|] eqn:H2.
  { cbv zeta.
    pose proof (after_match_settled_once (next_uuid w) t row2 PSP_REFERENCE 95
                  (Some (t_amount_value t - s_amount_value row2))
                  (Some (amount_diff_percent
                           (t_amount_value t - s_amount_value row2)
                           (t_amount_value t))) (db w) H2 Hinv) as Hinv'.
    destruct (Qltb _ 1); cbn [snd db]; [exact Hinv'|].
    intros sid. apply (Hinv' sid). }
  destruct (hit FUZZY t (db w)) as [row3|]; [exact Hinv|].
  destruct (hit AMOUNT_DATE t (db w)) as [row4|] eqn:H4; cbn [snd db].
  - pose proof (after_match_settled_once (next_uuid w) t row4 AMOUNT_DATE 60
                  None None (db w) H4 Hinv) as Hinv'.
    intros sid. apply (Hinv' sid).
  - intros sid. apply (Hinv sid).
Qed.

Lemma match_keeps_settled_once_witness :
  settled_once (db (snd (match_transaction 1%N Scenario.two_candidates))).
Proof.
  apply (match_keeps_settled_once 1%N Scenario.two_candidates).
  intros sid. cbn. lia.
Defined.

(** *** What is recorded against what is returned *)




(** *** The path without a candidate *)

Lemma hit_ext l t d d' :
  psp_settlement d' = psp_settlement d ->
  reconciliation_match d' = reconciliation_match d ->
  hit l t d' = hit l t d.
Proof.
  intros Hs Hm. unfold hit, select_settlement, candidates. rewrite Hs.
  destruct (level_guard l t); [|reflexivity]. f_equal.
  apply List.filter_ext. intros row.
  destruct l; cbn [level_where];
    unfold level_1_where, level_2_where, level_3_where, level_4_where,
      not_matched; rewrite Hm; reflexivity.
Qed.

Lemma no_hit_step tid w t :
  select_transaction tid (db w) = Some t ->
  t_reconciliation_status t <> "MATCHED" ->
  (forall l, hit l t (db w) = None) ->
  match_transaction tid w
  = (Raise AttributeError,
     {| db := after_exception
                (exception_object (next_uuid w) t UNMATCHED None) (db w);
        next_uuid := N.succ (next_uuid w) |}).
Proof.
  intros Ht Hst Hno. rewrite match_transaction_ladder. unfold ladder.
  rewrite Ht. apply String.eqb_neq in Hst. rewrite Hst.
  rewrite (Hno STRONG_ID), (Hno PSP_REFERENCE), (Hno FUZZY),
    (Hno AMOUNT_DATE). reflexivity.
Qed.

Lemma retry_S n tid w :
  retry (S n) tid w = snd (match_transaction tid (retry n tid w)).
Proof. reflexivity. Qed.

Lemma retry_no_hit tid w t n :
  select_transaction tid (db w) = Some t ->
  t_reconciliation_status t <> "MATCHED" ->
  (forall l, hit l t (db w) = None) ->
  normalized_transaction (db (retry n tid w)) = normalized_transaction (db w)
  /\ psp_settlement (db (retry n tid w)) = psp_settlement (db w)
  /\ reconciliation_match (db (retry n tid w)) = reconciliation_match (db w)
  /\ length (reconciliation_exception (db (retry n tid w)))
     = (length (reconciliation_exception (db w)) + n)%nat
  /\ Forall (fun x => x_exception_type x = "UNMATCHED"
                      /\ x_transaction_id x = Some tid)
            (drop (length (reconciliation_exception (db w)))
                  (reconciliation_exception (db (retry n tid w)))).
Proof.
  intros Ht Hst Hno.
  assert (Hid : t_transaction_id t = tid)
    by (eapply select_transaction_id; eauto).
  induction n as [|n (Hn & Hs & Hm & Hx & Hall)].
  - cbn. repeat split; auto. rewrite drop_all. constructor.
  - rewrite retry_S. set (wn := retry n tid w) in *.
    rewrite (no_hit_step tid wn t).
    + cbn [snd db]. unfold after_exception. cbn.
      repeat split; auto.
      * rewrite length_app, Hx. cbn. lia.
      * rewrite drop_app_le by lia. apply Forall_app. split; [exact Hall|].
        repeat constructor. cbn. by rewrite Hid.
    + unfold select_transaction in *. by rewrite Hn.
    + exact Hst.
    + intros l. rewrite (hit_ext l t (db w) (db wn) Hs Hm). apply Hno.
Qed.

(** X9.  A transaction without a candidate at any level is never
    answered: every call of [match_transaction] raises
    [AttributeError] (the result names [MatchStatus.UNMATCHED], which
    the enumeration lacks) after committing one more UNMATCHED
    exception, and leaves the transaction and the match table as they
    were; so [n] calls leave [n] exception rows and the next call
    raises again. *)
Theorem unmatched_retry_accumulates (tid : UUID) (w : world) (t : txn_row)
    (n : nat) :
  select_transaction tid (db w) = Some t ->
  t_reconciliation_status t <> "MATCHED" ->
  (forall l, hit l t (db w) = None) ->
  fst (match_transaction tid (retry n tid w)) = Raise AttributeError
  /\ select_transaction tid (db (retry n tid w)) = Some t
  /\ reconciliation_match (db (retry n tid w)) = reconciliation_match (db w)
  /\ length (reconciliation_exception (db (retry n tid w)))
     = (length (reconciliation_exception (db w)) + n)%nat
  /\ Forall (fun x => x_exception_type x = "UNMATCHED"
                      /\ x_transaction_id x = Some tid)
            (drop (length (reconciliation_exception (db w)))
                  (reconciliation_exception (db (retry n tid w)))).
Proof.
  intros Ht Hst Hno.
  destruct (retry_no_hit tid w t n Ht Hst Hno) as (Hn & Hs & Hm & Hx & Hall).
  assert (Ht' : select_transaction tid (db (retry n tid w)) = Some t).
  { unfold select_transaction in *. by rewrite Hn. }
  split; [|auto].
  rewrite (no_hit_step tid (retry n tid w) t Ht' Hst); [reflexivity|].
  intros l. rewrite (hit_ext l t (db w) _ Hs Hm). apply Hno.
Qed.

Lemma unmatched_retry_accumulates_witness :
  fst (match_transaction 1%N (retry 3 1%N Scenario.no_candidate))
  = Raise AttributeError
  /\ length (reconciliation_exception
               (db (retry 3 1%N Scenario.no_candidate))) = 3%nat.
Proof.
  destruct (unmatched_retry_accumulates 1%N Scenario.no_candidate
              (Scenario.mk_txn 1%N "DEPOSIT" 250 None (Some 250) None None
                 None "PENDING") 3 eq_refl ltac:(discriminate)
              ltac:(intros []; reflexivity))
    as (Hraise & _ & _ & Hlen & _).
  split; [exact Hraise|exact Hlen].
Defined.

(** *** Level 4 *)


Lemma head_filter_none {A} (p : A -> bool) (l : list A) (x : A) :
  head (List.filter p l) = None -> In x l -> p x = false.
Proof.
  intros H Hin. apply filter_nil_existsb in H.
  destruct (p x) eqn:Hp; [|reflexivity].
  assert (Hex : existsb p l = true) by (apply existsb_exists; eauto).
  congruence.
Qed.



(** *** Matching again what is under review *)






End MatchingFurther.


(* ===================================================================== *)
(** * Further properties of the normalizer                                *)
(* ===================================================================== *)

Section NormalizerFurther.

Import Normalizer Pipeline.
Local Open Scope py_scope.

(** [_map_to_canonical] reads the store and draws one identifier. *)
Lemma map_to_canonical_inv tenant conn e raw (w w' : world) r :
  _map_to_canonical tenant conn e raw w = (r, w') ->
  db w' = db w
  /\ match r with
     | Ok n =>
         transaction_id n = next_uuid w
         /\ next_uuid w' = N.succ (next_uuid w)
         /\ tenant_id n = tenant
         /\ psp_connection_id n = conn
     | Raise ex =>
         In ex [ValueError "PSP connection not found";
                ValueError "Invalid isoformat string"; ValidationError]
     end.
Proof.
  unfold _map_to_canonical, bind, _get_entity_brand, uuid4_w, raise, ret.
  destruct (select_connection tenant conn (db w)) as [c|];
    [|intros H; inversion H; subst; cbn; auto].
  destruct (select_entity (c_entity_id c) (db w)) as [en|];
    [|intros H; inversion H; subst; cbn; auto].
  destruct (match ev_created e with Some ts => Some ts | None => ev_event_date e end)
    as [ts|]; [|intros H; inversion H; subst; cbn; auto].
  destruct (3 <? String.length (default "USD" (ev_currency e)))%nat;
    intros H; inversion H; subst; cbn; auto 6.
Qed.

(** [normalize_event] in closed form. *)
Lemma normalize_event_run (today : date) (raw : raw_event) (p : pipeline) :
  normalize_event today raw p
  = match _map_to_canonical (raw_tenant_id raw) (raw_psp_connection_id raw)
            (enriched today raw (db (store p))) raw (store p) with
    | (Ok n, w1) =>
        (Ok n,
         {| store :=
              {| db := match select_existing n (db w1) with
                       | Some _ => db w1
                       | None => set_normalized_transaction
                                   (fun rows => rows ++ [row_of n]) (db w1)
                       end;
                 next_uuid := next_uuid w1 |};
            matching_stream := matching_stream p ++ [record_of n] |})
    | (Raise ex, w1) =>
        (Raise ex, {| store := w1; matching_stream := matching_stream p |})
    end.
Proof.
  unfold normalize_event, enriched.
  unfold bind at 1, on_store at 1, gets at 1; cbn [store].
  unfold bind at 1, on_store at 1, gets at 1; cbn [store].
  unfold bind at 1, on_store at 1; cbn [store].
  destruct (_map_to_canonical _ _ _ _ (store p)) as [[n|ex] w1];
    [|reflexivity].
  unfold bind at 1, on_store at 1; cbn [store].
  destruct (select_existing n (db w1)) as [row|] eqn:Hx.
  - rewrite (store_existing n w1 row Hx).
    unfold bind, _publish_to_matching, ret; cbn. by rewrite world_eta.
  - rewrite (store_new n w1 Hx). reflexivity.
Qed.

(** *** The unique key *)

Lemma same_key_key_of (n : NormalizedTransaction) (r : txn_row) :
  same_key n r = true <-> key_of r = key_of (row_of n).
Proof.
  unfold same_key, key_of; cbn. rewrite !andb_true_iff, bool_decide_eq_true.
  rewrite !String.eqb_eq. split.
  - intros (((-> & ->) & ->) & ->). reflexivity.
  - intros H; inversion H. auto.
Qed.

Lemma select_existing_none (n : NormalizedTransaction) (d : database) :
  select_existing n d = None ->
  ~ In (key_of (row_of n)) (map key_of (normalized_transaction d)).
Proof.
  unfold select_existing, fetchone. intros H Hin.
  apply in_map_iff in Hin as (r & Hk & Hr).
  apply (head_filter_none _ _ r H) in Hr.
  apply same_key_key_of in Hk. congruence.
Qed.

Lemma keys_after_update tid st d :
  map key_of (normalized_transaction (update_reconciliation_status tid st d))
  = map key_of (normalized_transaction d).
Proof.
  unfold update_reconciliation_status; cbn. rewrite map_map.
  apply map_ext. intros r. by destruct (decide _).
Qed.

Lemma match_transaction_txns tid w :
  normalized_transaction (db (snd (Matching.match_transaction tid w)))
  = normalized_transaction (db w)
  \/ exists st,
       normalized_transaction (db (snd (Matching.match_transaction tid w)))
       = normalized_transaction (update_reconciliation_status tid st (db w)).
Proof.
  rewrite match_transaction_ladder. unfold Effects.ladder.
  destruct (Matching.select_transaction tid (db w)) as [t|] eqn:Ht; [|by left].
  assert (Hid : t_transaction_id t = tid)
    by (eapply select_transaction_id; eauto).
  destruct (String.eqb _ "MATCHED"); [by left|].
  destruct (Matching.hit Matching.STRONG_ID t (db w));
    [right; eexists; rewrite <- Hid; reflexivity|].
  destruct (Matching.hit Matching.PSP_REFERENCE t (db w)).
  { cbv zeta. destruct (Qltb _ 1); right; eexists; rewrite <- Hid;
      reflexivity. }
  destruct (Matching.hit Matching.FUZZY t (db w)); [by left|].
  destruct (Matching.hit Matching.AMOUNT_DATE t (db w));
    [right; eexists; rewrite <- Hid; reflexivity|by left].
Qed.

Lemma nodup_snoc {A} (l : list A) (x : A) :
  NoDup l -> ~ In x l -> NoDup (l ++ [x]).
Proof.
  intros Hl Hx. apply NoDup_app. split; [exact Hl|]. split.
  - intros y Hy Hy'. apply list_elem_of_singleton in Hy'. subst y.
    apply Hx. by apply list_elem_of_In.
  - apply NoDup_singleton.
Qed.

(** X11.  The unique key [(tenant_id, psp_connection_id,
    psp_transaction_id, event_type)] of [normalized_transaction] is an
    invariant of the pipeline: if no two rows share it, the same holds
    after any [normalize_event], any [match_transaction] and any
    [post_matched_transaction], whether the call returns or raises. *)
Theorem pipeline_keeps_unique_keys (w : world) :
  unique_keys (db w) ->
  (forall today raw stream,
     unique_keys
       (db (store (snd (normalize_event today raw
                          {| store := w; matching_stream := stream |})))))
  /\ (forall tid, unique_keys (db (snd (Matching.match_transaction tid w))))
  /\ (forall tid mid,
        unique_keys (db (snd (Ledger.post_matched_transaction tid mid w)))).
Proof.
  unfold unique_keys. intros Hinv. split; [|split].
  - intros today raw stream. rewrite normalize_event_run. cbn [store].
    destruct (_map_to_canonical _ _ _ _ w) as [[n|ex] w1] eqn:Hmap;
      apply map_to_canonical_inv in Hmap as (Hdb & _); cbn [snd store db];
      [|by rewrite Hdb].
    destruct (select_existing n (db w1)) as [row|] eqn:Hx;
      [by rewrite Hdb|].
    cbn. rewrite map_app. cbn. apply nodup_snoc.
    + by rewrite Hdb.
    + by apply select_existing_none.
  - intros tid.
    destruct (match_transaction_txns tid w) as [->|(st & ->)];
      [exact Hinv|]. by rewrite keys_after_update.
  - intros tid mid.
    destruct (Ledger.post_matched_transaction tid mid w) as [r w'] eqn:Hpost.
    apply post_inv in Hpost. cbn [snd]. destruct r as [entries|ex].
    + destruct Hpost as (t & m & _ & _ & _ & _ & _ & _ & ->).
      rewrite keys_after_update. exact Hinv.
    + by rewrite Hpost.
Qed.

Lemma pipeline_keeps_unique_keys_witness :
  unique_keys
    (db (store (snd (normalize_event 19737
                       (Scenario.deposit_event (Some "deposit"))
                       (snd (normalize_event 19737
                               (Scenario.deposit_event (Some "deposit"))
                               Scenario.fresh_pipeline)))))).
Proof.
  destruct (normalize_event 19737 (Scenario.deposit_event (Some "deposit"))
              Scenario.fresh_pipeline) as [r [w stream]] eqn:Hrun.
  cbn [snd].
  apply (pipeline_keeps_unique_keys w).
  vm_compute in Hrun. inversion Hrun; subst. unfold unique_keys. cbn.
  apply NoDup_singleton.
Defined.

(** *** Amounts and currencies *)




(** *** Failure *)


(** *** From the normalizer to the matching engine *)





(** *** From the normalizer to the ledger *)




End NormalizerFurther.


(* ===================================================================== *)
(** * Further properties of the webhook handler                           *)
(* ===================================================================== *)

Section WebhookFurther.

Import Webhook Ingestion.
Local Open Scope py_scope.

Variable json_loads : string -> option (gmap string string).
Variable psp_connection_config : UUID -> string -> gmap string string.
Variable secret_string : string -> string.
Variable hmac_sha256_hexdigest : string -> string -> string.
Variable s3_bucket : string.




(** *** At most one record per key *)



End WebhookFurther.

Section WebhookFurtherExamples.

Import Webhook Ingestion.


(** X18.  The connection lookup of the source returns the empty
    dictionary for every connection.  With it no secret is ever
    found: whatever requests are served, each is refused and the
    table, the archive and the stream stay as they were. *)
Theorem placeholder_serves_nothing
    (json_loads : string -> option (gmap string string))
    (secret_string : string -> string)
    (hmac_sha256_hexdigest : string -> string -> string)
    (s3_bucket : string) (rqs : list request) (st : aws) :
  serve json_loads placeholder_config secret_string hmac_sha256_hexdigest
    s3_bucket rqs st = st
  /\ answers json_loads placeholder_config secret_string
       hmac_sha256_hexdigest s3_bucket rqs st
     = map (fun _ => Raise (HTTPException 500 "Error processing webhook")) rqs.
Proof.
  assert (Hone : forall rq st0,
            handle json_loads placeholder_config secret_string
              hmac_sha256_hexdigest s3_bucket rq st0
            = (Raise (HTTPException 500 "Error processing webhook"), st0)).
  { intros rq st0. unfold handle, handle_webhook, _validate_signature,
      placeholder_config.
    destruct (json_loads (req_body rq)); [|reflexivity].
    rewrite lookup_empty. cbn.
    destruct (truthy (req_x_signature rq)); reflexivity. }
  split.
  - unfold serve. induction rqs as [|rq rqs IH]; [reflexivity|].
    cbn [fold_left]. rewrite Hone. exact IH.
  - unfold answers.
    assert (Hgen : forall acc,
              snd (fold_left
                     (fun acc rq =>
                        let '(r, st') :=
                          handle json_loads placeholder_config secret_string
                            hmac_sha256_hexdigest s3_bucket rq (fst acc) in
                        (st', snd acc ++ [r])) rqs acc)
              = snd acc
                ++ map (fun _ =>
                          Raise (HTTPException 500 "Error processing webhook"))
                       rqs).
    { induction rqs as [|rq rqs IH]; intros acc; cbn [fold_left map].
      - by rewrite app_nil_r.
      - rewrite Hone, IH. cbn [snd]. by rewrite <- app_assoc. }
    rewrite Hgen. reflexivity.
Qed.

End WebhookFurtherExamples.


(* ===================================================================== *)
(** * Properties of the consumers                                         *)
(* ===================================================================== *)

Section ConsumerProperties.

Import Consumers.
Local Open Scope py_scope.

Lemma posting_rule_length (t : txn_row) (m : match_row) (s s' : session)
    (entries : list Ledger.LedgerEntry) :
  Accounts.posting_rule t m s = (Ok entries, s') ->
  (1 <= length entries <= 2)%nat.
Proof.
  unfold Accounts.posting_rule, Ledger._post_deposit, Ledger._post_withdrawal,
    Ledger._post_refund, Ledger._post_chargeback, Ledger._post_fee,
    Ledger._create_entry, sub_int, gt_int, bind, uuid4, execute, raise, ret.
  destruct (String.eqb (t_event_type t) "DEPOSIT");
    [|destruct (String.eqb (t_event_type t) "WITHDRAWAL");
      [|destruct (String.eqb (t_event_type t) "REFUND");
        [|destruct (String.eqb (t_event_type t) "CHARGEBACK");
          [|destruct (String.eqb (t_event_type t) "FEE")]]]];
    destruct (t_psp_fee t) as [fee|]; try discriminate;
    destruct (t_net_amount t) as [net|]; try discriminate;
    destruct (3 <? String.length (t_amount_currency t))%nat;
    try discriminate; cbn;
    try destruct (0 <? fee); cbn;
    intros H; inversion H; subst; cbn; lia.
Qed.

Lemma post_step_rows tid mid w :
  match Ledger.post_matched_transaction tid mid w with
  | (Ok entries, w') =>
      (1 <= length entries <= 2)%nat
      /\ length (ledger_entry (db w'))
         = (length (ledger_entry (db w)) + length entries)%nat
  | (Raise _, w') => db w' = db w
  end.
Proof.
  destruct (Ledger.post_matched_transaction tid mid w) as [[entries|ex] w']
    eqn:Hpost.
  - pose proof (post_inv _ _ _ _ _ Hpost) as Hinv. cbn beta iota in Hinv.
    destruct Hinv as (t & m & Ht & Hm & _ & _ & _ & _ & Hdb).
    destruct (post_rule_returned _ _ _ _ _ _ Hpost Ht) as (m0 & s' & _ & Hr).
    split; [by apply posting_rule_length in Hr|].
    rewrite Hdb. cbn. by rewrite length_app, length_map.
  - by apply post_inv in Hpost.
Qed.

(** X19.  The ledger poster accounts for every record of its batch:
    it answers 200 whatever happens, [processed + failed] is the
    number of records, and [posted] is the number of rows the batch
    added to [ledger_entry], between one and two per processed
    record.  A record that fails adds nothing. *)
Theorem ledger_poster_accounts (records : list (option (UUID * UUID)))
    (w : world) :
  let '(resp, w') := ledger_poster_handler records w in
  let c := lp_counts resp in
  lp_statusCode resp = 200
  /\ lp_processed c + lp_failed c = Z.of_nat (length records)
  /\ Z.of_nat (length (ledger_entry (db w')))
     = Z.of_nat (length (ledger_entry (db w))) + lp_posted c
  /\ lp_processed c <= lp_posted c <= 2 * lp_processed c
  /\ 0 <= lp_processed c /\ 0 <= lp_failed c.
Proof.
  unfold ledger_poster_handler.
  induction records as [|record records IH] using rev_ind.
  - cbn. lia.
  - rewrite fold_left_app. cbn [fold_left].
    destruct (fold_left poster_step records _) as [c w1].
    cbn [lp_counts lp_statusCode] in *.
    destruct IH as (_ & Hn & Hrows & Hb & Hp & Hf).
    rewrite length_app, Nat2Z.inj_add. cbn [length].
    unfold poster_step.
    destruct record as [[tid mid]|]; [|cbn; lia].
    pose proof (post_step_rows tid mid w1) as Hstep.
    destruct (Ledger.post_matched_transaction tid mid w1) as [[entries|ex] w2].
    + destruct Hstep as (Hlen & Hrows2). cbn. rewrite Hrows2. lia.
    + cbn. rewrite Hstep. lia.
Qed.



Lemma normalize_step_rows today raw p :
  match Normalizer.normalize_event today raw p with
  | (Ok n, p') =>
      Normalizer.matching_stream p'
      = Normalizer.matching_stream p ++ [Pipeline.record_of n]
      /\ (normalized_transaction (db (Normalizer.store p'))
          = normalized_transaction (db (Normalizer.store p))
          \/ normalized_transaction (db (Normalizer.store p'))
             = normalized_transaction (db (Normalizer.store p))
               ++ [Normalizer.row_of n])
  | (Raise _, p') =>
      Normalizer.matching_stream p' = Normalizer.matching_stream p
      /\ db (Normalizer.store p') = db (Normalizer.store p)
  end.
Proof.
  rewrite normalize_event_run.
  destruct (Normalizer._map_to_canonical _ _ _ _ (Normalizer.store p))
    as [[n|ex] w1] eqn:Hmap;
    apply map_to_canonical_inv in Hmap as (Hdb & _); cbn; [|auto].
  split; [reflexivity|]. rewrite Hdb.
  destruct (Normalizer.select_existing n (db (Normalizer.store p))); cbn; auto.
Qed.

(** X21.  The normalization consumer accounts for every record:
    [processed + failed] is the number of records, exactly
    [processed] records are appended to the matching stream, one for
    each event normalized, also when the event was already stored, and
    at most [processed] rows are added to [normalized_transaction];
    rows and stream records that were there stay as they were.  A
    record that fails adds nothing. *)
Theorem normalization_consumer_accounts (today : date)
    (records : list (option Normalizer.raw_event)) (p : Normalizer.pipeline) :
  let '(resp, p') := normalization_consumer_handler today records p in
  let c := nc_counts resp in
  nc_statusCode resp = 200
  /\ nc_processed c + nc_failed c = Z.of_nat (length records)
  /\ 0 <= nc_processed c /\ 0 <= nc_failed c
  /\ (exists published,
        Normalizer.matching_stream p'
        = Normalizer.matching_stream p ++ published
        /\ Z.of_nat (length published) = nc_processed c)
  /\ (exists rows,
        normalized_transaction (db (Normalizer.store p'))
        = normalized_transaction (db (Normalizer.store p)) ++ rows
        /\ Z.of_nat (length rows) <= nc_processed c).
Proof.
  unfold normalization_consumer_handler.
  induction records as [|record records IH] using rev_ind.
  - cbn. split; [reflexivity|]. split; [reflexivity|].
    split; [lia|]. split; [lia|].
    split; exists []; rewrite app_nil_r; cbn; split; (reflexivity || lia).
  - rewrite fold_left_app. cbn [fold_left].
    destruct (fold_left (normalization_step today) records _) as [c p1].
    cbn [nc_counts nc_statusCode] in *.
    destruct IH as (_ & Hn & Hp & Hf & (pub & Hpub & Hlen) & (rows & Hrows & Hr)).
    rewrite length_app, Nat2Z.inj_add. cbn [length].
    unfold normalization_step.
    assert (Hfail : forall p2 : Normalizer.pipeline,
              Normalizer.matching_stream p2 = Normalizer.matching_stream p1 ->
              db (Normalizer.store p2) = db (Normalizer.store p1) ->
              200 = 200
              /\ nc_processed c + (nc_failed c + 1)
                 = Z.of_nat (length records) + Z.of_nat 1
              /\ 0 <= nc_processed c /\ 0 <= nc_failed c + 1
              /\ (exists published,
                    Normalizer.matching_stream p2
                    = Normalizer.matching_stream p ++ published
                    /\ Z.of_nat (length published) = nc_processed c)
              /\ (exists rows,
                    normalized_transaction (db (Normalizer.store p2))
                    = normalized_transaction (db (Normalizer.store p)) ++ rows
                    /\ Z.of_nat (length rows) <= nc_processed c)).
    { intros p2 Hs Hd. rewrite Hs, Hd.
      split; [reflexivity|]. split; [lia|]. split; [lia|]. split; [lia|].
      split; [exists pub|exists rows]; auto. }
    destruct record as [raw|]; [|cbn; by apply Hfail].
    pose proof (normalize_step_rows today raw p1) as Hstep.
    destruct (Normalizer.normalize_event today raw p1) as [[n|ex] p2]; cbn.
    + destruct Hstep as (Hs & Ht).
      split; [reflexivity|]. split; [lia|]. split; [lia|]. split; [lia|].
      split.
      * exists (pub ++ [Pipeline.record_of n]).
        rewrite Hs, Hpub, <- app_assoc, length_app. cbn.
        split; [reflexivity|lia].
      * destruct Ht as [Ht|Ht]; rewrite Ht, Hrows.
        -- exists rows. split; [reflexivity|lia].
        -- exists (rows ++ [Normalizer.row_of n]).
           rewrite <- app_assoc, length_app. cbn. split; [reflexivity|lia].
    + destruct Hstep as (Hs & Ht). by apply Hfail.
Qed.

End ConsumerProperties.


(* ===================================================================== *)
(** * Properties of the reprocessing service                              *)
(* ===================================================================== *)

Section ReprocessingProperties.

Import Reprocessing.
Local Open Scope py_scope.

Variable civil : date -> pydate.

(** A match call leaves the transactions it is not about as they
    are, and the identifier and the date of every transaction. *)
Lemma match_keeps_other_rows (tid : UUID) (w : world) (r : txn_row) :
  In r (normalized_transaction (db w)) ->
  t_transaction_id r <> tid ->
  In r (normalized_transaction (db (snd (Matching.match_transaction tid w)))).
Proof.
  intros Hin Hne.
  destruct (match_transaction_txns tid w) as [->|(st & ->)]; [exact Hin|].
  unfold update_reconciliation_status; cbn. apply in_map_iff.
  exists r. split; [|exact Hin]. by rewrite decide_False.
Qed.

Lemma match_step_exception tid w :
  match Matching.match_transaction tid w with
  | (Ok r, w') =>
      length (reconciliation_exception (db w'))
      = (length (reconciliation_exception (db w))
         + (if Matching.mr_exception r is Some _ then 1 else 0))%nat
      /\ (Consumers.is_matched r = true -> Matching.mr_exception r = None)
  | (Raise ex, w') =>
      (length (reconciliation_exception (db w))
       <= length (reconciliation_exception (db w'))
       <= length (reconciliation_exception (db w)) + 1)%nat
  end.
Proof.
  rewrite match_transaction_ladder. unfold Effects.ladder.
  destruct (Matching.select_transaction tid (db w)) as [t|]; [|lia].
  destruct (String.eqb _ "MATCHED"); [cbn; split; [lia|auto]|].
  destruct (Matching.hit Matching.STRONG_ID t (db w)) as [row1|];
    [cbn; split; [lia|auto]|].
  destruct (Matching.hit Matching.PSP_REFERENCE t (db w)) as [row2|].
  { cbv zeta. destruct (Qltb _ 1); cbn; rewrite ?length_app; cbn;
      (split; [lia|]); [auto|discriminate]. }
  destruct (Matching.hit Matching.FUZZY t (db w)) as [row3|]; [lia|].
  destruct (Matching.hit Matching.AMOUNT_DATE t (db w)) as [row4|]; cbn;
    rewrite length_app; cbn; [split; [lia|discriminate]|lia].
Qed.

Lemma reprocess_fold_keeps (ids : list UUID) (c : reprocess_counts)
    (w : world) (r : txn_row) :
  In r (normalized_transaction (db w)) ->
  ~ In (t_transaction_id r) ids ->
  In r (normalized_transaction
          (db (snd (fold_left reprocess_step ids (c, w))))).
Proof.
  revert c w. induction ids as [|tid ids IH]; intros c w Hin Hnot;
    [exact Hin|].
  cbn [fold_left]. unfold reprocess_step at 2.
  pose proof (match_keeps_other_rows tid w r Hin) as Hkeep.
  destruct (Matching.match_transaction tid w) as [[res|ex] w1];
    cbn [snd] in Hkeep; apply IH;
    try (apply Hkeep; intros Heq; apply Hnot; left; by symmetry);
    intros Hin'; apply Hnot; by right.
Qed.

(** X22.  What a reprocessing run reports and what it touches.  Only
    the transactions its query selects (the tenant's, dated in the
    range, with status PENDING, UNMATCHED or PARTIAL_MATCH, and on the
    connection if one is given) are matched again: every other row of
    [normalized_transaction] is left as it is.  A call of
    [match_transaction] that raises is counted nowhere, so
    [processed] can stay below the number selected; [matched] and
    [exceptions] never exceed [processed], and the exception rows
    written are the [exceptions] reported plus at most one for each
    selected transaction not processed. *)
Theorem reprocess_touches_selected_only (tenant : UUID)
    (start_date end_date : pydate) (psp_connection_id : option string)
    (w : world) :
  let ids := select_range civil tenant start_date end_date psp_connection_id
               (db w) in
  let '(c, w') := reprocess_date_range civil tenant start_date end_date
                    psp_connection_id w in
  let added :=
    Z.of_nat (length (reconciliation_exception (db w')))
    - Z.of_nat (length (reconciliation_exception (db w))) in
  0 <= matched_count c <= processed_count c
  /\ 0 <= exceptions_count c <= processed_count c
  /\ matched_count c + exceptions_count c <= processed_count c
  /\ processed_count c <= Z.of_nat (length ids)
  /\ exceptions_count c <= added
     <= exceptions_count c + (Z.of_nat (length ids) - processed_count c)
  /\ forall r,
       In r (normalized_transaction (db w)) ->
       ~ In (t_transaction_id r) ids ->
       In r (normalized_transaction (db w')).
Proof.
  cbv zeta. unfold reprocess_date_range.
  set (ids := select_range civil tenant start_date end_date
                psp_connection_id (db w)).
  pose proof (fun r => reprocess_fold_keeps ids
                {| processed_count := 0; matched_count := 0;
                   exceptions_count := 0 |} w r) as Hkeep.
  assert (Hcounts :
    let '(c, w') :=
      fold_left reprocess_step ids
        ({| processed_count := 0; matched_count := 0;
            exceptions_count := 0 |}, w) in
    0 <= matched_count c <= processed_count c
    /\ 0 <= exceptions_count c <= processed_count c
    /\ matched_count c + exceptions_count c <= processed_count c
    /\ processed_count c <= Z.of_nat (length ids)
    /\ exceptions_count c
       <= Z.of_nat (length (reconciliation_exception (db w')))
          - Z.of_nat (length (reconciliation_exception (db w)))
       <= exceptions_count c + (Z.of_nat (length ids) - processed_count c)).
  { clear Hkeep. generalize ids. clear ids. intros ids.
    induction ids as [|tid ids IH] using rev_ind; [cbn; lia|].
    rewrite fold_left_app. cbn [fold_left].
    destruct (fold_left reprocess_step ids _) as [c w1].
    rewrite length_app, Nat2Z.inj_add. cbn [length].
    unfold reprocess_step.
    pose proof (match_step_exception tid w1) as Hstep.
    destruct (Matching.match_transaction tid w1) as [[res|ex] w2].
    - destruct Hstep as (Hlen & Hexcl). cbn. rewrite Hlen.
      destruct (Consumers.is_matched res) eqn:Him.
      + rewrite (Hexcl eq_refl). lia.
      + destruct (Matching.mr_exception res); lia.
    - lia. }
  destruct (fold_left reprocess_step ids _) as [c w'].
  cbn [snd] in Hkeep.
  destruct Hcounts as (H1 & H2 & H3 & H4 & H5).
  repeat split; try lia. exact Hkeep.
Qed.

(** *** The monthly batches of the backfill *)

Ltac date_arith :=
  unfold date_le in *; cbn [year month day] in *;
  repeat (progress
    (rewrite ?orb_true_iff, ?andb_true_iff, ?orb_false_iff, ?andb_false_iff,
       ?Z.ltb_lt, ?Z.ltb_ge, ?Z.eqb_eq, ?Z.eqb_neq, ?Z.leb_le, ?Z.leb_gt
       in *));
  lia.

Lemma date_le_batch (current x end_date : pydate) :
  date_le current x = true ->
  date_le x (date_min {| year := year current; month := month current;
                         day := 28 |} end_date) = true ->
  day x <= 28.
Proof.
  unfold date_min.
  destruct (date_le {| year := year current; month := month current;
                       day := 28 |} end_date) eqn:Hmin;
    intros Ha Hb; date_arith.
Qed.

Lemma next_month_measure (current end_date : pydate) :
  1 <= month current <= 12 ->
  1 <= month end_date <= 12 ->
  date_le current end_date = true ->
  0 <= months_between current end_date
  /\ months_between
       (next_month (date_min {| year := year current; month := month current;
                                day := 28 |} end_date)) end_date
     = months_between current end_date - 1
  /\ 1 <= month (next_month
                   (date_min {| year := year current; month := month current;
                                day := 28 |} end_date)) <= 12.
Proof.
  unfold date_min, next_month, months_between. intros Hc He Hle.
  destruct (date_le {| year := year current; month := month current;
                       day := 28 |} end_date) eqn:Hmin; cbn [year month day].
  - destruct (month current =? 12) eqn:H12; cbn [year month day];
      date_arith.
  - destruct (month end_date =? 12) eqn:H12; cbn [year month day];
      date_arith.
Qed.

Lemma match_keeps_ids (tid : UUID) (w : world) :
  map t_transaction_id
      (normalized_transaction (db (snd (Matching.match_transaction tid w))))
  = map t_transaction_id (normalized_transaction (db w)).
Proof.
  destruct (match_transaction_txns tid w) as [->|(st & ->)]; [reflexivity|].
  unfold update_reconciliation_status; cbn. rewrite map_map.
  apply map_ext. intros r. by destruct (decide _).
Qed.

Lemma reprocess_fold_keeps_ids (ids : list UUID) (c : reprocess_counts)
    (w : world) :
  map t_transaction_id
      (normalized_transaction (db (snd (fold_left reprocess_step ids (c, w)))))
  = map t_transaction_id (normalized_transaction (db w)).
Proof.
  revert c w. induction ids as [|tid ids IH]; intros c w; [reflexivity|].
  cbn [fold_left]. unfold reprocess_step at 2.
  pose proof (match_keeps_ids tid w) as Hids.
  destruct (Matching.match_transaction tid w) as [[res|ex] w1];
    cbn [snd] in Hids; by rewrite IH.
Qed.

Lemma unique_id_row (rows : list txn_row) (a b : txn_row) :
  NoDup (map t_transaction_id rows) ->
  In a rows -> In b rows -> t_transaction_id a = t_transaction_id b -> a = b.
Proof.
  induction rows as [|r rows IH]; [intros _ []|].
  cbn. intros Hnd Ha Hb Heq. apply NoDup_cons in Hnd as (Hr & Hnd).
  assert (Hmem : forall x, In x rows ->
                   t_transaction_id x ∈ map t_transaction_id rows).
  { intros x Hx. apply list_elem_of_In, in_map, Hx. }
  destruct Ha as [->|Ha], Hb as [->|Hb]; auto.
  - exfalso. apply Hr. rewrite Heq. by apply Hmem.
  - exfalso. apply Hr. rewrite <- Heq. by apply Hmem.
Qed.

Lemma selected_day (tenant : UUID) (current end_date : pydate) (d : database)
    (tid : UUID) :
  In tid (select_range civil tenant current
            (date_min {| year := year current; month := month current;
                         day := 28 |} end_date) None d) ->
  exists r,
    In r (normalized_transaction d) /\ t_transaction_id r = tid
    /\ day (civil (t_transaction_date r)) <= 28.
Proof.
  unfold select_range. intros Hin.
  apply in_map_iff in Hin as (r & Hid & Hr).
  apply filter_In in Hr as (Hr & Hsel).
  exists r. split; [exact Hr|]. split; [exact Hid|].
  unfold in_range in Hsel. rewrite !andb_true_iff in Hsel.
  destruct Hsel as (((_ & Ha & Hb) & _) & _).
  eapply date_le_batch; eauto.
Qed.

Lemma backfill_loop_skips (tenant : UUID) (end_date : pydate) (fuel : nat) :
  1 <= month end_date <= 12 ->
  forall current totals w,
    1 <= month current <= 12 ->
    months_between current end_date + 1 <= Z.of_nat fuel ->
    NoDup (map t_transaction_id (normalized_transaction (db w))) ->
    exists totals' w',
      backfill_loop civil fuel tenant current end_date totals w
      = Some (totals', w')
      /\ forall r,
           In r (normalized_transaction (db w)) ->
           28 < day (civil (t_transaction_date r)) ->
           In r (normalized_transaction (db w')).
Proof.
  intros He.
  induction fuel as [|fuel IH]; intros current totals w Hc Hfuel Hnd.
  - cbn [backfill_loop].
    destruct (date_le current end_date) eqn:Hle.
    + apply next_month_measure in Hle as (H0 & _); [lia|lia|lia].
    + eexists _, _. split; [reflexivity|]. auto.
  - cbn [backfill_loop].
    destruct (date_le current end_date) eqn:Hle;
      [|eexists _, _; split; [reflexivity|]; auto].
    pose proof (next_month_measure _ _ Hc He Hle) as (H0 & Hnext & Hvalid).
    cbv zeta. unfold reprocess_date_range.
    set (batch_end := date_min _ end_date) in *.
    set (ids := select_range civil tenant current batch_end None (db w)).
    pose proof (reprocess_fold_keeps_ids ids
                  {| processed_count := 0; matched_count := 0;
                     exceptions_count := 0 |} w) as Hids.
    pose proof (fun r => reprocess_fold_keeps ids
                  {| processed_count := 0; matched_count := 0;
                     exceptions_count := 0 |} w r) as Hkeep.
    destruct (fold_left reprocess_step ids _) as [result w1].
    cbn [snd] in Hids, Hkeep.
    destruct (IH (next_month batch_end)
                 (fst totals + processed_count result,
                  snd totals + matched_count result) w1)
      as (totals' & w' & Hrun & Hrest).
    { exact Hvalid. }
    { rewrite Hnext. lia. }
    { by rewrite Hids. }
    exists totals', w'. split; [exact Hrun|].
    intros r Hin Hday. apply Hrest; [|exact Hday].
    apply Hkeep; [exact Hin|].
    intros Hsel. apply selected_day in Hsel as (r' & Hr' & Hid & Hd).
    assert (r' = r) by (eapply unique_id_row; eauto). subst r'. lia.
Qed.

(** X23.  The backfill ends each monthly batch on the 28th.  For
    every start and end date it returns (the loop needs one round for
    each month of the range), and no transaction dated on a 29th,
    30th or 31st is ever reprocessed by it: such a row is after the
    backfill as it was before, provided the transaction identifiers
    of the store are distinct. *)
Theorem backfill_skips_days_after_28 (tenant : UUID)
    (start_date end_date : pydate) (w : world) :
  1 <= month start_date <= 12 ->
  1 <= month end_date <= 12 ->
  NoDup (map t_transaction_id (normalized_transaction (db w))) ->
  exists totals w',
    backfill_historical civil tenant start_date end_date w
    = Some (totals, w')
    /\ forall r,
         In r (normalized_transaction (db w)) ->
         28 < day (civil (t_transaction_date r)) ->
         In r (normalized_transaction (db w')).
Proof.
  intros Hs He Hnd. unfold backfill_historical.
  apply backfill_loop_skips; [exact He|exact Hs| |exact Hnd].
  destruct (Z_le_gt_dec 0 (months_between start_date end_date + 1)).
  - rewrite Z2Nat.id by assumption. lia.
  - lia.
Qed.

End ReprocessingProperties.

Section ReprocessingExamples.

Import Reprocessing.

(** The backfill of January 2024 settles the transaction of the 15th
    and leaves the one of the 30th pending, although its settlement
    is there. *)
Lemma backfill_skips_days_after_28_witness :
  exists totals w',
    backfill_historical Cases.civil_from_days 7%N
      {| year := 2024; month := 1; day := 1 |}
      {| year := 2024; month := 1; day := 31 |} Cases.january
    = Some (totals, w')
    /\ In (Cases.txn_of_day 2%N 19752 "set_B")
          (normalized_transaction (db w'))
    /\ totals = (1, 1).
Proof.
  destruct (backfill_skips_days_after_28 Cases.civil_from_days 7%N
              {| year := 2024; month := 1; day := 1 |}
              {| year := 2024; month := 1; day := 31 |} Cases.january)
    as (totals & w' & Hrun & Hskip).
  { cbn. lia. }
  { cbn. lia. }
  { cbn. apply NoDup_cons. split; [|apply NoDup_singleton].
    intros H. apply list_elem_of_singleton in H. discriminate. }
  exists totals, w'. split; [exact Hrun|]. split.
  - apply Hskip; [right; left; reflexivity|]. vm_compute. reflexivity.
  - vm_compute in Hrun. inversion Hrun. reflexivity.
Defined.

End ReprocessingExamples.
